(** * HCI core (net/bluetooth/hci_core.c): a shallow embedding and its properties

    The file follows the layout of the C source: packet buffers and the packet
    view, the controller state record [dev], command creation and dispatch,
    the ACL and event handlers, the two fibers, and the bring-up sequence
    [hci_init].  Pointers into the static [buffers] array are indices,
    [NULL] is [None], unsigned integers are [Z] with their wrap-around
    written out. *)

From Stdlib Require Import String ZArith List Bool Lia Permutation.
Import ListNotations.
Open Scope Z_scope.

(** ** Machine integers and wire decoding *)

Definition u8 (x : Z) : Z := x mod 2 ^ 8.
Definition u16 (x : Z) : Z := x mod 2 ^ 16.

(** [size_t] and data pointers are 32 bits wide on the targets of this stack. *)
Definition size_bits : Z := 32.
Definition usize (x : Z) : Z := x mod 2 ^ size_bits.

Arguments u8 : simpl never.
Arguments u16 : simpl never.
Arguments usize : simpl never.

(** Modelled from the spec: [sys_le16_to_cpu] of byteorder.h, applied to two
    consecutive wire bytes (little-endian). *)
Definition sys_le16_to_cpu (lo hi : Z) : Z := Z.lor (u8 lo) (Z.shiftl (u8 hi) 8).

(** Modelled from the spec: [sys_cpu_to_le16] of byteorder.h, the two wire
    bytes of a 16-bit value. *)
Definition sys_cpu_to_le16 (v : Z) : list Z := [Z.land v 255; Z.land (Z.shiftr v 8) 255].

(** ** Packet buffers *)

(** Semaphores that live on a caller's stack ([sync_sem]) are named by an id. *)
Definition sem_id := nat.

(** Modelled from the spec: [enum bt_buf_type] of bluetooth.h, with the three
    types the core uses; the field is a [uint8_t], so other values can
    occur. *)
Inductive bt_buf_type := BT_CMD | BT_EVT | BT_ACL | BT_TYPE_OTHER (raw : Z).

(** Modelled from the spec: [BT_BUF_MAX_DATA] is declared in bluetooth.h, which
    is not part of the sources at hand; the spec calls it a fixed compile-time
    parameter (CAP).  The theorems below only use [0 <= CAP < 2^32]. *)
Definition BT_BUF_MAX_DATA : Z := 128.

Arguments BT_BUF_MAX_DATA : simpl never.

Definition NUM_BUFS : nat := 5.

(** Modelled from the spec: [struct bt_buf] of bluetooth.h, with the fields
    the core reads and writes.  [data] is kept as the offset [data - buf]
    into the byte array [buf]. *)
Record bt_buf := mk_buf {
  sync : option sem_id;
  opcode : Z;
  type : bt_buf_type;
  data : Z;
  len : Z;
  buf : list Z
}.

Definition set_sync (v : option sem_id) (b : bt_buf) : bt_buf :=
  mk_buf v (opcode b) (type b) (data b) (len b) (buf b).
Definition set_opcode (v : Z) (b : bt_buf) : bt_buf :=
  mk_buf (sync b) v (type b) (data b) (len b) (buf b).
Definition set_type (v : bt_buf_type) (b : bt_buf) : bt_buf :=
  mk_buf (sync b) (opcode b) v (data b) (len b) (buf b).
Definition set_data (v : Z) (b : bt_buf) : bt_buf :=
  mk_buf (sync b) (opcode b) (type b) v (len b) (buf b).
Definition set_len (v : Z) (b : bt_buf) : bt_buf :=
  mk_buf (sync b) (opcode b) (type b) (data b) v (buf b).
Definition set_buf (v : list Z) (b : bt_buf) : bt_buf :=
  mk_buf (sync b) (opcode b) (type b) (data b) (len b) v.

(** A zero-initialised static buffer. *)
Definition zero_buf : bt_buf :=
  mk_buf None 0 BT_CMD 0 0 (repeat 0 (Z.to_nat BT_BUF_MAX_DATA)).

(** *** The packet view: bt_buf_add, bt_buf_push, bt_buf_pull *)

(** [bt_buf_add]: returns the old tail, grows [len]. *)
Definition bt_buf_add (b : bt_buf) (n : Z) : Z * bt_buf :=
  let tail := usize (data b + len b) in
  (tail, set_len (usize (len b + n)) b).

(** [bt_buf_push]: moves [data] back, grows [len], returns the new [data]. *)
Definition bt_buf_push (b : bt_buf) (n : Z) : Z * bt_buf :=
  let b1 := set_data (usize (data b - n)) b in
  let b2 := set_len (usize (len b1 + n)) b1 in
  (data b2, b2).

(** [bt_buf_pull]: shrinks [len], moves [data] forward, returns the new [data]. *)
Definition bt_buf_pull (b : bt_buf) (n : Z) : Z * bt_buf :=
  let b1 := set_len (usize (len b - n)) b in
  let b2 := set_data (usize (data b1 + n)) b1 in
  (data b2, b2).

(** [bt_buf_headroom]: [buf->data - buf->buf] as a [size_t]. *)
Definition bt_buf_headroom (b : bt_buf) : Z := usize (data b - 0).

(** [bt_buf_tailroom]: [BT_BUF_MAX_DATA - bt_buf_headroom(buf) - buf->len]. *)
Definition bt_buf_tailroom (b : bt_buf) : Z :=
  usize (BT_BUF_MAX_DATA - bt_buf_headroom b - len b).

(** Reading and writing the bytes the payload pointer addresses.  Inside the
    array this is the C access; an access outside of it (undefined in C) reads
    0 and writes nothing. *)
Definition byte_at (b : bt_buf) (off : Z) : Z :=
  nth (Z.to_nat (off)) (buf b) 0.

Fixpoint write_at (l : list Z) (off : nat) (bytes : list Z) : list Z :=
  match bytes with
  | [] => l
  | x :: rest =>
      match off, l with
      | _, [] => []
      | O, _ :: l' => x :: write_at l' O rest
      | S k, y :: l' => y :: write_at l' k bytes
      end
  end.

Definition write_bytes (off : Z) (bytes : list Z) (b : bt_buf) : bt_buf :=
  set_buf (write_at (buf b) (Z.to_nat off) bytes) b.

(** The buffer is well formed: the window [data, data+len) lies in the array. *)
Definition buf_wf (b : bt_buf) : Prop :=
  0 <= data b /\ 0 <= len b /\ data b + len b <= BT_BUF_MAX_DATA.

(** The capacity equation of the spec, on the code's unsigned functions. *)
Definition buf_inv (b : bt_buf) : Prop :=
  bt_buf_headroom b + len b + bt_buf_tailroom b = BT_BUF_MAX_DATA.

Inductive buf_op := OpAdd (n : Z) | OpPush (n : Z) | OpPull (n : Z).

Definition apply_op (b : bt_buf) (o : buf_op) : bt_buf :=
  match o with
  | OpAdd n => snd (bt_buf_add b n)
  | OpPush n => snd (bt_buf_push b n)
  | OpPull n => snd (bt_buf_pull b n)
  end.

(** The stated precondition of each operation ([n] is a [size_t]). *)
Definition op_pre (b : bt_buf) (o : buf_op) : Prop :=
  match o with
  | OpAdd n => 0 <= n <= bt_buf_tailroom b
  | OpPush n => 0 <= n <= bt_buf_headroom b
  | OpPull n => 0 <= n <= len b
  end.

(** The buffers seen after each operation of a sequence. *)
Fixpoint run_ops (b : bt_buf) (ops : list buf_op) : list bt_buf :=
  match ops with
  | [] => []
  | o :: rest => apply_op b o :: run_ops (apply_op b o) rest
  end.

(** Every operation of the sequence is applied with its precondition. *)
Fixpoint ops_ok (b : bt_buf) (ops : list buf_op) : Prop :=
  match ops with
  | [] => True
  | o :: rest => op_pre b o /\ ops_ok (apply_op b o) rest
  end.

(** ** The controller state record and the system state *)

(** Modelled from the spec: [struct bt_driver] of bluetooth.h as the core
    uses it.  The transport is an external collaborator: [open] is the code
    its [open()] returns, [send] is observed through the [DrvSend] entries of
    the trace. *)
Record bt_driver := mk_drv {
  head_reserve : Z;
  open : Z
}.

(** [struct bt_dev]. *)
Record bt_dev := mk_dev {
  bdaddr : list Z;
  hci_version : Z;
  hci_revision : Z;
  manufacturer : Z;
  features : list Z;
  le_features : list Z;
  le_mtu : Z;
  le_pkts : Z;
  ncmd : Z;
  ncmd_sem : nat;
  sent_cmd : option nat;
  rx_queue : list nat;
  cmd_queue : list nat;
  drv : option bt_driver
}.

Definition set_bdaddr v d := mk_dev v (hci_version d) (hci_revision d) (manufacturer d) (features d) (le_features d) (le_mtu d) (le_pkts d) (ncmd d) (ncmd_sem d) (sent_cmd d) (rx_queue d) (cmd_queue d) (drv d).
Definition set_hci_version v d := mk_dev (bdaddr d) v (hci_revision d) (manufacturer d) (features d) (le_features d) (le_mtu d) (le_pkts d) (ncmd d) (ncmd_sem d) (sent_cmd d) (rx_queue d) (cmd_queue d) (drv d).
Definition set_hci_revision v d := mk_dev (bdaddr d) (hci_version d) v (manufacturer d) (features d) (le_features d) (le_mtu d) (le_pkts d) (ncmd d) (ncmd_sem d) (sent_cmd d) (rx_queue d) (cmd_queue d) (drv d).
Definition set_manufacturer v d := mk_dev (bdaddr d) (hci_version d) (hci_revision d) v (features d) (le_features d) (le_mtu d) (le_pkts d) (ncmd d) (ncmd_sem d) (sent_cmd d) (rx_queue d) (cmd_queue d) (drv d).
Definition set_features v d := mk_dev (bdaddr d) (hci_version d) (hci_revision d) (manufacturer d) v (le_features d) (le_mtu d) (le_pkts d) (ncmd d) (ncmd_sem d) (sent_cmd d) (rx_queue d) (cmd_queue d) (drv d).
Definition set_le_features v d := mk_dev (bdaddr d) (hci_version d) (hci_revision d) (manufacturer d) (features d) v (le_mtu d) (le_pkts d) (ncmd d) (ncmd_sem d) (sent_cmd d) (rx_queue d) (cmd_queue d) (drv d).
Definition set_le_mtu v d := mk_dev (bdaddr d) (hci_version d) (hci_revision d) (manufacturer d) (features d) (le_features d) v (le_pkts d) (ncmd d) (ncmd_sem d) (sent_cmd d) (rx_queue d) (cmd_queue d) (drv d).
Definition set_le_pkts v d := mk_dev (bdaddr d) (hci_version d) (hci_revision d) (manufacturer d) (features d) (le_features d) (le_mtu d) v (ncmd d) (ncmd_sem d) (sent_cmd d) (rx_queue d) (cmd_queue d) (drv d).
Definition set_ncmd v d := mk_dev (bdaddr d) (hci_version d) (hci_revision d) (manufacturer d) (features d) (le_features d) (le_mtu d) (le_pkts d) v (ncmd_sem d) (sent_cmd d) (rx_queue d) (cmd_queue d) (drv d).
Definition set_ncmd_sem v d := mk_dev (bdaddr d) (hci_version d) (hci_revision d) (manufacturer d) (features d) (le_features d) (le_mtu d) (le_pkts d) (ncmd d) v (sent_cmd d) (rx_queue d) (cmd_queue d) (drv d).
Definition set_sent_cmd v d := mk_dev (bdaddr d) (hci_version d) (hci_revision d) (manufacturer d) (features d) (le_features d) (le_mtu d) (le_pkts d) (ncmd d) (ncmd_sem d) v (rx_queue d) (cmd_queue d) (drv d).
Definition set_rx_queue v d := mk_dev (bdaddr d) (hci_version d) (hci_revision d) (manufacturer d) (features d) (le_features d) (le_mtu d) (le_pkts d) (ncmd d) (ncmd_sem d) (sent_cmd d) v (cmd_queue d) (drv d).
Definition set_cmd_queue v d := mk_dev (bdaddr d) (hci_version d) (hci_revision d) (manufacturer d) (features d) (le_features d) (le_mtu d) (le_pkts d) (ncmd d) (ncmd_sem d) (sent_cmd d) (rx_queue d) v (drv d).
Definition set_drv v d := mk_dev (bdaddr d) (hci_version d) (hci_revision d) (manufacturer d) (features d) (le_features d) (le_mtu d) (le_pkts d) (ncmd d) (ncmd_sem d) (sent_cmd d) (rx_queue d) (cmd_queue d) v.

(** The zero-initialised static [dev]. *)
Definition zero_dev : bt_dev :=
  mk_dev (repeat 0 6) 0 0 0 (repeat 0 8) (repeat 0 8) 0 0 0 O None [] [] None.

(** A semaphore the code gives: the credit semaphore [dev.ncmd_sem] or a
    caller's [sync_sem]. *)
Inductive sem_ref := NcmdSem | SyncSem (s : sem_id).

(** What the core does to its collaborators, in program order: the messages
    of [BT_DBG] and [BT_ERR] (format string and arguments, a pointer printed
    as the buffer's index), the buffers handed to [drv->send], and the
    semaphores given. *)
Inductive event :=
| Dbg (fmt : string) (args : list Z)
| Err (fmt : string) (args : list Z)
| DrvSend (b : nat)
| SemGive (s : sem_ref).

(** Where the command fiber is suspended. *)
Inductive cmd_pc := CmdNotStarted | CmdWaitSem | CmdWaitFifo.

(** Where the receive fiber is suspended, or that it has returned. *)
Inductive rx_pc := RxNotStarted | RxWaitFifo | RxExited.

(** The whole state of the core: the static buffers, the free queue, [dev],
    the semaphores on caller stacks, the two fibers and the trace. *)
Record sys := mk_sys {
  buffers : list bt_buf;
  free_bufs : list nat;
  dev : bt_dev;
  sems : list nat;
  cmd_fiber : cmd_pc;
  rx_fiber : rx_pc;
  trace : list event
}.

Definition set_buffers v st := mk_sys v (free_bufs st) (dev st) (sems st) (cmd_fiber st) (rx_fiber st) (trace st).
Definition set_free_bufs v st := mk_sys (buffers st) v (dev st) (sems st) (cmd_fiber st) (rx_fiber st) (trace st).
Definition set_dev v st := mk_sys (buffers st) (free_bufs st) v (sems st) (cmd_fiber st) (rx_fiber st) (trace st).
Definition set_sems v st := mk_sys (buffers st) (free_bufs st) (dev st) v (cmd_fiber st) (rx_fiber st) (trace st).
Definition set_cmd_fiber v st := mk_sys (buffers st) (free_bufs st) (dev st) (sems st) v (rx_fiber st) (trace st).
Definition set_rx_fiber v st := mk_sys (buffers st) (free_bufs st) (dev st) (sems st) (cmd_fiber st) v (trace st).
Definition set_trace v st := mk_sys (buffers st) (free_bufs st) (dev st) (sems st) (cmd_fiber st) (rx_fiber st) v.

(** The state at process start, with driver [d] registered. *)
Definition boot (d : option bt_driver) : sys :=
  mk_sys (repeat zero_buf NUM_BUFS) [] (set_drv d zero_dev) [] CmdNotStarted RxNotStarted [].

(** Update of one cell of an array. *)
Fixpoint list_upd {A} (i : nat) (f : A -> A) (l : list A) : list A :=
  match l, i with
  | [], _ => []
  | x :: l', O => f x :: l'
  | x :: l', S k => x :: list_upd k f l'
  end.

Definition buf_of (st : sys) (i : nat) : bt_buf := nth i (buffers st) zero_buf.
Definition upd_buf (i : nat) (f : bt_buf -> bt_buf) (st : sys) : sys :=
  set_buffers (list_upd i f (buffers st)) st.
Definition upd_dev (f : bt_dev -> bt_dev) (st : sys) : sys := set_dev (f (dev st)) st.
Definition emit (e : event) (st : sys) : sys := set_trace (trace st ++ [e]) st.
Definition sem_count (s : sem_id) (st : sys) : nat := nth s (sems st) O.

(** ** Computations of the core

    A computation runs on the state and returns, dereferences [NULL]
    ([Fault]: the behaviour of the C program is undefined from there), or
    blocks in [nano_sem_take_wait] on a caller's semaphore ([Wait]) with the
    rest of the function as a continuation of the state it is resumed in. *)
Inductive res (A : Type) :=
| Ret (a : A) (st : sys)
| Fault (st : sys)
| Wait (s : sem_id) (st : sys) (k : sys -> res A).
Arguments Ret {A} a st.
Arguments Fault {A} st.
Arguments Wait {A} s st k.

Definition M (A : Type) := sys -> res A.

Definition ret {A} (a : A) : M A := fun st => Ret a st.

Fixpoint bind_res {A B} (r : res A) (f : A -> M B) : res B :=
  match r with
  | Ret a st => f a st
  | Fault st => Fault st
  | Wait s st k => Wait s st (fun st' => bind_res (k st') f)
  end.

Definition bind {A B} (m : M A) (f : A -> M B) : M B := fun st => bind_res (m st) f.

Notation "x <- c1 ;; c2" := (bind c1 (fun x => c2))
  (at level 61, c1 at next level, right associativity).
Notation "c1 ;; c2" := (bind c1 (fun _ => c2))
  (at level 61, right associativity).

Definition get : M sys := fun st => Ret st st.
Definition modify (f : sys -> sys) : M unit := fun st => Ret tt (f st).
Definition null_deref {A} : M A := fun st => Fault st.

Definition BT_DBG (fmt : string) (args : list Z) : M unit := modify (emit (Dbg fmt args)).
Definition BT_ERR (fmt : string) (args : list Z) : M unit := modify (emit (Err fmt args)).
Definition ptr (i : nat) : Z := Z.of_nat i.

(** ** Kernel primitives *)

(** Modelled from the spec: the nanokernel FIFO and semaphore primitives are
    not part of the sources at hand.  Following the spec's concurrency model
    (cooperative fibers, context switches only at explicit FIFO and semaphore
    waits), a put and a give never yield, a get on an empty FIFO returns
    [NULL], and a semaphore is a counter.  The nanokernel links the elements
    of a FIFO in place, so an element must not be put while it is queued
    (a double release corrupts the pool): the list is the queue for an
    element that is in no queue, see [fifos_ok]. *)
Definition nano_fifo_put {A} (q : list A) (x : A) : list A := q ++ [x].

(** Modelled from the spec: [nano_fifo_get], the oldest element or [NULL]. *)
Definition nano_fifo_get {A} (q : list A) : option A * list A :=
  match q with
  | [] => (None, [])
  | x :: q' => (Some x, q')
  end.

(** Modelled from the spec: [nano_sem_init] of a semaphore on the caller's
    stack, a new id with count 0. *)
Definition nano_sem_init : M sem_id := fun st =>
  Ret (List.length (sems st)) (set_sems (sems st ++ [O]) st).

(** Modelled from the spec: a give adds one to the count, a take removes
    one. *)
Definition sem_give (s : sem_id) (st : sys) : sys :=
  set_sems (list_upd s S (sems st)) st.
Definition sem_take (s : sem_id) (st : sys) : sys :=
  set_sems (list_upd s pred (sems st)) st.

(** Modelled from the spec: [nano_fiber_sem_give] on a caller's semaphore. *)
Definition nano_fiber_sem_give (s : sem_id) : M unit :=
  modify (fun st => emit (SemGive (SyncSem s)) (sem_give s st)).

(** Modelled from the spec: [nano_fiber_sem_give(&dev.ncmd_sem)] and
    [nano_task_sem_give(&dev.ncmd_sem)]. *)
Definition ncmd_sem_give : M unit :=
  modify (fun st => emit (SemGive NcmdSem) (upd_dev (fun d => set_ncmd_sem (S (ncmd_sem d)) d) st)).

(** Modelled from the spec: [nano_sem_take_wait] takes the semaphore at once
    when it is available, otherwise the caller blocks and takes it when it is
    resumed. *)
Definition nano_sem_take_wait (s : sem_id) : M unit := fun st =>
  if (0 <? sem_count s st)%nat then Ret tt (sem_take s st)
  else Wait s st (fun st' => Ret tt (sem_take s st')).

(** ** The buffer pool *)

Definition bt_buf_get_reserve (reserve_head : Z) : M (option nat) :=
  st <- get;;
  match nano_fifo_get (free_bufs st) with
  | (None, _) =>
      BT_ERR "Failed to get free buffer\n" [];;
      ret None
  | (Some i, rest) =>
      modify (set_free_bufs rest);;
      modify (upd_buf i (set_data (usize (0 + reserve_head))));;
      modify (upd_buf i (set_len 0));;
      modify (upd_buf i (set_sync None));;
      BT_DBG "buf %p reserve %u\n" [ptr i; reserve_head];;
      ret (Some i)
  end.

Definition bt_buf_get : M (option nat) := bt_buf_get_reserve 0.

Definition bt_buf_put (i : nat) : M unit :=
  BT_DBG "buf %p\n" [ptr i];;
  modify (fun st => set_free_bufs (nano_fifo_put (free_bufs st) i) st).

(** The packet view applied to a buffer of the array. *)
Definition buf_add (i : nat) (n : Z) : M Z := fun st =>
  Ret (fst (bt_buf_add (buf_of st i) n)) (upd_buf i (fun b => snd (bt_buf_add b n)) st).
Definition buf_pull (i : nat) (n : Z) : M Z := fun st =>
  Ret (fst (bt_buf_pull (buf_of st i) n)) (upd_buf i (fun b => snd (bt_buf_pull b n)) st).
Definition buf_store (i : nat) (off : Z) (bytes : list Z) : M unit :=
  modify (upd_buf i (write_bytes off bytes)).

(** ** HCI constants *)

(** Modelled from the spec: hci.h and errno.h are not part of the sources at
    hand.  The opcodes, event codes, LMP feature bits and the packed wire
    structures are the ones of the HCI wire formats the spec describes
    (little-endian, fields in the order of the HCI parameters); no theorem
    depends on the numeric value of an opcode beyond their being distinct. *)
Definition BT_HCI_OP_SET_EVENT_MASK : Z := 0x0c01.
Definition BT_HCI_OP_RESET : Z := 0x0c03.
Definition BT_HCI_OP_LE_WRITE_LE_HOST_SUPP : Z := 0x0c6d.
Definition BT_HCI_OP_READ_LOCAL_VERSION_INFO : Z := 0x1001.
Definition BT_HCI_OP_READ_LOCAL_FEATURES : Z := 0x1003.
Definition BT_HCI_OP_READ_BUFFER_SIZE : Z := 0x1005.
Definition BT_HCI_OP_READ_BD_ADDR : Z := 0x1009.
Definition BT_HCI_OP_LE_READ_BUFFER_SIZE : Z := 0x2002.
Definition BT_HCI_OP_LE_READ_LOCAL_FEATURES : Z := 0x2003.

(** Modelled from the spec: the event codes of Command Complete and Command
    Status. *)
Definition BT_HCI_EVT_CMD_COMPLETE : Z := 0x0e.
Definition BT_HCI_EVT_CMD_STATUS : Z := 0x0f.

(** Modelled from the spec: the bits of [features[4]] and of
    [le_features[0]] the bring-up reads. *)
Definition BT_LMP_NO_BREDR : Z := 0x20.
Definition BT_LMP_LE : Z := 0x40.
Definition BT_HCI_LE_ENCRYPTION : Z := 0x01.

(** Modelled from the spec: the error codes behind NoDevice and NoBuffer. *)
Definition ENODEV : Z := 19.
Definition ENOBUFS : Z := 55.

(** Modelled from the spec: [sizeof] of the packed wire structures. *)
Definition sizeof_cmd_hdr : Z := 3.
Definition sizeof_acl_hdr : Z := 4.
Definition sizeof_evt_hdr : Z := 2.
Definition sizeof_evt_cmd_complete : Z := 3.
Definition sizeof_evt_cmd_status : Z := 4.
Definition sizeof_cp_set_event_mask : Z := 8.
Definition sizeof_cp_write_le_host_supp : Z := 2.

(** Modelled from the spec: [bt_acl_handle], the 12-bit connection handle. *)
Definition bt_acl_handle (h : Z) : Z := Z.land h 0x0fff.

(** A field of a wire structure at pointer [p] into the buffer's array. *)
Definition fld8 (b : bt_buf) (p off : Z) : Z := u8 (byte_at b (p + off)).
Definition fld16 (b : bt_buf) (p off : Z) : Z :=
  sys_le16_to_cpu (byte_at b (p + off)) (byte_at b (p + off + 1)).
Definition fld_bytes (b : bt_buf) (p off : Z) (n : nat) : list Z :=
  map (fun k => u8 (byte_at b (p + off + Z.of_nat k))) (seq 0 n).

(** Modelled from the spec: the fields of the return parameters of hci.h,
    read through [buf->data] at their offsets in the packed structures. *)
Definition rp_status (b : bt_buf) : Z := fld8 b (data b) 0.
Definition rp_hci_version (b : bt_buf) : Z := fld8 b (data b) 1.
Definition rp_hci_revision (b : bt_buf) : Z := fld16 b (data b) 2.
Definition rp_manufacturer (b : bt_buf) : Z := fld16 b (data b) 5.
Definition rp_features (b : bt_buf) : list Z := fld_bytes b (data b) 1 8.
Definition rp_acl_max_len (b : bt_buf) : Z := fld16 b (data b) 1.
Definition rp_acl_max_num (b : bt_buf) : Z := fld16 b (data b) 4.
Definition rp_bdaddr (b : bt_buf) : list Z := fld_bytes b (data b) 1 6.
Definition rp_le_max_len (b : bt_buf) : Z := fld16 b (data b) 1.
Definition rp_le_max_num (b : bt_buf) : Z := fld8 b (data b) 3.

(** LMP feature helpers. *)
Definition lmp_bredr_capable (d : bt_dev) : bool :=
  Z.land (nth 4 (features d) 0) BT_LMP_NO_BREDR =? 0.
Definition lmp_le_capable (d : bt_dev) : bool :=
  negb (Z.land (nth 4 (features d) 0) BT_LMP_LE =? 0).

(** ** Command creation and dispatch *)

Definition bt_hci_cmd_create (op : Z) (param_len : Z) : M (option nat) :=
  BT_DBG "opcode %x param_len %u\n" [op; param_len];;
  st <- get;;
  match drv (dev st) with
  | None => null_deref
  | Some d =>
      buf <- bt_buf_get_reserve (head_reserve d);;
      match buf with
      | None =>
          BT_ERR "Cannot get free buffer\n" [];;
          ret None
      | Some i =>
          BT_DBG "buf %p\n" [ptr i];;
          modify (upd_buf i (set_type BT_CMD));;
          modify (upd_buf i (set_opcode op));;
          modify (upd_buf i (set_sync None));;
          hdr <- buf_add i sizeof_cmd_hdr;;
          buf_store i hdr (sys_cpu_to_le16 op ++ [u8 param_len]);;
          ret (Some i)
      end
  end.

Definition cmd_queue_put (i : nat) : M unit :=
  modify (upd_dev (fun d => set_cmd_queue (nano_fifo_put (cmd_queue d) i) d)).

Definition bt_hci_cmd_send (op : Z) (buf : option nat) : M Z :=
  obuf <- match buf with
          | Some i => ret (Some i)
          | None => bt_hci_cmd_create op 0
          end;;
  match obuf with
  | None => ret (- ENOBUFS)
  | Some i =>
      st <- get;;
      BT_DBG "opcode %x len %u\n" [op; len (buf_of st i)];;
      cmd_queue_put i;;
      ret 0
  end.

Definition bt_hci_cmd_send_sync (op : Z) (buf : option nat) : M Z :=
  obuf <- match buf with
          | Some i => ret (Some i)
          | None => bt_hci_cmd_create op 0
          end;;
  match obuf with
  | None => ret (- ENOBUFS)
  | Some i =>
      st <- get;;
      BT_DBG "opcode %x len %u\n" [op; len (buf_of st i)];;
      sync_sem <- nano_sem_init;;
      modify (upd_buf i (set_sync (Some sync_sem)));;
      cmd_queue_put i;;
      nano_sem_take_wait sync_sem;;
      ret 0
  end.

(** ** ACL data *)

Definition hci_acl (i : nat) : M unit :=
  st <- get;;
  let hdr := data (buf_of st i) in
  let len_ := fld16 (buf_of st i) hdr 2 in
  let handle := fld16 (buf_of st i) hdr 0 in
  let flags := u8 (Z.shiftr handle 12) in
  let handle := bt_acl_handle handle in
  buf_pull i sizeof_acl_hdr;;
  BT_DBG "handle %u len %u flags %u\n" [handle; len_; flags];;
  st <- get;;
  if negb (len (buf_of st i) =? len_) then
    BT_ERR "ACL data length mismatch (%u != %u)\n" [len (buf_of st i); len_];;
    bt_buf_put i
  else
    bt_buf_put i.

(** ** HCI event processing *)

Definition hci_reset_complete (i : nat) : M unit :=
  st <- get;;
  let status := rp_status (buf_of st i) in
  BT_DBG "status %u\n" [status];;
  if negb (status =? 0) then ret tt else ret tt.

Definition hci_read_local_ver_complete (i : nat) : M unit :=
  st <- get;;
  let rp := buf_of st i in
  BT_DBG "status %u\n" [rp_status rp];;
  if negb (rp_status rp =? 0) then ret tt
  else
    modify (upd_dev (set_hci_version (rp_hci_version rp)));;
    modify (upd_dev (set_hci_revision (rp_hci_revision rp)));;
    modify (upd_dev (set_manufacturer (rp_manufacturer rp))).

Definition hci_read_features_complete (i : nat) : M unit :=
  st <- get;;
  let rp := buf_of st i in
  BT_DBG "status %u\n" [rp_status rp];;
  modify (upd_dev (set_features (rp_features rp))).

Definition hci_read_buffer_size_complete (i : nat) : M unit :=
  st <- get;;
  let rp := buf_of st i in
  BT_DBG "status %u\n" [rp_status rp];;
  if negb (rp_status rp =? 0) then ret tt
  else if negb (le_mtu (dev st) =? 0) then ret tt
  else
    modify (upd_dev (set_le_mtu (rp_acl_max_len rp)));;
    modify (upd_dev (set_le_pkts (u8 (rp_acl_max_num rp)))).

Definition hci_read_bdaddr_complete (i : nat) : M unit :=
  st <- get;;
  let rp := buf_of st i in
  BT_DBG "status %u\n" [rp_status rp];;
  if negb (rp_status rp =? 0) then ret tt
  else modify (upd_dev (set_bdaddr (rp_bdaddr rp))).

Definition hci_le_read_buffer_size_complete (i : nat) : M unit :=
  st <- get;;
  let rp := buf_of st i in
  BT_DBG "status %u\n" [rp_status rp];;
  if negb (rp_status rp =? 0) then ret tt
  else
    modify (upd_dev (set_le_mtu (rp_le_max_len rp)));;
    modify (upd_dev (set_le_pkts (rp_le_max_num rp))).

Definition hci_le_read_features_complete (i : nat) : M unit :=
  st <- get;;
  let rp := buf_of st i in
  BT_DBG "status %u\n" [rp_status rp];;
  modify (upd_dev (set_le_features (rp_features rp))).

Definition hci_cmd_done (op : Z) : M unit :=
  st <- get;;
  match sent_cmd (dev st) with
  | None => null_deref
  | Some sent =>
      if negb (opcode (buf_of st sent) =? op) then
        BT_ERR "Unexpected completion of opcode %x\n" [op]
      else
        modify (upd_dev (set_sent_cmd None));;
        st <- get;;
        match sync (buf_of st sent) with
        | Some s => nano_fiber_sem_give s
        | None => ret tt
        end;;
        bt_buf_put sent
  end.

(** The [switch (opcode)] of [hci_cmd_complete]. *)
Definition cmd_complete_switch (op : Z) (i : nat) : M unit :=
  if op =? BT_HCI_OP_RESET then hci_reset_complete i
  else if op =? BT_HCI_OP_READ_LOCAL_VERSION_INFO then hci_read_local_ver_complete i
  else if op =? BT_HCI_OP_READ_LOCAL_FEATURES then hci_read_features_complete i
  else if op =? BT_HCI_OP_READ_BUFFER_SIZE then hci_read_buffer_size_complete i
  else if op =? BT_HCI_OP_READ_BD_ADDR then hci_read_bdaddr_complete i
  else if op =? BT_HCI_OP_LE_READ_BUFFER_SIZE then hci_le_read_buffer_size_complete i
  else if op =? BT_HCI_OP_LE_READ_LOCAL_FEATURES then hci_le_read_features_complete i
  else BT_ERR "Unknown opcode %x\n" [op].

(** The credit refill that ends [hci_cmd_complete] and [hci_cmd_status];
    [evt] is the pointer to the event structure, [ncmd_off] the offset of its
    [ncmd] field. *)
Definition credit_refill (i : nat) (evt ncmd_off : Z) : M unit :=
  st <- get;;
  if negb (fld8 (buf_of st i) evt ncmd_off =? 0) && (ncmd (dev st) =? 0) then
    modify (upd_dev (set_ncmd 1));;
    ncmd_sem_give
  else ret tt.

Definition hci_cmd_complete (i : nat) : M unit :=
  st <- get;;
  let evt := data (buf_of st i) in
  let op := fld16 (buf_of st i) evt 1 in
  BT_DBG "opcode %x\n" [op];;
  buf_pull i sizeof_evt_cmd_complete;;
  cmd_complete_switch op i;;
  hci_cmd_done op;;
  credit_refill i evt 0.

Definition hci_cmd_status (i : nat) : M unit :=
  st <- get;;
  let evt := data (buf_of st i) in
  let op := fld16 (buf_of st i) evt 2 in
  BT_DBG "opcode %x\n" [op];;
  buf_pull i sizeof_evt_cmd_status;;
  BT_ERR "Unknown opcode %x" [op];;
  hci_cmd_done op;;
  credit_refill i evt 1.

Definition hci_event (i : nat) : M unit :=
  st <- get;;
  let hdr := data (buf_of st i) in
  BT_DBG "event %u\n" [fld8 (buf_of st i) hdr 0];;
  buf_pull i sizeof_evt_hdr;;
  st <- get;;
  let evt := fld8 (buf_of st i) hdr 0 in
  (if evt =? BT_HCI_EVT_CMD_COMPLETE then hci_cmd_complete i
   else if evt =? BT_HCI_EVT_CMD_STATUS then hci_cmd_status i
   else BT_ERR "Unknown event %u\n" [evt]);;
  bt_buf_put i.

(** ** The fibers *)

(** One run of [hci_cmd_fiber] from the suspension point it is at to the
    next one; [None] while it stays blocked.  [drv->send] returns here
    without blocking, so the buffer is handed over and [dev.sent_cmd]
    assigned in the same run; [hci_cmd_fiber_send] below is the fiber with a
    driver whose [send] blocks. *)
Definition hci_cmd_fiber (st : sys) : option sys :=
  match cmd_fiber st with
  | CmdNotStarted => None
  | CmdWaitSem =>
      match ncmd_sem (dev st) with
      | O => None
      | S n => Some (set_cmd_fiber CmdWaitFifo (upd_dev (set_ncmd_sem n) st))
      end
  | CmdWaitFifo =>
      match nano_fifo_get (cmd_queue (dev st)) with
      | (None, _) => None
      | (Some buf, rest) =>
          let st := upd_dev (set_cmd_queue rest) st in
          let st := upd_dev (set_ncmd 0) st in
          let st := emit (Dbg "Sending command (buf %p) to driver\n" [ptr buf]) st in
          let st := emit (DrvSend buf) st in
          let st := upd_dev (set_sent_cmd (Some buf)) st in
          Some (set_cmd_fiber CmdWaitSem st)
      end
  end.

Definition type_code (t : bt_buf_type) : Z :=
  match t with BT_CMD => 0 | BT_EVT => 1 | BT_ACL => 2 | BT_TYPE_OTHER raw => raw end.

(** The body of the loop of [hci_rx_fiber] for a dequeued buffer. *)
Definition hci_rx_dispatch (i : nat) : M unit :=
  st <- get;;
  BT_DBG "buf %p type %u len %u\n" [ptr i; type_code (type (buf_of st i)); len (buf_of st i)];;
  match type (buf_of st i) with
  | BT_ACL => hci_acl i
  | BT_EVT => hci_event i
  | _ =>
      BT_ERR "Unknown buf type %u\n" [type_code (type (buf_of st i))];;
      modify (set_rx_fiber RxExited)
  end.

(** One iteration of [hci_rx_fiber]; [None] while it stays blocked, after it
    has returned, and when the handler dereferences [NULL]. *)
Definition hci_rx_fiber (st : sys) : option sys :=
  match rx_fiber st with
  | RxWaitFifo =>
      match nano_fifo_get (rx_queue (dev st)) with
      | (None, _) => None
      | (Some buf, rest) =>
          match hci_rx_dispatch buf (upd_dev (set_rx_queue rest) st) with
          | Ret _ st' => Some st'
          | _ => None
          end
      end
  | _ => None
  end.

(** ** Bring-up *)

Definition or_byte (i : nat) (off : Z) (v : Z) : M unit :=
  modify (upd_buf i (fun b => write_bytes off [Z.lor (byte_at b off) v] b)).

(** [hci_init] up to its first barrier: the three asynchronous sends and the
    synchronous [READ_BD_ADDR] (the statements before the LE check). *)
Definition hci_init_barrier : M Z :=
  bt_hci_cmd_send BT_HCI_OP_RESET None;;
  bt_hci_cmd_send BT_HCI_OP_READ_LOCAL_FEATURES None;;
  bt_hci_cmd_send BT_HCI_OP_READ_LOCAL_VERSION_INFO None;;
  bt_hci_cmd_send_sync BT_HCI_OP_READ_BD_ADDR None.

(** The rest of [hci_init], from the LE check to its end. *)
Definition hci_init_configure : M Z :=
  let finish : M Z :=
    st <- get;;
    BT_DBG "HCI ver %u rev %u, manufacturer %u\n"
      [hci_version (dev st); hci_revision (dev st); manufacturer (dev st)];;
    BT_DBG "ACL buffers: pkts %u mtu %u\n" [le_pkts (dev st); le_mtu (dev st)];;
    ret 0 in
  st <- get;;
  if negb (lmp_le_capable (dev st)) then
    BT_ERR "Non-LE capable controller detected!\n" [];;
    ret (- ENODEV)
  else
    bt_hci_cmd_send BT_HCI_OP_LE_READ_LOCAL_FEATURES None;;
    bt_hci_cmd_send BT_HCI_OP_LE_READ_BUFFER_SIZE None;;
    buf <- bt_hci_cmd_create BT_HCI_OP_SET_EVENT_MASK 8;;
    match buf with
    | None => ret (- ENOBUFS)
    | Some b =>
        ev <- buf_add b sizeof_cp_set_event_mask;;
        buf_store b ev (repeat 0 (Z.to_nat sizeof_cp_set_event_mask));;
        or_byte b (ev + 0) 0x10;;
        or_byte b (ev + 1) 0x08;;
        or_byte b (ev + 1) 0x20;;
        or_byte b (ev + 1) 0x40;;
        or_byte b (ev + 1) 0x80;;
        or_byte b (ev + 2) 0x04;;
        or_byte b (ev + 3) 0x02;;
        or_byte b (ev + 7) 0x20;;
        st <- get;;
        (if negb (Z.land (nth 0 (le_features (dev st)) 0) BT_HCI_LE_ENCRYPTION =? 0) then
           or_byte b (ev + 0) 0x80;;
           or_byte b (ev + 5) 0x80
         else ret tt);;
        bt_hci_cmd_send_sync BT_HCI_OP_SET_EVENT_MASK (Some b);;
        st <- get;;
        if lmp_bredr_capable (dev st) then
          (if le_mtu (dev st) =? 0 then
             bt_hci_cmd_send BT_HCI_OP_READ_BUFFER_SIZE None;; ret tt
           else ret tt);;
          buf <- bt_hci_cmd_create BT_HCI_OP_LE_WRITE_LE_HOST_SUPP sizeof_cp_write_le_host_supp;;
          match buf with
          | None => ret (- ENOBUFS)
          | Some b =>
              cp <- buf_add b sizeof_cp_write_le_host_supp;;
              buf_store b (cp + 0) [0x01];;
              buf_store b (cp + 1) [0x00];;
              bt_hci_cmd_send_sync BT_HCI_OP_LE_WRITE_LE_HOST_SUPP (Some b);;
              finish
          end
        else finish
    end.

Definition hci_init : M Z :=
  hci_init_barrier;;
  hci_init_configure.

Definition bt_hci_reset : M Z := hci_init.

(** ** Interface to the driver, initialisation *)

Definition bt_recv (i : nat) : M unit :=
  modify (upd_dev (fun d => set_rx_queue (nano_fifo_put (rx_queue d) i) d)).

(** [fiber_start]: the fiber prints its first [BT_DBG] and is ready at the top
    of its loop. *)
Definition fiber_start_cmd : M unit :=
  BT_DBG "\n" [];;
  modify (set_cmd_fiber CmdWaitSem).
Definition fiber_start_rx : M unit :=
  BT_DBG "\n" [];;
  modify (set_rx_fiber RxWaitFifo).

Definition cmd_queue_init : M unit :=
  modify (upd_dev (set_cmd_queue []));;
  modify (upd_dev (set_ncmd_sem O));;
  modify (upd_dev (set_ncmd 1));;
  ncmd_sem_give;;
  fiber_start_cmd.

Definition rx_queue_init : M unit :=
  modify (upd_dev (set_rx_queue []));;
  fiber_start_rx.

Definition free_queue_init : M unit :=
  modify (set_free_bufs []);;
  modify (fun st => set_free_bufs (fold_left nano_fifo_put (seq 0 NUM_BUFS) (free_bufs st)) st).

Definition bt_init : M Z :=
  st <- get;;
  match drv (dev st) with
  | None => ret (- ENODEV)
  | Some d =>
      free_queue_init;;
      cmd_queue_init;;
      rx_queue_init;;
      let err := open d in
      if negb (err =? 0) then ret err
      else hci_init
  end.

(** ** The system as a transition system

    The fibers are cooperative: between two suspension points a fiber or a
    caller runs alone.  An action is one such run: of a fiber, of the driver
    delivering a packet, or of a caller of the command interface. *)
Inductive action :=
| Cmd_fiber
| Rx_fiber
| Drv_recv (ty : bt_buf_type) (bytes : list Z)
| Call_create (op plen : Z)
| Call_fill (b : nat) (bytes : list Z)
| Call_send (op : Z) (buf : option nat)
| Call_send_sync (op : Z) (buf : option nat)
| Sync_return (s : sem_id).

(** The driver's receive path: [bt_buf_get], fill in the packet, [bt_recv];
    the packet is lost when the pool is empty. *)
Definition drv_deliver (ty : bt_buf_type) (bytes : list Z) : M unit :=
  buf <- bt_buf_get;;
  match buf with
  | None => ret tt
  | Some i =>
      modify (upd_buf i (set_type ty));;
      p <- buf_add i (Z.of_nat (List.length bytes));;
      buf_store i p bytes;;
      bt_recv i
  end.

(** A caller appends parameters to a command it has created. *)
Definition buf_fill (i : nat) (bytes : list Z) : M unit :=
  p <- buf_add i (Z.of_nat (List.length bytes));;
  buf_store i p bytes.

(** The state a run leaves behind when it returns or blocks. *)
Definition settle {A} (r : res A) : option sys :=
  match r with
  | Ret _ st => Some st
  | Wait _ st _ => Some st
  | Fault _ => None
  end.

Definition step (a : action) (st : sys) : option sys :=
  match a with
  | Cmd_fiber => hci_cmd_fiber st
  | Rx_fiber => hci_rx_fiber st
  | Drv_recv ty bytes => settle (drv_deliver ty bytes st)
  | Call_create op plen => settle (bt_hci_cmd_create op plen st)
  | Call_fill b bytes => settle (buf_fill b bytes st)
  | Call_send op buf => settle (bt_hci_cmd_send op buf st)
  | Call_send_sync op buf => settle (bt_hci_cmd_send_sync op buf st)
  | Sync_return s =>
      if (0 <? sem_count s st)%nat then Some (sem_take s st) else None
  end.

Fixpoint exec (acts : list action) (st : sys) : option sys :=
  match acts with
  | [] => Some st
  | a :: rest =>
      match step a st with
      | Some st' => exec rest st'
      | None => None
      end
  end.

(** The state [bt_init] has set up when it enters [hci_init]. *)
Definition started (d : bt_driver) : sys :=
  match (free_queue_init;; cmd_queue_init;; rx_queue_init) (boot (Some d)) with
  | Ret _ st => st
  | Fault st => st
  | Wait _ st _ => st
  end.

Definition reachable (d : bt_driver) (st : sys) : Prop :=
  exists acts, exec acts (started d) = Some st.

(** ** Running a caller to completion *)

(** A caller's run against an environment that decides in which state each
    of its waits ends. *)
Fixpoint run_with {A} (env : sem_id -> sys -> sys) (r : res A) : option (A * sys) :=
  match r with
  | Ret a st => Some (a, st)
  | Fault _ => None
  | Wait s st k => run_with env (k (env s st))
  end.

(** A stub controller answers a command, given by its opcode, with the bytes
    of one event packet. *)
Definition stub_controller := Z -> list Z.

(** The fibers run until both are blocked; a command handed to the driver is
    answered by the stub controller through the driver's receive path. *)
Fixpoint run_fibers (ctl : stub_controller) (fuel : nat) (st : sys) : sys :=
  match fuel with
  | O => st
  | S fuel' =>
      match hci_cmd_fiber st with
      | Some st1 =>
          match cmd_fiber st, sent_cmd (dev st1) with
          | CmdWaitFifo, Some b =>
              let op := fld16 (buf_of st1 b) (data (buf_of st1 b)) 0 in
              match settle (drv_deliver BT_EVT (ctl op) st1) with
              | Some st2 => run_fibers ctl fuel' st2
              | None => st1
              end
          | _, _ => run_fibers ctl fuel' st1
          end
      | None =>
          match hci_rx_fiber st with
          | Some st1 => run_fibers ctl fuel' st1
          | None => st
          end
      end
  end.

(** A caller's run with the fibers and a stub controller; [None] when it
    stays blocked or the program dereferences [NULL]. *)
Fixpoint run_task {A} (ctl : stub_controller) (fuel : nat) (r : res A) : option (A * sys) :=
  match r with
  | Ret a st => Some (a, st)
  | Fault _ => None
  | Wait s st k =>
      let st' := run_fibers ctl fuel st in
      if (0 <? sem_count s st')%nat then run_task ctl fuel (k st') else None
  end.

(** A Command Complete event packet. *)
Definition cmd_complete_evt (ncmd_ op : Z) (params : list Z) : list Z :=
  [BT_HCI_EVT_CMD_COMPLETE; Z.of_nat (List.length params) + 3; ncmd_] ++ sys_cpu_to_le16 op ++ params.

(** A Command Status event packet. *)
Definition cmd_status_evt (status ncmd_ op : Z) : list Z :=
  [BT_HCI_EVT_CMD_STATUS; 4; status; ncmd_] ++ sys_cpu_to_le16 op.

(** The stub controller of the spec's scenarios S1 to S3: every command
    succeeds; [f4] is byte 4 of the feature page, [mtu] the LE buffer size. *)
Definition scenario_ctl (f4 mtu : Z) : stub_controller := fun op =>
  cmd_complete_evt 1 op
    (if op =? BT_HCI_OP_READ_LOCAL_FEATURES then [0; 0; 0; 0; 0; f4; 0; 0; 0]
     else if op =? BT_HCI_OP_READ_LOCAL_VERSION_INFO then [0; 9; 0x34; 0x12; 9; 0x0F; 0x00; 0; 0]
     else if op =? BT_HCI_OP_READ_BD_ADDR then [0; 0x66; 0x55; 0x44; 0x33; 0x22; 0x11]
     else if op =? BT_HCI_OP_LE_READ_LOCAL_FEATURES then [0; 0; 0; 0; 0; 0; 0; 0; 0]
     else if op =? BT_HCI_OP_LE_READ_BUFFER_SIZE then [0; mtu; 0; 4]
     else if op =? BT_HCI_OP_READ_BUFFER_SIZE then [0; 0x00; 0x04; 60; 0x08; 0x00; 1; 0]
     else [0]).

Definition stub_drv : bt_driver := mk_drv 1 0.

(** ** Observations on traces *)

(** A message of [BT_DBG] or [BT_ERR]. *)
Definition is_log (e : event) : bool :=
  match e with
  | Dbg _ _ | Err _ _ => true
  | _ => false
  end.

(** A give of the credit semaphore. *)
Definition is_credit_give (e : event) : bool :=
  match e with
  | SemGive NcmdSem => true
  | _ => false
  end.

(** A command handed to the driver, or a give of the credit semaphore. *)
Definition is_credit_event (e : event) : bool :=
  match e with
  | DrvSend _ => true
  | SemGive NcmdSem => true
  | _ => false
  end.

(** How often the credit semaphore was given. *)
Definition credit_gives (tr : list event) : nat :=
  List.length (filter is_credit_give tr).

(** What a completion event does to the credit: [e] is the [ncmd] field of
    the event, [st] the state before and [st'] the state after the handler. *)
Definition refill_outcome (e : Z) (st st' : sys) : Prop :=
  (0 < e /\ ncmd (dev st) = 0 ->
   ncmd (dev st') = 1 /\
   ncmd_sem (dev st') = S (ncmd_sem (dev st)) /\
   credit_gives (trace st') = S (credit_gives (trace st))) /\
  (~ (0 < e /\ ncmd (dev st) = 0) ->
   ncmd (dev st') = ncmd (dev st) /\
   ncmd_sem (dev st') = ncmd_sem (dev st) /\
   credit_gives (trace st') = credit_gives (trace st)).

(** Everything but [dev] and the trace is the same in both states. *)
Definition same_memory (st st' : sys) : Prop :=
  buffers st' = buffers st /\
  free_bufs st' = free_bufs st /\
  sems st' = sems st /\
  cmd_fiber st' = cmd_fiber st /\
  rx_fiber st' = rx_fiber st.

(** A computation that returns, touches only [dev] and the log, and within
    [dev] leaves the credit, [sent_cmd], the queues and the driver. *)
Definition logs_only (m : M unit) : Prop :=
  forall st, exists st' l,
    m st = Ret tt st' /\
    same_memory st st' /\
    ncmd (dev st') = ncmd (dev st) /\
    ncmd_sem (dev st') = ncmd_sem (dev st) /\
    sent_cmd (dev st') = sent_cmd (dev st) /\
    rx_queue (dev st') = rx_queue (dev st) /\
    cmd_queue (dev st') = cmd_queue (dev st) /\
    drv (dev st') = drv (dev st) /\
    trace st' = trace st ++ l /\
    forallb is_log l = true.

(** What the correlator does with the outstanding command [sent] on a
    completion for [op]: [l] is what it appends to the trace. *)
Definition correlated (op : Z) (sent : nat) (st st' : sys) (l : list event) : Prop :=
  (opcode (buf_of st sent) <> op /\
   sent_cmd (dev st') = Some sent /\
   free_bufs st' = free_bufs st /\
   sems st' = sems st /\
   l = [Err "Unexpected completion of opcode %x\n" [op]]) \/
  (opcode (buf_of st sent) = op /\
   sent_cmd (dev st') = None /\
   free_bufs st' = free_bufs st ++ [sent] /\
   ((sync (buf_of st sent) = None /\
     sems st' = sems st /\
     l = [Dbg "buf %p\n" [ptr sent]]) \/
    (exists s,
        sync (buf_of st sent) = Some s /\
        sems st' = list_upd s S (sems st) /\
        l = [SemGive (SyncSem s); Dbg "buf %p\n" [ptr sent]]))).

(** The credit refill for an event whose [ncmd] field is [e]: [l] is what it
    appends to the trace. *)
Definition refilled (e : Z) (st st' : sys) (l : list event) : Prop :=
  (0 < e /\ ncmd (dev st) = 0 /\
   ncmd (dev st') = 1 /\
   ncmd_sem (dev st') = S (ncmd_sem (dev st)) /\
   l = [SemGive NcmdSem]) \/
  (~ (0 < e /\ ncmd (dev st) = 0) /\
   ncmd (dev st') = ncmd (dev st) /\
   ncmd_sem (dev st') = ncmd_sem (dev st) /\
   l = []).

(** ** Credit gating, seen on the trace *)

(** The credit as the trace shows it: a give of the credit semaphore makes
    it available, a command handed to the driver uses it up; [None] once a
    command was handed over without it. *)
Definition gate_step (c : option bool) (e : event) : option bool :=
  match c, e with
  | None, _ => None
  | Some true, DrvSend _ => Some false
  | Some false, DrvSend _ => None
  | Some _, SemGive NcmdSem => Some true
  | Some c, _ => Some c
  end.

Definition gate (tr : list event) : option bool := fold_left gate_step tr (Some false).

(** The credit invariant: the trace is gated, the credit it shows is the one
    the semaphore or the command fiber holds, and [dev.ncmd = 0] only while
    there is none. *)
Definition credit_inv (st : sys) : Prop :=
  exists c,
    gate (trace st) = Some c /\
    (if c : bool
     then (ncmd_sem (dev st) = 1%nat /\ cmd_fiber st = CmdWaitSem) \/
          (ncmd_sem (dev st) = O /\ cmd_fiber st = CmdWaitFifo)
     else ncmd_sem (dev st) = O /\ cmd_fiber st = CmdWaitSem) /\
    (ncmd (dev st) = 0 -> c = false).

(** The spec's single outstanding command, on a state: when
    the command fiber is about to hand a buffer to the driver, the previous
    command has been cleared from [sent_cmd]. *)
Definition hands_over_only_after_completion (st : sys) : Prop :=
  cmd_fiber st = CmdWaitFifo -> cmd_queue (dev st) <> [] -> sent_cmd (dev st) = None.

(** ** Completion events as the receive fiber decodes them *)

(** The opcode [hci_event] decodes from buffer [i] when it holds a Command
    Complete or a Command Status event. *)
Definition rx_event_opcode (st : sys) (i : nat) : option Z :=
  let hdr := data (buf_of st i) in
  let st1 := upd_buf i (fun b => snd (bt_buf_pull b sizeof_evt_hdr)) st in
  let b1 := buf_of st1 i in
  match type (buf_of st i) with
  | BT_EVT =>
      if fld8 b1 hdr 0 =? BT_HCI_EVT_CMD_COMPLETE then Some (fld16 b1 (data b1) 1)
      else if fld8 b1 hdr 0 =? BT_HCI_EVT_CMD_STATUS then Some (fld16 b1 (data b1) 2)
      else None
  | _ => None
  end.

(** The receive fiber is about to consume a completion event for [op]. *)
Definition rx_consumes (st : sys) (op : Z) : Prop :=
  exists i rest,
    rx_fiber st = RxWaitFifo /\
    rx_queue (dev st) = i :: rest /\
    rx_event_opcode st i = Some op.

(** A semaphore named in a buffer exists. *)
Definition syncs_exist (st : sys) : Prop :=
  forall j s, sync (buf_of st j) = Some s -> (s < List.length (sems st))%nat.

(** Semaphore [s] exists and is attached only to commands with opcode [op]. *)
Definition waits_for (s : sem_id) (op : Z) (st : sys) : Prop :=
  (s < List.length (sems st))%nat /\
  forall j, sync (buf_of st j) = Some s -> opcode (buf_of st j) = op.

(** What a run of a caller or of the driver's receive path can do to the
    credit, the fibers, the semaphores and the [sync] and [opcode] fields. *)
Definition caller_effect (st st' : sys) : Prop :=
  ncmd (dev st') = ncmd (dev st) /\
  ncmd_sem (dev st') = ncmd_sem (dev st) /\
  sent_cmd (dev st') = sent_cmd (dev st) /\
  cmd_fiber st' = cmd_fiber st /\
  rx_fiber st' = rx_fiber st /\
  (exists l, trace st' = trace st ++ l /\ forallb is_log l = true) /\
  (sems st' = sems st \/ sems st' = sems st ++ [O]) /\
  (forall j,
      (sync (buf_of st' j) = sync (buf_of st j) /\
       opcode (buf_of st' j) = opcode (buf_of st j)) \/
      sync (buf_of st' j) = None \/
      (sync (buf_of st' j) = Some (List.length (sems st)) /\
       sems st' = sems st ++ [O])).

(** A run that leaves the credit, [sent_cmd], the fibers and the semaphores
    alone, only logs, and changes [sync] or [opcode] of a buffer only
    together with clearing its [sync]. *)
Definition quiet_step (st st' : sys) : Prop :=
  ncmd (dev st') = ncmd (dev st) /\
  ncmd_sem (dev st') = ncmd_sem (dev st) /\
  sent_cmd (dev st') = sent_cmd (dev st) /\
  cmd_fiber st' = cmd_fiber st /\
  rx_fiber st' = rx_fiber st /\
  (exists l, trace st' = trace st ++ l /\ forallb is_log l = true) /\
  sems st' = sems st /\
  (forall j,
      (sync (buf_of st' j) = sync (buf_of st j) /\
       opcode (buf_of st' j) = opcode (buf_of st j)) \/
      sync (buf_of st' j) = None).

(** The actions of callers and of the driver, as opposed to the fibers and
    the return of a blocked caller. *)
Definition is_caller_action (a : action) : bool :=
  match a with
  | Cmd_fiber | Rx_fiber | Sync_return _ => false
  | _ => true
  end.

(** What the correlator does to [sent_cmd] and the semaphores. *)
Definition completion_outcome (op : Z) (sent : nat) (st st' : sys) (l : list event) : Prop :=
  (opcode (buf_of st sent) <> op /\
   sent_cmd (dev st') = Some sent /\
   sems st' = sems st /\
   l = [Err "Unexpected completion of opcode %x\n" [op]]) \/
  (opcode (buf_of st sent) = op /\
   sent_cmd (dev st') = None /\
   ((sync (buf_of st sent) = None /\
     sems st' = sems st /\
     l = [Dbg "buf %p\n" [ptr sent]]) \/
    (exists s,
        sync (buf_of st sent) = Some s /\
        sems st' = list_upd s S (sems st) /\
        l = [SemGive (SyncSem s); Dbg "buf %p\n" [ptr sent]]))).

(** What one iteration of the receive fiber does: it logs, it keeps the
    [sync] and [opcode] fields and the command fiber, and when it consumes a
    completion event it runs the correlator and the credit refill. *)
Definition rx_effect (st st' : sys) : Prop :=
  cmd_fiber st' = cmd_fiber st /\
  (forall j,
      sync (buf_of st' j) = sync (buf_of st j) /\
      opcode (buf_of st' j) = opcode (buf_of st j)) /\
  exists l1 l2 l3 l4,
    trace st' = trace st ++ l1 ++ l2 ++ l3 ++ l4 /\
    forallb is_log l1 = true /\
    forallb is_log l4 = true /\
    ((l2 = [] /\ l3 = [] /\
      sems st' = sems st /\
      ncmd (dev st') = ncmd (dev st) /\
      ncmd_sem (dev st') = ncmd_sem (dev st) /\
      sent_cmd (dev st') = sent_cmd (dev st)) \/
     (exists op sent e,
         rx_consumes st op /\
         sent_cmd (dev st) = Some sent /\
         completion_outcome op sent st st' l2 /\
         refilled e st st' l3)).

(** No completion with a mismatching opcode has been logged. *)
Definition no_unexpected (tr : list event) : Prop :=
  forall op, ~ In (Err "Unexpected completion of opcode %x\n" [op]) tr.

(** While no mismatching completion was seen, available credit means that
    the last command has been completed. *)
Definition cleared_inv (st : sys) : Prop :=
  no_unexpected (trace st) -> gate (trace st) = Some true -> sent_cmd (dev st) = None.

(** The commands handed to the driver and the gives of the credit
    semaphore, in order. *)
Definition credit_trace (tr : list event) : list event := filter is_credit_event tr.

(** The state the stub driver's system is in after a schedule (the start
    state if the schedule cannot run). *)
Definition after (acts : list action) : sys :=
  match exec acts (started stub_drv) with
  | Some st => st
  | None => started stub_drv
  end.

(** Two commands are queued, the first is sent, and the controller answers
    with a Command Complete for an opcode that was never sent, granting one
    credit. *)
Definition mismatch_scenario : list action :=
  [Call_send BT_HCI_OP_RESET None; Call_send BT_HCI_OP_READ_LOCAL_FEATURES None;
   Cmd_fiber; Cmd_fiber;
   Drv_recv BT_EVT (cmd_complete_evt 1 0x0000 [0]);
   Rx_fiber; Cmd_fiber].

(** Two commands are queued and sent one after the other, the first being
    completed by the controller in between. *)
Definition two_commands_scenario : list action :=
  [Call_send BT_HCI_OP_RESET None; Call_send BT_HCI_OP_READ_LOCAL_FEATURES None;
   Cmd_fiber; Cmd_fiber;
   Drv_recv BT_EVT (cmd_complete_evt 1 BT_HCI_OP_RESET [0]);
   Rx_fiber; Cmd_fiber; Cmd_fiber].

(** A caller has created a Read BD_ADDR command and not sent it yet. *)
Definition created_scenario : list action := [Call_create BT_HCI_OP_READ_BD_ADDR 0].

(** The command fiber sends the queued command, the controller completes a
    Read BD_ADDR and the receive fiber consumes the event. *)
Definition completion_scenario : list action :=
  [Cmd_fiber; Cmd_fiber;
   Drv_recv BT_EVT (cmd_complete_evt 1 BT_HCI_OP_READ_BD_ADDR [0; 1; 2; 3; 4; 5; 6]);
   Rx_fiber].

(** Along the schedule [acts] from [st1], the receive fiber consumes a
    completion event for [op] while the outstanding command is the one that
    carries the semaphore [s]. *)
Definition completion_consumed (s : sem_id) (op : Z) (acts : list action) (st1 : sys) : Prop :=
  exists acts1 acts2 st_a sent,
    acts = acts1 ++ Rx_fiber :: acts2 /\
    exec acts1 st1 = Some st_a /\
    rx_consumes st_a op /\
    sent_cmd (dev st_a) = Some sent /\
    sync (buf_of st_a sent) = Some s /\
    opcode (buf_of st_a sent) = op.

(** The state a run ends or blocks in. *)
Definition state_of {A} (r : res A) : sys :=
  match r with
  | Ret _ st => st
  | Fault st => st
  | Wait _ st _ => st
  end.

(** Buffer [i] once [hci_event] has pulled the event header, as the
    handlers of Command Complete and Command Status find it. *)
Definition event_pulled (i : nat) (st : sys) : sys :=
  upd_buf i (fun b => snd (bt_buf_pull b sizeof_evt_hdr)) st.

(** Reset is outstanding and the controller reports, with one credit, the
    completion of a Read BD_ADDR. *)
Definition unexpected_scenario : list action :=
  [Call_send BT_HCI_OP_RESET None; Cmd_fiber; Cmd_fiber;
   Drv_recv BT_EVT (cmd_complete_evt 1 BT_HCI_OP_READ_BD_ADDR [0; 1; 2; 3; 4; 5; 6])].

(** Reset is outstanding and the controller reports its completion with
    one credit. *)
Definition matching_scenario : list action :=
  [Call_send BT_HCI_OP_RESET None; Cmd_fiber; Cmd_fiber;
   Drv_recv BT_EVT (cmd_complete_evt 1 BT_HCI_OP_RESET [0])].

(** A Reset is sent and completed by an event that grants no credit; the
    controller then grants the credit with a Command Complete for the
    opcode 0x0000 (no operation) while no command is outstanding. *)
Definition credit_lost_scenario : list action :=
  [Call_send BT_HCI_OP_RESET None; Cmd_fiber; Cmd_fiber;
   Drv_recv BT_EVT (cmd_complete_evt 0 BT_HCI_OP_RESET [0]); Rx_fiber;
   Drv_recv BT_EVT (cmd_complete_evt 1 0x0000 [0])].

(** The driver delivers an ACL packet whose header announces 5 bytes and
    which carries 2. *)
Definition acl_scenario : list action := [Drv_recv BT_ACL [1; 0; 5; 0; 9; 9]].

(** A Reset has been sent and completed, and three more commands have been
    created: the next buffer of the free queue is the one Reset used. *)
Definition stale_scenario : list action :=
  matching_scenario ++
  [Rx_fiber;
   Call_create BT_HCI_OP_READ_BD_ADDR 0;
   Call_create BT_HCI_OP_READ_BD_ADDR 0;
   Call_create BT_HCI_OP_READ_BD_ADDR 0].

(** ** Further parts of the core *)

(** [n] calls of [bt_buf_get] in a row, with what each of them returned. *)
Fixpoint bt_buf_get_n (n : nat) : M (list (option nat)) :=
  match n with
  | O => ret []
  | S k =>
      b <- bt_buf_get;;
      bs <- bt_buf_get_n k;;
      ret (b :: bs)
  end.

(** Modelled from the spec: the error codes of errno.h that
    [bt_driver_register] returns. *)
Definition EALREADY : Z := 69.
Definition EINVAL : Z := 22.

(** A [struct bt_driver] as it is passed to [bt_driver_register]: the
    function pointers [open] and [send] may be [NULL]; [ops_open] holds the
    value [open()] returns when the pointer is set. *)
Record bt_driver_ops := mk_ops {
  ops_head_reserve : Z;
  ops_open : option Z;
  ops_send : bool
}.

Definition bt_driver_register (drv_ : bt_driver_ops) : M Z :=
  st <- get;;
  match drv (dev st) with
  | Some _ => ret (- EALREADY)
  | None =>
      match ops_open drv_, ops_send drv_ with
      | Some o, true =>
          modify (upd_dev (set_drv (Some (mk_drv (ops_head_reserve drv_) o))));;
          ret 0
      | _, _ => ret (- EINVAL)
      end
  end.

Definition bt_driver_unregister (drv_ : bt_driver_ops) : M unit :=
  modify (upd_dev (set_drv None)).

(** The driver [bt_driver_register] stores for a complete [struct bt_driver]. *)
Definition registered (o : bt_driver_ops) : option bt_driver :=
  match ops_open o, ops_send o with
  | Some r, true => Some (mk_drv (ops_head_reserve o) r)
  | _, _ => None
  end.

(** Three registrations with an unregistration before the last one. *)
Definition register_twice_then_swap (a b c : bt_driver_ops) : M (Z * Z * Z) :=
  r1 <- bt_driver_register a;;
  r2 <- bt_driver_register b;;
  bt_driver_unregister b;;
  r3 <- bt_driver_register c;;
  ret (r1, r2, r3).

(** The three initialisations [bt_init] runs before it opens the driver. *)
Definition queues_init : M unit :=
  free_queue_init;;
  cmd_queue_init;;
  rx_queue_init.

(** The fields of [dev] the response parsers fill in: what the host knows
    about the controller. *)
Definition controller_info (d : bt_dev) :=
  (bdaddr d, hci_version d, hci_revision d, manufacturer d,
   features d, le_features d, le_mtu d, le_pkts d).

(** The opcodes [hci_cmd_complete] has a response parser for. *)
Definition parsed_opcodes : list Z :=
  [BT_HCI_OP_RESET; BT_HCI_OP_READ_LOCAL_VERSION_INFO; BT_HCI_OP_READ_LOCAL_FEATURES;
   BT_HCI_OP_READ_BUFFER_SIZE; BT_HCI_OP_READ_BD_ADDR; BT_HCI_OP_LE_READ_BUFFER_SIZE;
   BT_HCI_OP_LE_READ_LOCAL_FEATURES].

(** SET_EVENT_MASK is outstanding and the controller reports its completion
    with one credit. *)
Definition event_mask_scenario : list action :=
  [Call_send BT_HCI_OP_SET_EVENT_MASK None; Cmd_fiber; Cmd_fiber;
   Drv_recv BT_EVT (cmd_complete_evt 1 BT_HCI_OP_SET_EVENT_MASK [0])].

(** Reset is outstanding and the controller reports it as pending with a
    Command Status event that carries one credit. *)
Definition status_scenario : list action :=
  [Call_send BT_HCI_OP_RESET None; Cmd_fiber; Cmd_fiber;
   Drv_recv BT_EVT (cmd_status_evt 0 1 BT_HCI_OP_RESET)].

(** ** Frame conditions of computations *)

(** The state a computation returns or blocks in is related to the state it
    started in; a computation that dereferences [NULL] has no such state. *)
Definition res_rel {A} (R : sys -> sys -> Prop) (st : sys) (r : res A) : Prop :=
  match r with
  | Ret _ st' => R st st'
  | Wait _ st' _ => R st st'
  | Fault _ => True
  end.

Definition keeps {A} (R : sys -> sys -> Prop) (m : M A) : Prop :=
  forall st, res_rel R st (m st).

(** A computation that returns and leaves [dev] alone. *)
Definition keeps_dev {A} (m : M A) : Prop :=
  forall S, exists a S', m S = Ret a S' /\ dev S' = dev S.

(** The buffers handed to [drv->send], in order. *)
Definition sent_bufs (tr : list event) : list nat :=
  flat_map (fun e => match e with DrvSend b => [b] | _ => [] end) tr.

(** Nothing is taken out of the two queues and nothing is handed to the
    driver. *)
Definition queues_grow (st st' : sys) : Prop :=
  (exists enq, cmd_queue (dev st') = cmd_queue (dev st) ++ enq) /\
  (exists more, rx_queue (dev st') = rx_queue (dev st) ++ more) /\
  sent_bufs (trace st') = sent_bufs (trace st).

(** [sent_cmd], when set, is the buffer that was handed to the driver last. *)
Definition sent_cmd_is_last (st : sys) : Prop :=
  forall sent,
    sent_cmd (dev st) = Some sent ->
    exists pre, sent_bufs (trace st) = pre ++ [sent].

(** What [or_byte] does to the bytes of a buffer: [bytes[off] |= v]. *)
Definition or_at (off : nat) (v : Z) (l : list Z) : list Z :=
  write_at l off [Z.lor (nth off l 0) v].

Arguments or_at : simpl never.

(** The window and the bytes of buffer [b]. *)
Definition buf_is (st : sys) (b : nat) (d l : Z) (bytes : list Z) : Prop :=
  (b < List.length (buffers st))%nat /\
  data (buf_of st b) = d /\
  len (buf_of st b) = l /\
  buf (buf_of st b) = bytes.

(** The event mask [hci_init] builds: byte 0 and byte 5 depend on whether
    the controller supports LE encryption. *)
Definition event_mask (le_encryption : bool) : list Z :=
  if le_encryption
  then [0x90; 0xe8; 0x04; 0x02; 0x00; 0x80; 0x00; 0x20]
  else [0x10; 0xe8; 0x04; 0x02; 0x00; 0x00; 0x00; 0x20].

(** From [s0] to [st] only the window and the bytes of buffer [b] may have
    changed. *)
Definition fill_frame (b : nat) (s0 st : sys) : Prop :=
  dev st = dev s0 /\
  sems st = sems s0 /\
  free_bufs st = free_bufs s0 /\
  opcode (buf_of st b) = opcode (buf_of s0 b) /\
  forall j, j <> b -> buf_of st j = buf_of s0 j.

(** The state [bt_init] has set up, once the controller has reported LE
    support in byte 4 of its features. *)
Definition le_started : sys :=
  upd_dev (set_features [0; 0; 0; 0; BT_LMP_LE; 0; 0; 0]) (started stub_drv).

(** The FIFOs of the nanokernel link their elements in place, through the
    first word of each buffer: a list is the queue as long as no buffer is
    put while it is in one of the queues.  This holds in a state in which no
    buffer is in a queue twice or in two queues. *)
Definition fifos_ok (st : sys) : Prop :=
  NoDup (free_bufs st ++ cmd_queue (dev st) ++ rx_queue (dev st)).

(** The buffer an action appends to the command queue: the one the caller
    gives, or the head of the pool. *)
Definition enqueues (a : action) (st : sys) : list nat :=
  match a with
  | Call_send _ buf | Call_send_sync _ buf =>
      match buf with
      | Some j => [j]
      | None => firstn 1 (free_bufs st)
      end
  | _ => []
  end.

(** The buffers the actions of a schedule append to the command queue, in
    order. *)
Fixpoint enqueued (acts : list action) (st : sys) : list nat :=
  match acts with
  | [] => []
  | a :: rest =>
      match step a st with
      | Some st' => enqueues a st ++ enqueued rest st'
      | None => []
      end
  end.

(** Every state along a schedule satisfies [P]. *)
Fixpoint along (P : sys -> Prop) (acts : list action) (st : sys) : Prop :=
  P st /\
  match acts with
  | [] => True
  | a :: rest =>
      match step a st with
      | Some st' => along P rest st'
      | None => True
      end
  end.

(** The command queue and what was handed to the driver are the same in
    both states. *)
Definition cmdq_kept (st st' : sys) : Prop :=
  cmd_queue (dev st') = cmd_queue (dev st) /\
  sent_bufs (trace st') = sent_bufs (trace st).

(** *** The command fiber when [drv->send] blocks

    [drv->send] is a suspension point of the command fiber when the driver
    blocks: the buffer has been handed to the driver, [dev.sent_cmd] is
    assigned only when the call returns, and the receive fiber and the
    callers run in between.  [in_send] is the buffer of the call the fiber
    is suspended in. *)
Record sys_send := mk_sys_send {
  core : sys;
  in_send : option nat
}.

(** One run of [hci_cmd_fiber] from the suspension point it is at to the
    next one, the call of [drv->send] being one of them. *)
Definition hci_cmd_fiber_send (x : sys_send) : option sys_send :=
  let st := core x in
  match in_send x with
  | Some buf =>
      let st := upd_dev (set_sent_cmd (Some buf)) st in
      Some (mk_sys_send (set_cmd_fiber CmdWaitSem st) None)
  | None =>
      match cmd_fiber st with
      | CmdNotStarted => None
      | CmdWaitSem =>
          match ncmd_sem (dev st) with
          | O => None
          | S n => Some (mk_sys_send (set_cmd_fiber CmdWaitFifo (upd_dev (set_ncmd_sem n) st)) None)
          end
      | CmdWaitFifo =>
          match nano_fifo_get (cmd_queue (dev st)) with
          | (None, _) => None
          | (Some buf, rest) =>
              let st := upd_dev (set_cmd_queue rest) st in
              let st := upd_dev (set_ncmd 0) st in
              let st := emit (Dbg "Sending command (buf %p) to driver\n" [ptr buf]) st in
              let st := emit (DrvSend buf) st in
              Some (mk_sys_send st (Some buf))
          end
      end
  end.

(** The transition system with the blocking [drv->send]: the other actions
    are those of [step] and run whether or not the command fiber is inside
    the call. *)
Definition step_send (a : action) (x : sys_send) : option sys_send :=
  match a with
  | Cmd_fiber => hci_cmd_fiber_send x
  | _ =>
      match step a (core x) with
      | Some st' => Some (mk_sys_send st' (in_send x))
      | None => None
      end
  end.

Fixpoint exec_send (acts : list action) (x : sys_send) : option sys_send :=
  match acts with
  | [] => Some x
  | a :: rest =>
      match step_send a x with
      | Some x' => exec_send rest x'
      | None => None
      end
  end.

(** [sent_cmd], when set, is the buffer that was handed to the driver last,
    unless the command fiber is inside [drv->send]: then the buffer handed
    over last is the one of that call, which [sent_cmd] does not name yet. *)
Definition sent_cmd_follows (x : sys_send) : Prop :=
  match in_send x with
  | None => sent_cmd_is_last (core x)
  | Some buf => exists pre, sent_bufs (trace (core x)) = pre ++ [buf]
  end.

(** Reset is queued and handed to the driver, whose [send] blocks; the
    controller's Command Complete arrives before [send] returns. *)
Definition early_completion_scenario : list action :=
  [Call_send BT_HCI_OP_RESET None; Cmd_fiber; Cmd_fiber;
   Drv_recv BT_EVT (cmd_complete_evt 1 BT_HCI_OP_RESET [0])].

(** The state the stub driver's system is in after a schedule when
    [drv->send] blocks (the start state if the schedule cannot run). *)
Definition after_send (acts : list action) : sys_send :=
  match exec_send acts (mk_sys_send (started stub_drv) None) with
  | Some x => x
  | None => mk_sys_send (started stub_drv) None
  end.

(** * Properties *)

(** ** Arithmetic and list facts *)

Lemma cap_range : 0 <= BT_BUF_MAX_DATA < 2 ^ size_bits.
Proof. unfold BT_BUF_MAX_DATA, size_bits. lia. Qed.

Lemma usize_small (x : Z) : 0 <= x < 2 ^ size_bits -> usize x = x.
Proof. intros H. unfold usize. apply Z.mod_small. exact H. Qed.

Lemma u8_range (x : Z) : 0 <= u8 x < 2 ^ 8.
Proof. unfold u8. apply Z.mod_pos_bound. lia. Qed.

(** The little-endian decoding is [lo + 256 * hi] on the two bytes. *)
Lemma sys_le16_to_cpu_value (lo hi : Z) :
  sys_le16_to_cpu lo hi = u8 lo + 256 * u8 hi.
Proof.
  unfold sys_le16_to_cpu.
  assert (Hland : Z.land (u8 lo) (Z.shiftl (u8 hi) 8) = 0).
  { apply Z.bits_inj'. intros n Hn.
    rewrite Z.land_spec, Z.bits_0.
    destruct (Z_lt_le_dec n 8) as [Hlow|Hhigh].
    - rewrite (Z.shiftl_spec_low (u8 hi) 8 n Hlow). apply andb_false_r.
    - unfold u8 at 1. rewrite Z.mod_pow2_bits_high by lia. reflexivity. }
  pose proof (Z.add_lor_land (u8 lo) (Z.shiftl (u8 hi) 8)) as H.
  rewrite Hland, Z.add_0_r in H. rewrite H.
  rewrite Z.shiftl_mul_pow2 by lia. change (2 ^ 8) with 256. lia.
Qed.

Lemma sys_le16_to_cpu_range (lo hi : Z) : 0 <= sys_le16_to_cpu lo hi < 2 ^ 16.
Proof.
  rewrite sys_le16_to_cpu_value.
  pose proof (u8_range lo). pose proof (u8_range hi).
  change (2 ^ 8) with 256 in *. change (2 ^ 16) with 65536. lia.
Qed.

Lemma buf_wf_headroom (b : bt_buf) : buf_wf b -> bt_buf_headroom b = data b.
Proof.
  intros (Hd & Hl & Hc). unfold bt_buf_headroom.
  rewrite Z.sub_0_r. apply usize_small. pose proof cap_range. lia.
Qed.

Lemma buf_wf_tailroom (b : bt_buf) :
  buf_wf b -> bt_buf_tailroom b = BT_BUF_MAX_DATA - data b - len b.
Proof.
  intros H. unfold bt_buf_tailroom. rewrite (buf_wf_headroom b H).
  destruct H as (Hd & Hl & Hc).
  apply usize_small. pose proof cap_range. lia.
Qed.

Lemma buf_wf_inv (b : bt_buf) : buf_wf b -> buf_inv b.
Proof.
  intros H. unfold buf_inv.
  rewrite (buf_wf_tailroom b H), (buf_wf_headroom b H). lia.
Qed.

Lemma apply_op_wf (b : bt_buf) (o : buf_op) :
  buf_wf b -> op_pre b o -> buf_wf (apply_op b o).
Proof.
  intros Hwf Hpre. pose proof cap_range as Hc.
  pose proof (buf_wf_headroom b Hwf) as Hh.
  pose proof (buf_wf_tailroom b Hwf) as Ht.
  destruct Hwf as (Hd & Hl & Hs).
  destruct o as [n|n|n]; simpl in Hpre; unfold buf_wf; simpl.
  - rewrite Ht in Hpre. rewrite (usize_small (len b + n)) by lia. lia.
  - rewrite Hh in Hpre.
    rewrite (usize_small (data b - n)) by lia.
    rewrite (usize_small (len b + n)) by lia. lia.
  - rewrite (usize_small (len b - n)) by lia.
    rewrite (usize_small (data b + n)) by lia. lia.
Qed.

(** C8: from a buffer whose window lies in the array, after each operation
    of any sequence of add, push and pull applied with its precondition,
    headroom + len + tailroom = BT_BUF_MAX_DATA, where headroom is data - buf
    and tailroom is CAP - headroom - len without wrap-around, both
    non-negative. *)
Theorem buf_ops_keep_capacity (b : bt_buf) (ops : list buf_op) :
  buf_wf b ->
  ops_ok b ops ->
  Forall (fun b' =>
            buf_inv b' /\
            bt_buf_headroom b' = data b' - 0 /\
            bt_buf_tailroom b' = BT_BUF_MAX_DATA - bt_buf_headroom b' - len b' /\
            0 <= data b' - 0 /\
            0 <= BT_BUF_MAX_DATA - (data b' - 0) - len b')
         (run_ops b ops).
Proof.
  revert b. induction ops as [|o ops IH]; intros b Hwf Hok; cbn [run_ops ops_ok] in *.
  - constructor.
  - destruct Hok as [Hpre Hok].
    pose proof (apply_op_wf b o Hwf Hpre) as Hwf'.
    constructor.
    + pose proof (buf_wf_headroom _ Hwf') as Hh.
      pose proof (buf_wf_tailroom _ Hwf') as Ht.
      split; [apply buf_wf_inv; exact Hwf'|].
      destruct Hwf' as (Hd & Hl & Hs).
      split; [lia|]. split; [lia|]. split; lia.
    + apply IH; assumption.
Qed.

(** ** State bookkeeping *)

Lemma length_list_upd {A} (i : nat) (f : A -> A) (l : list A) :
  List.length (list_upd i f l) = List.length l.
Proof.
  revert i. induction l as [|x l IH]; intros [|i]; simpl; try reflexivity.
  now rewrite IH.
Qed.

Lemma nth_list_upd {A} (i j : nat) (f : A -> A) (l : list A) (d : A) :
  nth j (list_upd i f l) d =
  if ((i =? j) && (i <? List.length l))%nat then f (nth j l d) else nth j l d.
Proof.
  revert i j. induction l as [|x l IH]; intros i j.
  - destruct i, j; simpl; try reflexivity.
    + destruct (i =? j)%nat; reflexivity.
  - destruct i as [|i], j as [|j]; simpl; try reflexivity.
    rewrite IH. reflexivity.
Qed.

Lemma buf_of_upd_buf (i j : nat) (f : bt_buf -> bt_buf) (st : sys) :
  buf_of (upd_buf i f st) j =
  if ((i =? j) && (i <? List.length (buffers st)))%nat then f (buf_of st j) else buf_of st j.
Proof. unfold buf_of, upd_buf. simpl. apply nth_list_upd. Qed.

Lemma buf_of_upd_same (i : nat) (f : bt_buf -> bt_buf) (st : sys) :
  (i < List.length (buffers st))%nat ->
  buf_of (upd_buf i f st) i = f (buf_of st i).
Proof.
  intros H. rewrite buf_of_upd_buf, Nat.eqb_refl.
  apply Nat.ltb_lt in H. now rewrite H.
Qed.

Lemma buf_of_upd_other (i j : nat) (f : bt_buf -> bt_buf) (st : sys) :
  j <> i -> buf_of (upd_buf i f st) j = buf_of st j.
Proof.
  intros H. rewrite buf_of_upd_buf.
  destruct (Nat.eqb_spec i j); [congruence | reflexivity].
Qed.

Lemma length_upd_buf (i : nat) (f : bt_buf -> bt_buf) (st : sys) :
  List.length (buffers (upd_buf i f st)) = List.length (buffers st).
Proof. unfold upd_buf. simpl. apply length_list_upd. Qed.

(** Symbolic execution of a computation: the monad and the records are
    unfolded, the packet view and the wire decoding are kept folded. *)
Ltac run :=
  cbn [bind bind_res get modify ret null_deref BT_DBG BT_ERR settle
       nano_fifo_get nano_fifo_put nano_sem_init nano_fiber_sem_give ncmd_sem_give
       buf_add buf_pull buf_store cmd_queue_put bt_recv bt_buf_put or_byte
       upd_dev upd_buf emit sem_give sem_take
       buffers free_bufs dev sems cmd_fiber rx_fiber trace
       set_buffers set_free_bufs set_dev set_sems set_cmd_fiber set_rx_fiber set_trace
       bdaddr hci_version hci_revision manufacturer features le_features le_mtu le_pkts
       ncmd ncmd_sem sent_cmd rx_queue cmd_queue drv
       set_bdaddr set_hci_version set_hci_revision set_manufacturer set_features
       set_le_features set_le_mtu set_le_pkts set_ncmd set_ncmd_sem set_sent_cmd
       set_rx_queue set_cmd_queue set_drv
       sync opcode type data len buf
       set_sync set_opcode set_type set_data set_len set_buf write_bytes
       fst snd andb negb].

Tactic Notation "run" "in" hyp(H) :=
  cbn [bind bind_res get modify ret null_deref BT_DBG BT_ERR settle
       nano_fifo_get nano_fifo_put nano_sem_init nano_fiber_sem_give ncmd_sem_give
       buf_add buf_pull buf_store cmd_queue_put bt_recv bt_buf_put or_byte
       upd_dev upd_buf emit sem_give sem_take
       buffers free_bufs dev sems cmd_fiber rx_fiber trace
       set_buffers set_free_bufs set_dev set_sems set_cmd_fiber set_rx_fiber set_trace
       bdaddr hci_version hci_revision manufacturer features le_features le_mtu le_pkts
       ncmd ncmd_sem sent_cmd rx_queue cmd_queue drv
       set_bdaddr set_hci_version set_hci_revision set_manufacturer set_features
       set_le_features set_le_mtu set_le_pkts set_ncmd set_ncmd_sem set_sent_cmd
       set_rx_queue set_cmd_queue set_drv
       sync opcode type data len buf
       set_sync set_opcode set_type set_data set_len set_buf write_bytes
       fst snd andb negb] in H.

Lemma buffers_upd_buf (i : nat) (f : bt_buf -> bt_buf) (st : sys) :
  buffers (upd_buf i f st) = list_upd i f (buffers st).
Proof. reflexivity. Qed.

Lemma upd_buf_frame (i : nat) (f : bt_buf -> bt_buf) (st : sys) :
  free_bufs (upd_buf i f st) = free_bufs st /\
  dev (upd_buf i f st) = dev st /\
  sems (upd_buf i f st) = sems st /\
  cmd_fiber (upd_buf i f st) = cmd_fiber st /\
  rx_fiber (upd_buf i f st) = rx_fiber st /\
  trace (upd_buf i f st) = trace st.
Proof. repeat split. Qed.

(** ** The buffer pool *)

Lemma bt_buf_get_reserve_some (reserve_head : Z) (st : sys) (i : nat) (st' : sys) :
  bt_buf_get_reserve reserve_head st = Ret (Some i) st' ->
  exists rest,
    free_bufs st = i :: rest /\
    st' = emit (Dbg "buf %p reserve %u\n" [ptr i; reserve_head])
            (upd_buf i (set_sync None)
               (upd_buf i (set_len 0)
                  (upd_buf i (set_data (usize (0 + reserve_head)))
                     (set_free_bufs rest st)))).
Proof.
  unfold bt_buf_get_reserve. run.
  destruct (free_bufs st) as [|j rest]; run; intros H.
  - discriminate H.
  - injection H as Hi Hst. subst j. exists rest. split; [reflexivity|].
    symmetry. exact Hst.
Qed.

(** C9: [bt_buf_get_reserve] resets data, len and sync of the buffer it
    acquires and nothing else: type, opcode and the bytes are the ones the
    previous user left, and no other buffer changes; the type and the opcode
    are set by [bt_hci_cmd_create]. *)
Theorem get_reserve_keeps_type_opcode :
  (forall (reserve_head : Z) (st : sys) (i : nat) (st' : sys),
      bt_buf_get_reserve reserve_head st = Ret (Some i) st' ->
      (i < List.length (buffers st))%nat ->
      type (buf_of st' i) = type (buf_of st i) /\
      opcode (buf_of st' i) = opcode (buf_of st i) /\
      buf (buf_of st' i) = buf (buf_of st i) /\
      data (buf_of st' i) = usize reserve_head /\
      len (buf_of st' i) = 0 /\
      sync (buf_of st' i) = None /\
      (forall j, j <> i -> buf_of st' j = buf_of st j)) /\
  (forall (op param_len : Z) (st : sys) (i : nat) (st' : sys),
      bt_hci_cmd_create op param_len st = Ret (Some i) st' ->
      (i < List.length (buffers st))%nat ->
      type (buf_of st' i) = BT_CMD /\ opcode (buf_of st' i) = op).
Proof.
  split.
  - intros rh st i st' Hget Hi.
    apply bt_buf_get_reserve_some in Hget. destruct Hget as (rest & Hfree & ->).
    assert (Hlt : (i <? List.length (buffers st))%nat = true) by now apply Nat.ltb_lt.
    unfold buf_of. run.
    repeat rewrite nth_list_upd. rewrite !length_list_upd, Nat.eqb_refl, Hlt. run.
    rewrite Z.add_0_l.
    do 6 (split; [reflexivity|]).
    intros j Hj. repeat rewrite nth_list_upd.
    destruct (Nat.eqb_spec i j) as [E|E]; [congruence|]. reflexivity.
  - intros op plen st i st' Hc Hi.
    unfold bt_hci_cmd_create in Hc. run in Hc.
    destruct (drv (dev st)) as [d|]; run in Hc; [|discriminate Hc].
    unfold bt_buf_get_reserve in Hc. run in Hc.
    destruct (free_bufs st) as [|j rest]; run in Hc; [discriminate Hc|].
    injection Hc as Hj Hst. subst j. subst st'.
    unfold buf_of. run.
    repeat rewrite nth_list_upd. rewrite !length_list_upd, Nat.eqb_refl.
    apply Nat.ltb_lt in Hi. rewrite Hi. run. split; reflexivity.
Qed.

(** ** ACL data *)

(** C7: [hci_acl] decodes the little-endian length of the 4-byte ACL
    header, pulls the header and compares the remaining [buf->len] with it,
    that is the length of the packet with the header length plus
    [sizeof(header)].  On a mismatch it logs the error; in both cases the
    buffer goes back to the free queue, and besides the pulled buffer, the
    free queue and the log nothing changes: [dev], the semaphores and the
    other buffers are as before, nothing is handed to the driver and no
    semaphore is given. *)
Theorem hci_acl_validates_length (st : sys) (i : nat) :
  (i < List.length (buffers st))%nat ->
  0 <= len (buf_of st i) < 2 ^ size_bits ->
  let b := buf_of st i in
  let hdr_len := sys_le16_to_cpu (byte_at b (data b + 2)) (byte_at b (data b + 3)) in
  exists st' dbg,
    hci_acl i st = Ret tt st' /\
    buf_of st' i = snd (bt_buf_pull b sizeof_acl_hdr) /\
    (forall j, j <> i -> buf_of st' j = buf_of st j) /\
    free_bufs st' = free_bufs st ++ [i] /\
    dev st' = dev st /\
    sems st' = sems st /\
    cmd_fiber st' = cmd_fiber st /\
    rx_fiber st' = rx_fiber st /\
    (len b = hdr_len + sizeof_acl_hdr ->
     trace st' = trace st ++ [Dbg "handle %u len %u flags %u\n" dbg; Dbg "buf %p\n" [ptr i]]) /\
    (len b <> hdr_len + sizeof_acl_hdr ->
     trace st' = trace st ++
       [Dbg "handle %u len %u flags %u\n" dbg;
        Err "ACL data length mismatch (%u != %u)\n" [usize (len b - sizeof_acl_hdr); hdr_len];
        Dbg "buf %p\n" [ptr i]]).
Proof.
  intros Hi Hlen b hdr_len.
  change (0 <= len b < 2 ^ size_bits) in Hlen.
  assert (Hlt : (i <? List.length (buffers st))%nat = true) by now apply Nat.ltb_lt.
  assert (Hhdr : 0 <= hdr_len < 2 ^ 16) by apply sys_le16_to_cpu_range.
  assert (Hcmp : (usize (len b - sizeof_acl_hdr) =? hdr_len) = (len b =? hdr_len + sizeof_acl_hdr)).
  { unfold usize, sizeof_acl_hdr, size_bits in *.
    destruct (Z.eqb_spec (len b) (hdr_len + 4)) as [E|E].
    - rewrite E. replace (hdr_len + 4 - 4) with hdr_len by lia.
      rewrite Z.mod_small by lia. apply Z.eqb_refl.
    - apply Z.eqb_neq. intros Hm.
      destruct (Z_lt_le_dec (len b) 4) as [Hs|Hs].
      + replace (len b - 4) with (len b - 4 + 2 ^ 32 + (-1) * 2 ^ 32) in Hm by lia.
        rewrite Z.mod_add in Hm by lia.
        rewrite Z.mod_small in Hm by lia. lia.
      + rewrite Z.mod_small in Hm by lia. lia. }
  unfold hci_acl. run. unfold buf_of. run.
  rewrite nth_list_upd, Nat.eqb_refl, Hlt. run.
  fold (buf_of st i). fold b. unfold fld16.
  replace (data b + 2 + 1) with (data b + 3) by lia. fold hdr_len.
  unfold bt_buf_pull. run.
  rewrite Hcmp.
  destruct (Z.eqb_spec (len b) (hdr_len + sizeof_acl_hdr)) as [E|E]; run;
    eexists; eexists; (split; [reflexivity|]); run.
  all: split; [rewrite nth_list_upd, Nat.eqb_refl, Hlt; reflexivity|].
  all: split; [intros j Hj; rewrite nth_list_upd;
               destruct (Nat.eqb_spec i j); [congruence|reflexivity]|].
  all: do 5 (split; [reflexivity|]).
  - split; [intros _|intros C; contradiction].
    rewrite <- app_assoc. reflexivity.
  - split; [intros C; contradiction|intros _].
    rewrite <- !app_assoc. reflexivity.
Qed.

(** ** Response parsers *)

(** The response parsers run to their end, touch only [dev] and the log, and
    within [dev] leave the credit, [sent_cmd], the queues and the driver. *)
Lemma cmd_complete_switch_frame (op : Z) (i : nat) (st : sys) :
  exists st' l,
    cmd_complete_switch op i st = Ret tt st' /\
    same_memory st st' /\
    ncmd (dev st') = ncmd (dev st) /\
    ncmd_sem (dev st') = ncmd_sem (dev st) /\
    sent_cmd (dev st') = sent_cmd (dev st) /\
    rx_queue (dev st') = rx_queue (dev st) /\
    cmd_queue (dev st') = cmd_queue (dev st) /\
    drv (dev st') = drv (dev st) /\
    trace st' = trace st ++ l /\
    forallb is_log l = true.
Proof.
  unfold cmd_complete_switch, same_memory.
  repeat match goal with
         | |- context [if ?c then _ else _] => destruct c
         end;
    unfold hci_reset_complete, hci_read_local_ver_complete, hci_read_features_complete,
      hci_read_buffer_size_complete, hci_read_bdaddr_complete,
      hci_le_read_buffer_size_complete, hci_le_read_features_complete; run;
    repeat match goal with
           | |- context [if ?c then _ else _] => destruct c; run
           end;
    eexists; eexists; (split; [reflexivity|]); run;
    (split; [repeat split|]);
    do 6 (split; [reflexivity|]);
    (split; [rewrite <- ?app_assoc; reflexivity | reflexivity]).
Qed.

Ltac run_opcodes :=
  cbn [cmd_complete_switch Z.eqb Pos.eqb
       BT_HCI_OP_SET_EVENT_MASK BT_HCI_OP_RESET BT_HCI_OP_LE_WRITE_LE_HOST_SUPP
       BT_HCI_OP_READ_LOCAL_VERSION_INFO BT_HCI_OP_READ_LOCAL_FEATURES
       BT_HCI_OP_READ_BUFFER_SIZE BT_HCI_OP_READ_BD_ADDR
       BT_HCI_OP_LE_READ_BUFFER_SIZE BT_HCI_OP_LE_READ_LOCAL_FEATURES].

(** What the response parser selected by [op] stores in [dev], by opcode;
    [rp] are the return parameters the buffer holds. *)
Lemma cmd_complete_switch_table (op : Z) (i : nat) (st : sys) :
  let rp := buf_of st i in
  let d := dev st in
  exists st',
    cmd_complete_switch op i st = Ret tt st' /\
    dev st' =
      (if op =? BT_HCI_OP_RESET then d
       else if op =? BT_HCI_OP_READ_LOCAL_VERSION_INFO then
         if rp_status rp =? 0
         then set_manufacturer (rp_manufacturer rp)
                (set_hci_revision (rp_hci_revision rp)
                   (set_hci_version (rp_hci_version rp) d))
         else d
       else if op =? BT_HCI_OP_READ_LOCAL_FEATURES then set_features (rp_features rp) d
       else if op =? BT_HCI_OP_READ_BUFFER_SIZE then
         if (rp_status rp =? 0) && (le_mtu d =? 0)
         then set_le_pkts (rp_acl_max_num rp mod 256) (set_le_mtu (rp_acl_max_len rp) d)
         else d
       else if op =? BT_HCI_OP_READ_BD_ADDR then
         if rp_status rp =? 0 then set_bdaddr (rp_bdaddr rp) d else d
       else if op =? BT_HCI_OP_LE_READ_BUFFER_SIZE then
         if rp_status rp =? 0
         then set_le_pkts (rp_le_max_num rp) (set_le_mtu (rp_le_max_len rp) d)
         else d
       else if op =? BT_HCI_OP_LE_READ_LOCAL_FEATURES then set_le_features (rp_features rp) d
       else d).
Proof.
  intros rp d. unfold cmd_complete_switch.
  repeat match goal with
         | |- context [if ?x =? ?y then _ else _] =>
             is_var x; destruct (x =? y)
         end.
  all: unfold hci_reset_complete, hci_read_local_ver_complete, hci_read_features_complete,
      hci_read_buffer_size_complete, hci_read_bdaddr_complete,
      hci_le_read_buffer_size_complete, hci_le_read_features_complete; run;
    fold rp; fold d.
  all: try (destruct (rp_status rp =? 0); run).
  all: try (destruct (le_mtu d =? 0); run).
  all: eexists; (split; [reflexivity|]); run; reflexivity.
Qed.

(** ** The completion correlator *)

Lemma nth_list_upd_proj {B} (g : bt_buf -> B) (f : bt_buf -> bt_buf)
      (i j : nat) (l : list bt_buf) (d : bt_buf) :
  (forall b, g (f b) = g b) ->
  g (nth j (list_upd i f l) d) = g (nth j l d).
Proof.
  intros H. rewrite nth_list_upd.
  destruct ((i =? j) && (i <? List.length l))%nat; [apply H | reflexivity].
Qed.

Lemma fld8_ext (b b' : bt_buf) (p off : Z) : buf b = buf b' -> fld8 b p off = fld8 b' p off.
Proof. unfold fld8, byte_at. intros ->. reflexivity. Qed.

Lemma fld16_ext (b b' : bt_buf) (p off : Z) : buf b = buf b' -> fld16 b p off = fld16 b' p off.
Proof. unfold fld16, byte_at. intros ->. reflexivity. Qed.

Lemma fld8_nonneg (b : bt_buf) (p off : Z) : 0 <= fld8 b p off.
Proof. unfold fld8. pose proof (u8_range (byte_at b (p + off))). lia. Qed.

(** [hci_cmd_done] with a command outstanding: either the opcodes differ and
    only the error is logged, or [sent_cmd] is cleared, its waiter (if any)
    is given its semaphore, and the buffer goes back to the free queue. *)
Lemma hci_cmd_done_cases (op : Z) (st : sys) (sent : nat) :
  sent_cmd (dev st) = Some sent ->
  exists st',
    hci_cmd_done op st = Ret tt st' /\
    buffers st' = buffers st /\
    cmd_fiber st' = cmd_fiber st /\
    rx_fiber st' = rx_fiber st /\
    ((opcode (buf_of st sent) <> op /\
      st' = emit (Err "Unexpected completion of opcode %x\n" [op]) st) \/
     (opcode (buf_of st sent) = op /\
      dev st' = set_sent_cmd None (dev st) /\
      free_bufs st' = free_bufs st ++ [sent] /\
      ((sync (buf_of st sent) = None /\
        sems st' = sems st /\
        trace st' = trace st ++ [Dbg "buf %p\n" [ptr sent]]) \/
       (exists s,
           sync (buf_of st sent) = Some s /\
           sems st' = list_upd s S (sems st) /\
           trace st' = trace st ++ [SemGive (SyncSem s); Dbg "buf %p\n" [ptr sent]])))).
Proof.
  intros Hsent. unfold hci_cmd_done. run. rewrite Hsent.
  destruct (Z.eqb_spec (opcode (buf_of st sent)) op) as [E|E]; run.
  - unfold buf_of at 1. run. fold (buf_of st sent).
    destruct (sync (buf_of st sent)) as [s|] eqn:Hs; run;
      eexists; (split; [reflexivity|]); run;
      do 3 (split; [reflexivity|]); right;
      (split; [exact E|]); (split; [reflexivity|]); (split; [reflexivity|]).
    + right. exists s. split; [reflexivity|]. split; [reflexivity|].
      rewrite <- app_assoc. reflexivity.
    + left. repeat split.
  - eexists. split; [reflexivity|]. do 3 (split; [reflexivity|]).
    left. split; [exact E | reflexivity].
Qed.

Lemma cmd_complete_switch_logs_only (op : Z) (i : nat) :
  logs_only (cmd_complete_switch op i).
Proof. intros st. apply cmd_complete_switch_frame. Qed.

Lemma BT_ERR_logs_only (fmt : string) (args : list Z) : logs_only (BT_ERR fmt args).
Proof.
  intros st. unfold same_memory. run.
  eexists. exists [Err fmt args]. split; [reflexivity|]. run.
  repeat split.
Qed.

(** The common end of [hci_cmd_complete] and [hci_cmd_status]: the parser,
    the correlator, the credit refill. *)
Lemma completion_tail (parser : M unit) (op : Z) (i : nat) (evt off : Z)
      (st : sys) (sent : nat) :
  logs_only parser ->
  sent_cmd (dev st) = Some sent ->
  exists st' l1 l2 l3,
    (parser;; hci_cmd_done op;; credit_refill i evt off) st = Ret tt st' /\
    buffers st' = buffers st /\
    cmd_fiber st' = cmd_fiber st /\
    rx_fiber st' = rx_fiber st /\
    rx_queue (dev st') = rx_queue (dev st) /\
    cmd_queue (dev st') = cmd_queue (dev st) /\
    drv (dev st') = drv (dev st) /\
    trace st' = trace st ++ l1 ++ l2 ++ l3 /\
    forallb is_log l1 = true /\
    correlated op sent st st' l2 /\
    refilled (fld8 (buf_of st i) evt off) st st' l3.
Proof.
  intros Hp Hsent.
  destruct (Hp st) as (st1 & l1 & Hrun1 & (Hb1 & Hf1 & Hs1 & Hc1 & Hr1) &
                       Hn1 & Hns1 & Hsc1 & Hrq1 & Hcq1 & Hd1 & Ht1 & Hl1).
  assert (Hbuf1 : forall j, buf_of st1 j = buf_of st j)
    by (intro j; unfold buf_of; now rewrite Hb1).
  destruct (hci_cmd_done_cases op st1 sent) as (st2 & Hrun2 & Hb2 & Hc2 & Hr2 & Hcases);
    [congruence|].
  assert (Hbuf2 : forall j, buf_of st2 j = buf_of st j)
    by (intro j; unfold buf_of; now rewrite Hb2, Hb1).
  unfold bind at 1. rewrite Hrun1. cbn [bind_res].
  unfold bind at 1. rewrite Hrun2. cbn [bind_res].
  unfold credit_refill. run. rewrite Hbuf2.
  set (e := fld8 (buf_of st i) evt off).
  assert (He : 0 <= e) by apply fld8_nonneg.
  assert (Hcorr : exists l2,
             trace st2 = trace st1 ++ l2 /\
             ncmd (dev st2) = ncmd (dev st1) /\
             ncmd_sem (dev st2) = ncmd_sem (dev st1) /\
             rx_queue (dev st2) = rx_queue (dev st1) /\
             cmd_queue (dev st2) = cmd_queue (dev st1) /\
             drv (dev st2) = drv (dev st1) /\
             correlated op sent st st2 l2).
  { unfold correlated. rewrite <- !Hbuf1.
    destruct Hcases as [(Hne & ->) | (Heq & Hdev & Hfree & Hsync)].
    - eexists. split; [reflexivity|]. run. do 5 (split; [reflexivity|]).
      left. split; [exact Hne|]. split; [congruence|]. split; [congruence|].
      split; [congruence|]. reflexivity.
    - destruct Hsync as [(Hsy & Hsems & Htr) | (s & Hsy & Hsems & Htr)];
        eexists; (split; [exact Htr|]); rewrite Hdev; run;
        do 5 (split; [reflexivity|]); right;
        (split; [exact Heq|]); (split; [reflexivity|]); (split; [congruence|]).
      + left. split; [exact Hsy|]. split; [congruence|]. reflexivity.
      + right. exists s. split; [exact Hsy|]. split; [congruence|]. reflexivity. }
  destruct Hcorr as (l2 & Ht2 & Hn2 & Hns2 & Hrq2 & Hcq2 & Hd2 & Hcorr).
  assert (Hcorr' : forall st', sent_cmd (dev st') = sent_cmd (dev st2) ->
                          free_bufs st' = free_bufs st2 -> sems st' = sems st2 ->
                          correlated op sent st st' l2).
  { intros st' H1 H2 H3. unfold correlated in *. rewrite H1, H2, H3. exact Hcorr. }
  destruct (Z.eqb_spec e 0) as [E0|E0]; run.
  - exists st2, l1, l2, []. split; [reflexivity|].
    split; [congruence|]. split; [congruence|]. split; [congruence|].
    split; [congruence|]. split; [congruence|]. split; [congruence|].
    split; [rewrite Ht2, Ht1, app_nil_r, app_assoc; reflexivity|].
    split; [exact Hl1|]. split; [exact Hcorr|].
    right. split; [lia|]. split; [congruence|]. split; [congruence|]. reflexivity.
  - destruct (Z.eqb_spec (ncmd (dev st2)) 0) as [N0|N0]; run.
    + eexists. exists l1, l2, [SemGive NcmdSem]. split; [reflexivity|]. run.
      split; [congruence|]. split; [congruence|]. split; [congruence|].
      split; [congruence|]. split; [congruence|]. split; [congruence|].
      split; [rewrite Ht2, Ht1, <- !app_assoc; reflexivity|].
      split; [exact Hl1|]. split; [apply Hcorr'; reflexivity|].
      left. run. split; [lia|]. split; [congruence|]. split; [reflexivity|].
      split; [congruence|]. reflexivity.
    + exists st2, l1, l2, []. split; [reflexivity|].
      split; [congruence|]. split; [congruence|]. split; [congruence|].
      split; [congruence|]. split; [congruence|]. split; [congruence|].
      split; [rewrite Ht2, Ht1, app_nil_r, app_assoc; reflexivity|].
      split; [exact Hl1|]. split; [exact Hcorr|].
      right. split; [intros [_ C]; congruence|].
      split; [congruence|]. split; [congruence|]. reflexivity.
Qed.

Lemma correlated_ext (op : Z) (sent : nat) (st0 st st' : sys) (l : list event) :
  opcode (buf_of st0 sent) = opcode (buf_of st sent) ->
  sync (buf_of st0 sent) = sync (buf_of st sent) ->
  free_bufs st0 = free_bufs st ->
  sems st0 = sems st ->
  correlated op sent st0 st' l -> correlated op sent st st' l.
Proof. unfold correlated. intros -> -> -> ->. exact (fun H => H). Qed.

Lemma refilled_ext (e : Z) (st0 st st' : sys) (l : list event) :
  ncmd (dev st0) = ncmd (dev st) ->
  ncmd_sem (dev st0) = ncmd_sem (dev st) ->
  refilled e st0 st' l -> refilled e st st' l.
Proof. unfold refilled. intros -> ->. exact (fun H => H). Qed.

Lemma pull_keeps (n : Z) (b : bt_buf) :
  opcode (snd (bt_buf_pull b n)) = opcode b /\
  sync (snd (bt_buf_pull b n)) = sync b /\
  type (snd (bt_buf_pull b n)) = type b /\
  buf (snd (bt_buf_pull b n)) = buf b.
Proof. repeat split. Qed.

(** What [hci_cmd_complete] does while a command is outstanding. *)
Lemma hci_cmd_complete_effect (i : nat) (st : sys) (sent : nat) :
  sent_cmd (dev st) = Some sent ->
  exists st' l1 l2 l3,
    hci_cmd_complete i st = Ret tt st' /\
    buffers st' =
      list_upd i (fun b => snd (bt_buf_pull b sizeof_evt_cmd_complete)) (buffers st) /\
    cmd_fiber st' = cmd_fiber st /\
    rx_fiber st' = rx_fiber st /\
    rx_queue (dev st') = rx_queue (dev st) /\
    cmd_queue (dev st') = cmd_queue (dev st) /\
    drv (dev st') = drv (dev st) /\
    trace st' = trace st ++ l1 ++ l2 ++ l3 /\
    forallb is_log l1 = true /\
    correlated (fld16 (buf_of st i) (data (buf_of st i)) 1) sent st st' l2 /\
    refilled (fld8 (buf_of st i) (data (buf_of st i)) 0) st st' l3.
Proof.
  intros Hsent.
  set (op := fld16 (buf_of st i) (data (buf_of st i)) 1).
  set (evt := data (buf_of st i)).
  set (st0 := upd_buf i (fun b => snd (bt_buf_pull b sizeof_evt_cmd_complete))
                (emit (Dbg "opcode %x\n" [op]) st)).
  destruct (completion_tail (cmd_complete_switch op i) op i evt 0 st0 sent
              (cmd_complete_switch_logs_only op i) Hsent)
    as (st' & l1 & l2 & l3 & Hrun & Hb & Hc & Hr & Hrq & Hcq & Hd & Ht & Hl & Hcorr & Hre).
  exists st', (Dbg "opcode %x\n" [op] :: l1), l2, l3.
  split; [exact Hrun|]. split; [exact Hb|]. split; [exact Hc|]. split; [exact Hr|].
  split; [exact Hrq|]. split; [exact Hcq|]. split; [exact Hd|].
  split; [rewrite Ht; unfold st0; run; rewrite <- !app_assoc; reflexivity|].
  split; [exact Hl|].
  split.
  - revert Hcorr. apply correlated_ext; try reflexivity;
      unfold st0, buf_of; run; apply nth_list_upd_proj; intro; apply pull_keeps.
  - assert (Hf : fld8 (buf_of st0 i) evt 0 = fld8 (buf_of st i) evt 0).
    { apply fld8_ext. unfold st0, buf_of. run.
      apply nth_list_upd_proj. intro. apply pull_keeps. }
    rewrite Hf in Hre. revert Hre. apply refilled_ext; reflexivity.
Qed.

(** What [hci_cmd_status] does while a command is outstanding. *)
Lemma hci_cmd_status_effect (i : nat) (st : sys) (sent : nat) :
  sent_cmd (dev st) = Some sent ->
  exists st' l1 l2 l3,
    hci_cmd_status i st = Ret tt st' /\
    buffers st' =
      list_upd i (fun b => snd (bt_buf_pull b sizeof_evt_cmd_status)) (buffers st) /\
    cmd_fiber st' = cmd_fiber st /\
    rx_fiber st' = rx_fiber st /\
    rx_queue (dev st') = rx_queue (dev st) /\
    cmd_queue (dev st') = cmd_queue (dev st) /\
    drv (dev st') = drv (dev st) /\
    trace st' = trace st ++ l1 ++ l2 ++ l3 /\
    forallb is_log l1 = true /\
    correlated (fld16 (buf_of st i) (data (buf_of st i)) 2) sent st st' l2 /\
    refilled (fld8 (buf_of st i) (data (buf_of st i)) 1) st st' l3.
Proof.
  intros Hsent.
  set (op := fld16 (buf_of st i) (data (buf_of st i)) 2).
  set (evt := data (buf_of st i)).
  set (st0 := upd_buf i (fun b => snd (bt_buf_pull b sizeof_evt_cmd_status))
                (emit (Dbg "opcode %x\n" [op]) st)).
  destruct (completion_tail (BT_ERR "Unknown opcode %x" [op]) op i evt 1 st0 sent
              (BT_ERR_logs_only _ _) Hsent)
    as (st' & l1 & l2 & l3 & Hrun & Hb & Hc & Hr & Hrq & Hcq & Hd & Ht & Hl & Hcorr & Hre).
  exists st', (Dbg "opcode %x\n" [op] :: l1), l2, l3.
  split; [exact Hrun|]. split; [exact Hb|]. split; [exact Hc|]. split; [exact Hr|].
  split; [exact Hrq|]. split; [exact Hcq|]. split; [exact Hd|].
  split; [rewrite Ht; unfold st0; run; rewrite <- !app_assoc; reflexivity|].
  split; [exact Hl|].
  split.
  - revert Hcorr. apply correlated_ext; try reflexivity;
      unfold st0, buf_of; run; apply nth_list_upd_proj; intro; apply pull_keeps.
  - assert (Hf : fld8 (buf_of st0 i) evt 1 = fld8 (buf_of st i) evt 1).
    { apply fld8_ext. unfold st0, buf_of. run.
      apply nth_list_upd_proj. intro. apply pull_keeps. }
    rewrite Hf in Hre. revert Hre. apply refilled_ext; reflexivity.
Qed.

Lemma credit_gives_app (l1 l2 : list event) :
  credit_gives (l1 ++ l2) = (credit_gives l1 + credit_gives l2)%nat.
Proof. unfold credit_gives. rewrite filter_app. apply length_app. Qed.

Lemma credit_gives_logs (l : list event) :
  forallb is_log l = true -> credit_gives l = O.
Proof.
  unfold credit_gives. induction l as [|e l IH]; simpl; [reflexivity|].
  intros H. apply andb_prop in H. destruct H as [He Hl].
  destruct e as [| | |[|]]; simpl in *; try discriminate; auto.
Qed.

Lemma correlated_no_credit (op : Z) (sent : nat) (st st' : sys) (l : list event) :
  correlated op sent st st' l -> credit_gives l = O.
Proof.
  intros [(_ & _ & _ & _ & ->) | (_ & _ & _ & [(_ & _ & ->) | (s & _ & _ & ->)])];
    reflexivity.
Qed.

Lemma refilled_outcome (e : Z) (st st' : sys) (l1 l2 l3 : list event) (op : Z) (sent : nat) :
  trace st' = trace st ++ l1 ++ l2 ++ l3 ->
  forallb is_log l1 = true ->
  correlated op sent st st' l2 ->
  refilled e st st' l3 ->
  refill_outcome e st st'.
Proof.
  intros Ht Hl1 Hl2 Hre.
  assert (Hg : credit_gives (trace st') = (credit_gives (trace st) + credit_gives l3)%nat).
  { rewrite Ht, !credit_gives_app, (credit_gives_logs l1 Hl1),
      (correlated_no_credit _ _ _ _ _ Hl2). lia. }
  destruct Hre as [(He & Hn & Hn' & Hs & ->) | (Hnot & Hn & Hs & ->)];
    split; intros Hc; try tauto.
  - split; [exact Hn'|]. split; [exact Hs|]. rewrite Hg.
    change (credit_gives [SemGive NcmdSem]) with 1%nat. lia.
  - split; [exact Hn|]. split; [exact Hs|]. rewrite Hg.
    change (credit_gives []) with 0%nat. lia.
Qed.

Lemma hci_cmd_done_null (op : Z) (st : sys) :
  sent_cmd (dev st) = None -> hci_cmd_done op st = Fault st.
Proof. intros H. unfold hci_cmd_done. run. rewrite H. reflexivity. Qed.

(** The correlator and the credit refill leave what the host knows about
    the controller alone and only append to the trace. *)
Lemma done_refill_info (op : Z) (i : nat) (evt off : Z) (st : sys) (sent : nat) :
  sent_cmd (dev st) = Some sent ->
  exists st' l,
    (hci_cmd_done op;; credit_refill i evt off) st = Ret tt st' /\
    controller_info (dev st') = controller_info (dev st) /\
    trace st' = trace st ++ l.
Proof.
  intros Hsent.
  destruct (hci_cmd_done_cases op st sent Hsent) as (st1 & Hrun & _ & _ & _ & Hcase).
  unfold bind at 1. rewrite Hrun. cbn [bind_res].
  assert (H1 : controller_info (dev st1) = controller_info (dev st) /\
               exists l, trace st1 = trace st ++ l).
  { destruct Hcase as [(_ & ->) | (_ & Hd & _ & [(_ & _ & Ht) | (s & _ & _ & Ht)])].
    - split; [reflexivity|]. eexists. reflexivity.
    - rewrite Hd. split; [reflexivity|]. eexists. exact Ht.
    - rewrite Hd. split; [reflexivity|]. eexists. exact Ht. }
  destruct H1 as (Hi1 & l1 & Ht1).
  unfold credit_refill. run.
  destruct (negb (fld8 (buf_of st1 i) evt off =? 0) && (ncmd (dev st1) =? 0)); run.
  - eexists. exists (l1 ++ [SemGive NcmdSem]). split; [reflexivity|]. run.
    split; [exact Hi1|]. rewrite Ht1, app_assoc. reflexivity.
  - exists st1, l1. split; [reflexivity|]. split; [exact Hi1 | exact Ht1].
Qed.

Lemma fld16_range (b : bt_buf) (p off : Z) : 0 <= fld16 b p off < 2 ^ 16.
Proof.
  unfold fld16. rewrite sys_le16_to_cpu_value.
  pose proof (u8_range (byte_at b (p + off))).
  pose proof (u8_range (byte_at b (p + off + 1))).
  change (2 ^ 8) with 256 in *. change (2 ^ 16) with 65536. lia.
Qed.

Lemma truncated_count (x : Z) : 0 <= x -> (x mod 256 = x <-> x < 256).
Proof.
  intros H. split; intros H1.
  - pose proof (Z.mod_pos_bound x 256 ltac:(lia)). lia.
  - apply Z.mod_small. lia.
Qed.

(** C3: what [hci_cmd_complete] stores in [dev] for a Command Complete
    event, by the opcode of the event.  [rp] are the return parameters, the
    buffer after the pull of the event structure; [st'] is the state the
    handler ends in: it returns when a command is outstanding, and stops in
    [hci_cmd_done], after the parser, when none is.  The record [dev] holds
    what the table of the spec says, but for READ_BUFFER_SIZE, which stores
    the 16-bit acl_max_num in the 8-bit [le_pkts]: the value recorded is
    acl_max_num mod 256, which is acl_max_num only below 256.  An opcode
    without a parser changes none of these fields, and no parser touches the
    driver or the queues. *)
Theorem response_parsers_table (st : sys) (i : nat) :
  let b := buf_of st i in
  let op := fld16 b (data b) 1 in
  let rp := buf_of (upd_buf i (fun b => snd (bt_buf_pull b sizeof_evt_cmd_complete)) st) i in
  let d := dev st in
  let st' := state_of (hci_cmd_complete i st) in
  ((forall sent, sent_cmd d = Some sent -> hci_cmd_complete i st = Ret tt st') /\
   (sent_cmd d = None -> hci_cmd_complete i st = Fault st') /\
   drv (dev st') = drv d /\
   cmd_queue (dev st') = cmd_queue d /\
   rx_queue (dev st') = rx_queue d /\
   controller_info (dev st') =
   controller_info
     (if op =? BT_HCI_OP_RESET then d
      else if op =? BT_HCI_OP_READ_LOCAL_VERSION_INFO then
        if rp_status rp =? 0
        then set_manufacturer (rp_manufacturer rp)
               (set_hci_revision (rp_hci_revision rp)
                  (set_hci_version (rp_hci_version rp) d))
        else d
      else if op =? BT_HCI_OP_READ_LOCAL_FEATURES then set_features (rp_features rp) d
      else if op =? BT_HCI_OP_READ_BUFFER_SIZE then
        if (rp_status rp =? 0) && (le_mtu d =? 0)
        then set_le_pkts (rp_acl_max_num rp mod 256) (set_le_mtu (rp_acl_max_len rp) d)
        else d
      else if op =? BT_HCI_OP_READ_BD_ADDR then
        if rp_status rp =? 0 then set_bdaddr (rp_bdaddr rp) d else d
      else if op =? BT_HCI_OP_LE_READ_BUFFER_SIZE then
        if rp_status rp =? 0
        then set_le_pkts (rp_le_max_num rp) (set_le_mtu (rp_le_max_len rp) d)
        else d
      else if op =? BT_HCI_OP_LE_READ_LOCAL_FEATURES then set_le_features (rp_features rp) d
      else d)) /\
  (op = BT_HCI_OP_READ_BUFFER_SIZE ->
   rp_status rp = 0 ->
   le_mtu d = 0 ->
   le_mtu (dev st') = rp_acl_max_len rp /\
   le_pkts (dev st') = rp_acl_max_num rp mod 256 /\
   (le_pkts (dev st') = rp_acl_max_num rp <-> rp_acl_max_num rp < 256)).
Proof.
  intros b op rp d st'.
  match goal with |- ?A /\ _ => assert (Hmain : A) end.
  2: { split; [exact Hmain|].
       intros Hop Hst Hmtu.
       destruct Hmain as (_ & _ & _ & _ & _ & H).
       rewrite Hop, Hst, Hmtu in H.
       cbn [Z.eqb Pos.eqb BT_HCI_OP_RESET BT_HCI_OP_READ_LOCAL_VERSION_INFO
            BT_HCI_OP_READ_LOCAL_FEATURES BT_HCI_OP_READ_BUFFER_SIZE andb] in H.
       unfold controller_info in H. injection H as _ _ _ _ _ _ H1 H2.
       cbn [le_mtu le_pkts set_le_pkts set_le_mtu] in H1, H2.
       split; [exact H1|]. split; [exact H2|].
       rewrite H2. apply truncated_count. apply fld16_range. }
  set (st0 := upd_buf i (fun b => snd (bt_buf_pull b sizeof_evt_cmd_complete))
                (emit (Dbg "opcode %x\n" [op]) st)).
  assert (Hrun0 : hci_cmd_complete i st =
                  (cmd_complete_switch op i;; hci_cmd_done op;; credit_refill i (data b) 0) st0)
    by reflexivity.
  destruct (cmd_complete_switch_table op i st0) as (st1 & Hsw & Hdev1).
  change (buf_of st0 i) with rp in Hdev1. change (dev st0) with d in Hdev1.
  destruct (cmd_complete_switch_frame op i st0)
    as (st1' & l & Hsw' & _ & _ & _ & Hsc & Hrq & Hcq & Hdrv & _).
  assert (st1' = st1) as -> by congruence.
  change (dev st0) with d in Hsc, Hrq, Hcq, Hdrv.
  assert (Hrun1 : hci_cmd_complete i st = (hci_cmd_done op;; credit_refill i (data b) 0) st1).
  { rewrite Hrun0. unfold bind at 1. rewrite Hsw. reflexivity. }
  destruct (sent_cmd d) as [sent|] eqn:Hsent.
  - destruct (done_refill_info op i (data b) 0 st1 sent Hsc) as (st2 & l2 & Hrun2 & Hinfo & _).
    destruct (hci_cmd_complete_effect i st sent Hsent)
      as (st2' & l1' & l2' & l3' & Hrun & _ & _ & _ & Hrq2 & Hcq2 & Hdrv2 & _).
    assert (st2' = st2) as -> by congruence.
    assert (Hst' : st' = st2) by (unfold st'; rewrite Hrun; reflexivity).
    rewrite Hst'.
    split; [intros s _; exact Hrun|].
    split; [discriminate|].
    split; [exact Hdrv2|]. split; [exact Hcq2|]. split; [exact Hrq2|].
    rewrite Hinfo, Hdev1. reflexivity.
  - assert (Hrun : hci_cmd_complete i st = Fault st1).
    { rewrite Hrun1. unfold bind at 1. rewrite hci_cmd_done_null by exact Hsc. reflexivity. }
    assert (Hst' : st' = st1) by (unfold st'; rewrite Hrun; reflexivity).
    rewrite Hst'.
    split; [discriminate|].
    split; [intros _; exact Hrun|].
    split; [exact Hdrv|]. split; [exact Hcq|]. split; [exact Hrq|].
    rewrite Hdev1. reflexivity.
Qed.

(** The input on which the code leaves the table: the controller answers
    READ_BUFFER_SIZE with acl_max_len = 1024 and acl_max_num = 256 while le_mtu
    is 0; the receive fiber records le_mtu = 1024 but le_pkts = 0, not 256. *)
Lemma read_buffer_size_truncates_acl_max_num :
  exists st i st',
    exec [Call_send BT_HCI_OP_READ_BUFFER_SIZE None; Cmd_fiber; Cmd_fiber;
          Drv_recv BT_EVT
            (cmd_complete_evt 1 BT_HCI_OP_READ_BUFFER_SIZE [0; 0x00; 0x04; 60; 0x00; 0x01; 1; 0])]
         (started stub_drv) = Some st /\
    rx_queue (dev st) = [i] /\
    (let rp := snd (bt_buf_pull (snd (bt_buf_pull (buf_of st i) sizeof_evt_hdr))
                      sizeof_evt_cmd_complete) in
     rp_status rp = 0 /\ rp_acl_max_num rp = 256) /\
    le_mtu (dev st) = 0 /\
    step Rx_fiber st = Some st' /\
    le_mtu (dev st') = 1024 /\
    le_pkts (dev st') = 0 /\
    le_pkts (dev st') <> 256.
Proof.
  eexists. eexists. eexists.
  split; [vm_compute; reflexivity|].
  split; [reflexivity|].
  split; [split; vm_compute; reflexivity|].
  split; [reflexivity|].
  split; [vm_compute; reflexivity|].
  split; [reflexivity|].
  split; [reflexivity|].
  discriminate.
Qed.

(** Without an outstanding command the handlers stop in [hci_cmd_done],
    which reads [dev.sent_cmd->opcode]: the parser has run and logged, the
    credit is as it was. *)
Lemma completion_tail_faults (parser : M unit) (op : Z) (i : nat) (evt off : Z) (st : sys) :
  logs_only parser ->
  sent_cmd (dev st) = None ->
  exists s l,
    (parser;; hci_cmd_done op;; credit_refill i evt off) st = Fault s /\
    ncmd (dev s) = ncmd (dev st) /\
    ncmd_sem (dev s) = ncmd_sem (dev st) /\
    trace s = trace st ++ l /\
    forallb is_log l = true.
Proof.
  intros Hp Hsent.
  destruct (Hp st) as (st1 & l1 & Hrun1 & _ & Hn & Hns & Hsc1 & _ & _ & _ & Ht & Hl).
  exists st1, l1.
  unfold bind at 1. rewrite Hrun1. cbn [bind_res].
  unfold bind at 1. rewrite hci_cmd_done_null by congruence. cbn [bind_res].
  repeat split; assumption.
Qed.

Lemma faulted_no_refill (st st0 s : sys) (l0 l : list event) :
  ncmd (dev st0) = ncmd (dev st) ->
  ncmd_sem (dev st0) = ncmd_sem (dev st) ->
  trace st0 = trace st ++ l0 ->
  forallb is_log l0 = true ->
  ncmd (dev s) = ncmd (dev st0) ->
  ncmd_sem (dev s) = ncmd_sem (dev st0) ->
  trace s = trace st0 ++ l ->
  forallb is_log l = true ->
  ncmd (dev s) = ncmd (dev st) /\
  ncmd_sem (dev s) = ncmd_sem (dev st) /\
  credit_gives (trace s) = credit_gives (trace st).
Proof.
  intros H1 H2 H3 H4 H5 H6 H7 H8.
  split; [congruence|]. split; [congruence|].
  rewrite H7, H3, !credit_gives_app, (credit_gives_logs l0 H4), (credit_gives_logs l H8).
  lia.
Qed.

(** C4: a Command Complete or Command Status event that is processed while
    a command is outstanding ends with the credit refill: when the event
    carries ncmd > 0 and [dev.ncmd] is 0, [dev.ncmd] becomes 1 and the credit
    semaphore is given exactly once; in every other case neither of the two
    changes and the semaphore is not given.  An event that arrives while no
    command is outstanding is not processed to that point: [hci_cmd_done]
    reads [dev.sent_cmd->opcode] through the [NULL] pointer, and the credit
    is not refilled whatever the event carries. *)
Theorem credit_refill_exactly_once (st : sys) (i : nat) :
  let b := buf_of st i in
  let no_refill (st' : sys) :=
    ncmd (dev st') = ncmd (dev st) /\
    ncmd_sem (dev st') = ncmd_sem (dev st) /\
    credit_gives (trace st') = credit_gives (trace st) in
  (forall sent,
      sent_cmd (dev st) = Some sent ->
      (exists st',
          hci_cmd_complete i st = Ret tt st' /\
          refill_outcome (fld8 b (data b) 0) st st') /\
      (exists st',
          hci_cmd_status i st = Ret tt st' /\
          refill_outcome (fld8 b (data b) 1) st st')) /\
  (sent_cmd (dev st) = None ->
   (exists st', hci_cmd_complete i st = Fault st' /\ no_refill st') /\
   (exists st', hci_cmd_status i st = Fault st' /\ no_refill st')).
Proof.
  intros b no_refill. unfold no_refill. clear no_refill. split.
  - intros sent Hsent. split.
    + destruct (hci_cmd_complete_effect i st sent Hsent)
        as (st' & l1 & l2 & l3 & Hrun & _ & _ & _ & _ & _ & _ & Ht & Hl & Hcorr & Hre).
      exists st'. split; [exact Hrun|]. eapply refilled_outcome; eassumption.
    + destruct (hci_cmd_status_effect i st sent Hsent)
        as (st' & l1 & l2 & l3 & Hrun & _ & _ & _ & _ & _ & _ & Ht & Hl & Hcorr & Hre).
      exists st'. split; [exact Hrun|]. eapply refilled_outcome; eassumption.
  - intros Hnone. split.
    + set (op := fld16 b (data b) 1).
      set (st0 := upd_buf i (fun b => snd (bt_buf_pull b sizeof_evt_cmd_complete))
                    (emit (Dbg "opcode %x\n" [op]) st)).
      destruct (completion_tail_faults (cmd_complete_switch op i) op i (data b) 0 st0
                  (cmd_complete_switch_logs_only op i) Hnone)
        as (s & l & Hrun & Hn & Hns & Ht & Hl).
      exists s. split; [exact Hrun|].
      apply (faulted_no_refill st st0 s [Dbg "opcode %x\n" [op]] l); try assumption;
        reflexivity.
    + set (op := fld16 b (data b) 2).
      set (st0 := upd_buf i (fun b => snd (bt_buf_pull b sizeof_evt_cmd_status))
                    (emit (Dbg "opcode %x\n" [op]) st)).
      destruct (completion_tail_faults (BT_ERR "Unknown opcode %x" [op]) op i (data b) 1 st0
                  (BT_ERR_logs_only _ _) Hnone)
        as (s & l & Hrun & Hn & Hns & Ht & Hl).
      exists s. split; [exact Hrun|].
      apply (faulted_no_refill st st0 s [Dbg "opcode %x\n" [op]] l); try assumption;
        reflexivity.
Qed.

(** The input on which the code leaves C4: the credit is 0, no command is
    outstanding, and the controller grants a credit with a Command Complete
    for the opcode 0x0000.  The handler dereferences [NULL] in
    [hci_cmd_done]; [dev.ncmd] and the semaphore stay 0, and the command
    fiber stays blocked on the credit. *)
Lemma completion_without_command_faults :
  let st := after credit_lost_scenario in
  exec credit_lost_scenario (started stub_drv) = Some st /\
  sent_cmd (dev st) = None /\
  ncmd (dev st) = 0 /\
  ncmd_sem (dev st) = O /\
  rx_fiber st = RxWaitFifo /\
  rx_queue (dev st) = [2%nat] /\
  rx_event_opcode st 2 = Some 0x0000 /\
  fld8 (buf_of st 2) (data (buf_of st 2) + sizeof_evt_hdr) 0 = 1 /\
  (exists s,
      hci_cmd_complete 2 (event_pulled 2 st) = Fault s /\
      ncmd (dev s) = 0 /\
      ncmd_sem (dev s) = O /\
      credit_gives (trace s) = credit_gives (trace st)) /\
  step Rx_fiber st = None /\
  step Cmd_fiber st = None.
Proof.
  cbv zeta.
  split; [vm_compute; reflexivity|].
  do 7 (split; [vm_compute; reflexivity|]).
  split.
  - eexists. split; [vm_compute; reflexivity|].
    repeat split.
  - split; vm_compute; reflexivity.
Qed.

Lemma not_in_logs (l : list event) (s : sem_id) :
  forallb is_log l = true -> ~ In (SemGive (SyncSem s)) l.
Proof.
  intros H Hin. rewrite forallb_forall in H. apply H in Hin. discriminate Hin.
Qed.



(** ** Bring-up *)

Lemma run_with_bind {A B} (env : sem_id -> sys -> sys) (r : res A) (f : A -> M B) :
  run_with env (bind_res r f) =
  match run_with env r with
  | Some (a, st) => run_with env (f a st)
  | None => None
  end.
Proof.
  induction r as [a st | st | s st k IH]; cbn [bind_res run_with]; try reflexivity.
  apply IH.
Qed.

(** [bt_hci_cmd_create] does not block: it returns, or there is no driver. *)
Lemma bt_hci_cmd_create_cases (op plen : Z) (st : sys) :
  (drv (dev st) = None /\ exists st', bt_hci_cmd_create op plen st = Fault st') \/
  (exists d, drv (dev st) = Some d /\
     ((free_bufs st = [] /\
       bt_hci_cmd_create op plen st =
       Ret None (emit (Err "Cannot get free buffer\n" [])
                   (emit (Err "Failed to get free buffer\n" [])
                      (emit (Dbg "opcode %x param_len %u\n" [op; plen]) st)))) \/
      (exists i rest st',
          free_bufs st = i :: rest /\
          bt_hci_cmd_create op plen st = Ret (Some i) st' /\
          free_bufs st' = rest /\
          dev st' = dev st))).
Proof.
  unfold bt_hci_cmd_create. run.
  destruct (drv (dev st)) as [d|]; run.
  - right. exists d. split; [reflexivity|].
    unfold bt_buf_get_reserve. run.
    destruct (free_bufs st) as [|i rest]; run.
    + left. split; reflexivity.
    + right. exists i, rest. eexists. split; [reflexivity|].
      split; [reflexivity|]. run. split; reflexivity.
  - left. split; [reflexivity|]. eexists. reflexivity.
Qed.

Lemma run_with_create (env : sem_id -> sys -> sys) (op plen : Z) (st : sys)
      (x : option nat) (st' : sys) :
  run_with env (bt_hci_cmd_create op plen st) = Some (x, st') ->
  bt_hci_cmd_create op plen st = Ret x st'.
Proof.
  destruct (bt_hci_cmd_create_cases op plen st)
    as [(_ & s & ->) | (d & _ & [(_ & ->) | (i & rest & s & _ & -> & _)])];
    cbn [run_with]; intros H; try discriminate H; injection H as -> ->; reflexivity.
Qed.

Lemma failed_create_trace (op plen : Z) (st st' : sys) :
  bt_hci_cmd_create op plen st = Ret None st' ->
  exists l, trace st' = l ++ [Err "Cannot get free buffer\n" []].
Proof.
  destruct (bt_hci_cmd_create_cases op plen st)
    as [(_ & s & ->) | (d & _ & [(_ & ->) | (i & rest & s & _ & -> & _)])];
    intros H; try discriminate H.
  injection H as <-. run. eexists. reflexivity.
Qed.

Lemma run_with_seq {A B} (env : sem_id -> sys -> sys) (m : M A) (f : A -> M B) (st : sys) :
  run_with env (bind m f st) =
  match run_with env (m st) with
  | Some (a, st1) => run_with env (f a st1)
  | None => None
  end.
Proof. unfold bind. apply run_with_bind. Qed.

(** Running a sequence: the first computation is run to its end, whatever it
    returns, and the run goes on with the rest. *)
Ltac next H :=
  rewrite run_with_seq in H;
  match type of H with
  | match run_with ?env ?X with _ => _ end = _ =>
      let E := fresh "E" in
      destruct (run_with env X) as [[? ?]|] eqn:E; [|discriminate H]
  end.

Ltac forget_state H :=
  match type of H with
  | run_with _ (_ ?S) = _ =>
      let s := fresh "s" in set (s := S) in H; clearbody s
  end.

(** The ways out of [hci_init] after the barrier: the LE check, a failed
    [bt_hci_cmd_create] of one of the two commands built there, or its end. *)
Lemma hci_init_configure_paths (env : sem_id -> sys -> sys) (st : sys) (v : Z) (st' : sys) :
  run_with env (hci_init_configure st) = Some (v, st') ->
  (v = - ENODEV /\ lmp_le_capable (dev st) = false /\
   st' = emit (Err "Non-LE capable controller detected!\n" []) st) \/
  (lmp_le_capable (dev st) = true /\
   ((v = - ENOBUFS /\
     exists stc, bt_hci_cmd_create BT_HCI_OP_SET_EVENT_MASK 8 stc = Ret None st') \/
    (v = - ENOBUFS /\
     exists stc,
       bt_hci_cmd_create BT_HCI_OP_LE_WRITE_LE_HOST_SUPP sizeof_cp_write_le_host_supp stc =
       Ret None st') \/
    (v = 0 /\
     exists st1 args, st' = emit (Dbg "ACL buffers: pkts %u mtu %u\n" args) st1))).
Proof.
  unfold hci_init_configure. run.
  destruct (lmp_le_capable (dev st)) eqn:Hle; run.
  - intros H. right. split; [reflexivity|].
    next H. next H. next H.
    destruct o as [b|].
    + repeat next H.
      match type of H with
      | context [lmp_bredr_capable (dev ?s)] => destruct (lmp_bredr_capable (dev s))
      end.
      * next H. next H.
        destruct o as [b'|].
        -- repeat next H. cbn [run_with ret] in H.
           injection H as <- <-. right. right. split; [reflexivity|].
           match goal with
           | E : run_with _ (BT_DBG "ACL buffers: pkts %u mtu %u\n" _ _) = Some _ |- _ =>
               cbn [run_with BT_DBG modify] in E; injection E as _ <-
           end.
           eexists. eexists. reflexivity.
        -- cbn [run_with ret] in H.
           injection H as <- <-. right. left. split; [reflexivity|].
           eexists. apply (run_with_create env). eassumption.
      * repeat next H. cbn [run_with ret] in H.
        injection H as <- <-. right. right. split; [reflexivity|].
        match goal with
        | E : run_with _ (BT_DBG "ACL buffers: pkts %u mtu %u\n" _ _) = Some _ |- _ =>
            cbn [run_with BT_DBG modify] in E; injection E as _ <-
        end.
        eexists. eexists. reflexivity.
    + cbn [run_with ret] in H.
      injection H as <- <-. left. split; [reflexivity|].
      eexists. apply (run_with_create env). eassumption.
  - intros H. injection H as <- <-. left. repeat split.
Qed.

Lemma hci_init_after_barrier (env : sem_id -> sys -> sys) (st : sys) (r : Z) (st_b : sys) :
  run_with env (hci_init_barrier st) = Some (r, st_b) ->
  run_with env (hci_init st) = run_with env (hci_init_configure st_b).
Proof.
  intros H. unfold hci_init. rewrite run_with_seq, H. reflexivity.
Qed.

Lemma lmp_le_capable_false (d : bt_dev) :
  lmp_le_capable d = false <-> Z.land (nth 4 (features d) 0) BT_LMP_LE = 0.
Proof.
  unfold lmp_le_capable.
  destruct (Z.eqb_spec (Z.land (nth 4 (features d) 0) BT_LMP_LE) 0); simpl;
    split; intros; congruence.
Qed.

(** C2 (as amended): after the READ_BD_ADDR barrier, [hci_init] returns
    -ENODEV exactly when [features[4] & BT_LMP_LE] is clear, whatever
    [features[4] & BT_LMP_NO_BREDR] is; in particular it does for
    [features[4] = 0x00]. *)
Theorem hci_init_nodev_iff_not_le
        (env : sem_id -> sys -> sys) (st : sys) (r : Z) (st_b : sys) :
  run_with env (hci_init_barrier st) = Some (r, st_b) ->
  let f4 := nth 4 (features (dev st_b)) 0 in
  (Z.land f4 BT_LMP_LE = 0 ->
   run_with env (hci_init st) =
   Some (- ENODEV, emit (Err "Non-LE capable controller detected!\n" []) st_b)) /\
  (forall v st', run_with env (hci_init st) = Some (v, st') ->
                 (v = - ENODEV <-> Z.land f4 BT_LMP_LE = 0)) /\
  (f4 = 0x00 ->
   run_with env (hci_init st) =
   Some (- ENODEV, emit (Err "Non-LE capable controller detected!\n" []) st_b)).
Proof.
  intros Hb f4.
  rewrite (hci_init_after_barrier env st r st_b Hb).
  assert (Hnodev : Z.land f4 BT_LMP_LE = 0 ->
                   run_with env (hci_init_configure st_b) =
                   Some (- ENODEV, emit (Err "Non-LE capable controller detected!\n" []) st_b)).
  { intros Hz. apply lmp_le_capable_false in Hz.
    unfold hci_init_configure. run. rewrite Hz. run. reflexivity. }
  split; [exact Hnodev|]. split.
  - intros v st' Hrun.
    apply hci_init_configure_paths in Hrun.
    destruct Hrun as [(Hv & Hle & _) | (Hle & Hrest)].
    + apply lmp_le_capable_false in Hle. tauto.
    + assert (Hnz : Z.land f4 BT_LMP_LE <> 0).
      { intros Hz. apply lmp_le_capable_false in Hz. congruence. }
      assert (Hv : v <> - ENODEV).
      { unfold ENODEV, ENOBUFS in *.
        destruct Hrest as [(-> & _) | [(-> & _) | (-> & _)]]; lia. }
      tauto.
  - intros Hz. apply Hnodev. rewrite Hz. reflexivity.
Qed.

(** The fibers and the stub controller of the scenarios as the environment
    of a caller. *)
Lemma hci_init_nodev_s3 :
  exists st',
    run_with (fun _ => run_fibers (scenario_ctl 0x00 0) 100) (hci_init (started stub_drv)) =
    Some (- ENODEV, st').
Proof.
  eexists.
  eapply (fun Hb => proj2 (proj2 (hci_init_nodev_iff_not_le
                                    (fun _ => run_fibers (scenario_ctl 0x00 0) 100)
                                    (started stub_drv) _ _ Hb))).
  - vm_compute. reflexivity.
  - vm_compute. reflexivity.
Defined.

(** The counterexample to C2 as stated: a controller with
    [features[4] = 0x20] (BT_LMP_NO_BREDR set, BT_LMP_LE clear) is rejected
    with -ENODEV although its NO_BREDR bit is not clear. *)
Lemma no_bredr_non_le_rejected :
  exists st',
    run_task (scenario_ctl 0x20 0) 100 (bt_init (boot (Some stub_drv))) = Some (- ENODEV, st') /\
    nth 4 (features (dev st')) 0 = 0x20 /\
    Z.land 0x20 BT_LMP_NO_BREDR <> 0 /\
    Z.land 0x20 BT_LMP_LE = 0.
Proof.
  eexists. split; [vm_compute; reflexivity|].
  split; [reflexivity|]. split; [discriminate | reflexivity].
Qed.

(** Without a free buffer a send with no buffer given fails with -ENOBUFS
    and leaves [dev] and the empty pool as they are. *)
Lemma send_without_buffer (op : Z) (st : sys) (d : bt_driver) :
  drv (dev st) = Some d ->
  free_bufs st = [] ->
  exists st1,
    bt_hci_cmd_send op None st = Ret (- ENOBUFS) st1 /\
    bt_hci_cmd_send_sync op None st = Ret (- ENOBUFS) st1 /\
    dev st1 = dev st /\
    free_bufs st1 = [].
Proof.
  intros Hd Hf.
  unfold bt_hci_cmd_send, bt_hci_cmd_send_sync, bt_hci_cmd_create. run.
  rewrite Hd. run. unfold bt_buf_get_reserve. run. rewrite Hf. run.
  eexists. split; [reflexivity|]. split; [reflexivity|]. run.
  split; [reflexivity | exact Hf].
Qed.

Lemma take_wait_blocks (s : sem_id) (st : sys) :
  sem_count s st = O ->
  nano_sem_take_wait s st = Wait s st (fun st' => Ret tt (sem_take s st')).
Proof. unfold nano_sem_take_wait. intros ->. reflexivity. Qed.

(** [bt_hci_cmd_send_sync] with a buffer: the caller blocks on a new
    semaphore with the buffer queued. *)
Lemma send_sync_given (op : Z) (i : nat) (st : sys) :
  let s := List.length (sems st) in
  let st1 :=
    upd_dev (fun d => set_cmd_queue (nano_fifo_put (cmd_queue d) i) d)
      (upd_buf i (set_sync (Some s))
         (set_sems (sems st ++ [O])
            (emit (Dbg "opcode %x len %u\n" [op; len (buf_of st i)]) st))) in
  bt_hci_cmd_send_sync op (Some i) st =
  Wait s st1 (fun st' => bind_res (Ret tt (sem_take s st')) (fun _ => ret 0)).
Proof.
  cbv zeta. unfold bt_hci_cmd_send_sync. run. unfold bind at 1.
  rewrite take_wait_blocks; [reflexivity|].
  unfold sem_count. run. apply nth_middle.
Qed.

Lemma bind_wait {A B} (m : M A) (f : A -> M B) (st : sys)
      (s : sem_id) (st1 : sys) (k : sys -> res A) :
  m st = Wait s st1 k ->
  bind m f st = Wait s st1 (fun st' => bind_res (k st') f).
Proof. intros E. unfold bind. rewrite E. reflexivity. Qed.

(** [bt_hci_cmd_send] without a buffer returns whenever a driver is
    registered, with 0 or with -ENOBUFS; the driver stays. *)
Lemma send_returns (op : Z) (st : sys) (d : bt_driver) :
  drv (dev st) = Some d ->
  exists r s,
    bt_hci_cmd_send op None st = Ret r s /\
    drv (dev s) = Some d /\
    (r = 0 \/ r = - ENOBUFS) /\
    (free_bufs st = [] -> r = - ENOBUFS /\ free_bufs s = [] /\ dev s = dev st).
Proof.
  intros Hd.
  destruct (bt_hci_cmd_create_cases op 0 st)
    as [(Hn & _) | (d' & _ & [(Hf & Ec) | (b & rest & s3 & Hf & Ec & _ & Hd3)])];
    [congruence| |].
  - destruct (send_without_buffer op st d Hd Hf) as (s1 & E & _ & Hdev & Hfree).
    exists (- ENOBUFS), s1. split; [exact E|]. split; [rewrite Hdev; exact Hd|].
    split; [right; reflexivity|]. intros _. repeat split; assumption.
  - eexists. eexists. unfold bt_hci_cmd_send. unfold bind at 1. rewrite Ec. run.
    split; [reflexivity|]. run. rewrite Hd3.
    split; [exact Hd|]. split; [left; reflexivity|].
    intros H. congruence.
Qed.


Lemma bind_ret_eq {A B} (m : M A) (g : A -> M B) (S S' : sys) (a : A) :
  m S = Ret a S' -> bind m g S = g a S'.
Proof. intros E. unfold bind. rewrite E. reflexivity. Qed.

(** One step of a run [HR : _ = bind m g S] with [E : m S = Ret a S']. *)
Ltac ret_step HR E :=
  match type of HR with
  | _ = bind ?m ?g ?S => rewrite (bind_ret_eq m g S _ _ E) in HR; cbv beta iota in HR
  end.

Lemma keeps_dev_bind {A B} (m : M A) (g : A -> M B) (S : sys) :
  keeps_dev m -> exists a S', bind m g S = g a S' /\ dev S' = dev S.
Proof.
  intros H. destruct (H S) as (a & S' & E & Hd). exists a, S'.
  unfold bind. rewrite E. split; [reflexivity | exact Hd].
Qed.

Lemma buf_add_keeps_dev (b : nat) (n : Z) : keeps_dev (buf_add b n).
Proof. intros S. eexists. eexists. split; reflexivity. Qed.

Lemma buf_store_keeps_dev (b : nat) (off : Z) (bytes : list Z) : keeps_dev (buf_store b off bytes).
Proof. intros S. eexists. eexists. split; reflexivity. Qed.

Lemma or_byte_keeps_dev (b : nat) (off v : Z) : keeps_dev (or_byte b off v).
Proof. intros S. eexists. eexists. split; reflexivity. Qed.

Lemma ret_keeps_dev {A} (a : A) : keeps_dev (ret a).
Proof. intros S. exists a, S. split; reflexivity. Qed.

Lemma seq_keeps_dev {A B} (m : M A) (f : A -> M B) :
  keeps_dev m -> (forall a, keeps_dev (f a)) -> keeps_dev (bind m f).
Proof.
  intros Hm Hf S. destruct (Hm S) as (a & S1 & E1 & H1).
  destruct (Hf a S1) as (c & S2 & E2 & H2). exists c, S2.
  unfold bind. rewrite E1. cbn [bind_res]. split; [exact E2 | congruence].
Qed.

Ltac keeps_dev_tac :=
  repeat first [ apply buf_add_keeps_dev | apply buf_store_keeps_dev
               | apply or_byte_keeps_dev | apply ret_keeps_dev
               | apply seq_keeps_dev; [|intro]
               | match goal with
                 | |- keeps_dev (if ?c then _ else _) => destruct c
                 end ].

(** One step of a run [HR : _ = bind m g S] whose first computation leaves
    [dev] alone; [HdS : dev S = dev s0] is carried along. *)
Ltac dev_step HR HdS :=
  match type of HR with
  | _ = bind ?m ?g ?S =>
      let a := fresh "a" in
      let S' := fresh "S" in
      let E := fresh "E" in
      let Hd' := fresh "Hd" in
      destruct (keeps_dev_bind m g S ltac:(keeps_dev_tac)) as (a & S' & E & Hd');
      rewrite E in HR; clear E;
      pose proof (eq_trans Hd' HdS) as E; clear HdS Hd'; rename E into HdS;
      cbv beta in HR
  end.

Lemma host_supp_flow :
  forall s7 d',
                 drv (dev s7) = Some d' ->
                 forall f : M Z,
                   (forall s, exists s', f s = Ret 0 s') ->
                   let tail :=
                     st0 <- get;;
                     (if lmp_bredr_capable (dev st0)
                      then
                        (if le_mtu (dev st0) =? 0
                         then bt_hci_cmd_send BT_HCI_OP_READ_BUFFER_SIZE None;; ret tt
                         else ret tt);;
                        buf <- bt_hci_cmd_create BT_HCI_OP_LE_WRITE_LE_HOST_SUPP
                                 sizeof_cp_write_le_host_supp;;
                        match buf with
                        | Some b0 =>
                            cp <- buf_add b0 sizeof_cp_write_le_host_supp;;
                            buf_store b0 (cp + 0) [1];;
                            buf_store b0 (cp + 1) [0];;
                            bt_hci_cmd_send_sync BT_HCI_OP_LE_WRITE_LE_HOST_SUPP (Some b0);;
                            f
                        | None => ret (- ENOBUFS)
                        end
                      else f) in
                   (lmp_bredr_capable (dev s7) = false -> exists s8, tail s7 = Ret 0 s8) /\
                   (lmp_bredr_capable (dev s7) = true ->
                    exists s8,
                      (le_mtu (dev s7) <> 0 -> s8 = s7) /\
                      (le_mtu (dev s7) = 0 ->
                       exists r3,
                         bt_hci_cmd_send BT_HCI_OP_READ_BUFFER_SIZE None s7 = Ret r3 s8) /\
                      ((exists s9,
                           bt_hci_cmd_create BT_HCI_OP_LE_WRITE_LE_HOST_SUPP
                             sizeof_cp_write_le_host_supp s8 = Ret None s9 /\
                           tail s7 = Ret (- ENOBUFS) s9) \/
                       (exists b2 s9 sem2 s10 k2,
                           bt_hci_cmd_create BT_HCI_OP_LE_WRITE_LE_HOST_SUPP
                             sizeof_cp_write_le_host_supp s8 = Ret (Some b2) s9 /\
                           tail s7 = Wait sem2 s10 k2 /\
                           forall s11, exists s12, k2 s11 = Ret 0 s12))).
Proof.
  intros s7 d7 Hd7 f Hfin tail. unfold tail. clear tail.
        match goal with
        | |- context [bind get ?g s7] => change (bind get g s7) with (g s7 s7)
        end.
        cbv beta. split.
        - intros Hbr. rewrite Hbr. apply Hfin.
        - intros Hbr. rewrite Hbr.
          assert (Hs8 : exists s8,
                     (le_mtu (dev s7) <> 0 -> s8 = s7) /\
                     (le_mtu (dev s7) = 0 ->
                      exists r3,
                        bt_hci_cmd_send BT_HCI_OP_READ_BUFFER_SIZE None s7 = Ret r3 s8) /\
                     drv (dev s8) = Some d7 /\
                     (if le_mtu (dev s7) =? 0
                      then bt_hci_cmd_send BT_HCI_OP_READ_BUFFER_SIZE None;; ret tt
                      else ret tt) s7 = Ret tt s8).
          { destruct (Z.eqb_spec (le_mtu (dev s7)) 0) as [Hz|Hnz].
            - destruct (send_returns BT_HCI_OP_READ_BUFFER_SIZE s7 d7 Hd7)
                as (r3 & s8 & E3 & Hd8 & _).
              exists s8. split; [intros H; contradiction|].
              split; [intros _; exists r3; exact E3|]. split; [exact Hd8|].
              unfold bind at 1. rewrite E3. reflexivity.
            - exists s7. split; [reflexivity|]. split; [intros H; contradiction|].
              split; [exact Hd7 | reflexivity]. }
          destruct Hs8 as (s8 & H1 & H2 & Hd8 & E8).
          exists s8. split; [exact H1|]. split; [exact H2|].
          match goal with
          | |- context [bind ?A ?B s7] =>
              assert (HB : bind A B s7 = B tt s8)
                by (unfold bind at 1; rewrite E8; reflexivity);
              rewrite !HB; clear HB
          end.
          cbv beta.
          destruct (bt_hci_cmd_create_cases BT_HCI_OP_LE_WRITE_LE_HOST_SUPP
                      sizeof_cp_write_le_host_supp s8)
            as [(Hn & _) | (d8 & _ & [(Hf' & Ec') | (b2 & rest' & s9 & Hf' & Ec' & _)])];
            [congruence| |].
          + left. eexists. split; [exact Ec'|]. unfold bind at 1. rewrite Ec'. reflexivity.
          + right. exists b2, s9.
            match goal with
            | |- context [bind ?A ?B s8] =>
                assert (HB : bind A B s8 = B (Some b2) s9)
                  by (unfold bind at 1; rewrite Ec'; reflexivity);
                rewrite !HB; clear HB
            end.
            cbv beta iota. run.
            match goal with
            | |- context [bind (bt_hci_cmd_send_sync ?op (Some b2)) ?g ?S] =>
                rewrite (bind_wait _ g _ _ _ _ (send_sync_given op b2 S))
            end.
            eexists. eexists. eexists. split; [exact Ec'|]. split; [reflexivity|].
            intros s11. cbn [bind_res ret]. apply Hfin. 
Qed.

(** C10: [hci_init] does not look at what its sends return.  The three
    sends of steps 1 to 3 return, with 0 or -ENOBUFS, and the run goes on
    with the synchronous READ_BD_ADDR; whatever that barrier returns, the
    run goes on with the LE check.  For an LE capable controller the two LE
    reads return and the run goes on with [bt_hci_cmd_create] for
    SET_EVENT_MASK in the state they leave: when it fails [hci_init] returns
    -ENOBUFS there; otherwise the command is queued, the caller blocks, and
    when it is resumed the run goes on, after the READ_BUFFER_SIZE send of a
    BR/EDR capable controller without LE buffers, with [bt_hci_cmd_create]
    for LE_WRITE_LE_HOST_SUPP: a failure returns -ENOBUFS, a success leads
    to the last synchronous send, after which [hci_init] returns 0.  So the
    value [hci_init] returns is -ENODEV, -ENOBUFS or 0, and it is -ENOBUFS
    exactly when it returns out of a failed [bt_hci_cmd_create].  With an
    empty pool every send of steps 1 to 4 fails with -ENOBUFS and [hci_init]
    still reaches the LE check: it returns -ENODEV for a controller that is
    not LE capable, and for an LE capable one -ENOBUFS, after the two LE
    reads have failed as well, out of the failed [bt_hci_cmd_create]. *)
Theorem hci_init_enobufs_only_from_create (env : sem_id -> sys -> sys) (st : sys) :
  (forall r st_b,
      run_with env (hci_init_barrier st) = Some (r, st_b) ->
      run_with env (hci_init st) = run_with env (hci_init_configure st_b)) /\
  (forall d,
      drv (dev st) = Some d ->
      exists r1 s1 r2 s2 r3 s3,
        bt_hci_cmd_send BT_HCI_OP_RESET None st = Ret r1 s1 /\
        bt_hci_cmd_send BT_HCI_OP_READ_LOCAL_FEATURES None s1 = Ret r2 s2 /\
        bt_hci_cmd_send BT_HCI_OP_READ_LOCAL_VERSION_INFO None s2 = Ret r3 s3 /\
        hci_init_barrier st = bt_hci_cmd_send_sync BT_HCI_OP_READ_BD_ADDR None s3) /\
  (forall st_b d,
      drv (dev st_b) = Some d ->
      lmp_le_capable (dev st_b) = true ->
      exists r1 s1 r2 s2,
        bt_hci_cmd_send BT_HCI_OP_LE_READ_LOCAL_FEATURES None st_b = Ret r1 s1 /\
        bt_hci_cmd_send BT_HCI_OP_LE_READ_BUFFER_SIZE None s1 = Ret r2 s2 /\
        ((exists s3,
             bt_hci_cmd_create BT_HCI_OP_SET_EVENT_MASK 8 s2 = Ret None s3 /\
             hci_init_configure st_b = Ret (- ENOBUFS) s3) \/
         (exists b s3 sem s5 k,
             bt_hci_cmd_create BT_HCI_OP_SET_EVENT_MASK 8 s2 = Ret (Some b) s3 /\
             hci_init_configure st_b = Wait sem s5 k /\
             cmd_queue (dev s5) = cmd_queue (dev s2) ++ [b] /\
             forall s6 d',
               drv (dev s6) = Some d' ->
               let s7 := sem_take sem s6 in
               (lmp_bredr_capable (dev s7) = false -> exists s8, k s6 = Ret 0 s8) /\
               (lmp_bredr_capable (dev s7) = true ->
                exists s8,
                  (le_mtu (dev s7) <> 0 -> s8 = s7) /\
                  (le_mtu (dev s7) = 0 ->
                   exists r3, bt_hci_cmd_send BT_HCI_OP_READ_BUFFER_SIZE None s7 = Ret r3 s8) /\
                  ((exists s9,
                       bt_hci_cmd_create BT_HCI_OP_LE_WRITE_LE_HOST_SUPP
                         sizeof_cp_write_le_host_supp s8 = Ret None s9 /\
                       k s6 = Ret (- ENOBUFS) s9) \/
                   (exists b2 s9 sem2 s10 k2,
                       bt_hci_cmd_create BT_HCI_OP_LE_WRITE_LE_HOST_SUPP
                         sizeof_cp_write_le_host_supp s8 = Ret (Some b2) s9 /\
                       k s6 = Wait sem2 s10 k2 /\
                       forall s11, exists s12, k2 s11 = Ret 0 s12)))))) /\
  (forall v st',
      run_with env (hci_init st) = Some (v, st') ->
      (v = - ENODEV \/ v = - ENOBUFS \/ v = 0) /\
      (v = - ENOBUFS <->
       exists stc,
         bt_hci_cmd_create BT_HCI_OP_SET_EVENT_MASK 8 stc = Ret None st' \/
         bt_hci_cmd_create BT_HCI_OP_LE_WRITE_LE_HOST_SUPP sizeof_cp_write_le_host_supp stc =
         Ret None st')) /\
  (forall d,
      drv (dev st) = Some d ->
      free_bufs st = [] ->
      exists st1 st2 st3 st_b,
        bt_hci_cmd_send BT_HCI_OP_RESET None st = Ret (- ENOBUFS) st1 /\
        bt_hci_cmd_send BT_HCI_OP_READ_LOCAL_FEATURES None st1 = Ret (- ENOBUFS) st2 /\
        bt_hci_cmd_send BT_HCI_OP_READ_LOCAL_VERSION_INFO None st2 = Ret (- ENOBUFS) st3 /\
        bt_hci_cmd_send_sync BT_HCI_OP_READ_BD_ADDR None st3 = Ret (- ENOBUFS) st_b /\
        dev st_b = dev st /\
        (lmp_le_capable (dev st) = false ->
         run_with env (hci_init st) =
         Some (- ENODEV, emit (Err "Non-LE capable controller detected!\n" []) st_b)) /\
        (lmp_le_capable (dev st) = true ->
         exists st4 st5 st',
           bt_hci_cmd_send BT_HCI_OP_LE_READ_LOCAL_FEATURES None st_b = Ret (- ENOBUFS) st4 /\
           bt_hci_cmd_send BT_HCI_OP_LE_READ_BUFFER_SIZE None st4 = Ret (- ENOBUFS) st5 /\
           bt_hci_cmd_create BT_HCI_OP_SET_EVENT_MASK 8 st5 = Ret None st' /\
           run_with env (hci_init st) = Some (- ENOBUFS, st'))).
Proof.
  match goal with
  | |- _ /\ _ /\ ?B /\ _ => assert (Hflow : B)
  end.
  { clear st. intros st d Hd Hle.
    destruct (send_returns BT_HCI_OP_LE_READ_LOCAL_FEATURES st d Hd)
      as (r1 & s1 & E1 & Hd1 & _).
    destruct (send_returns BT_HCI_OP_LE_READ_BUFFER_SIZE s1 d Hd1)
      as (r2 & s2 & E2 & Hd2 & _).
    exists r1, s1, r2, s2. split; [exact E1|]. split; [exact E2|].
    remember (hci_init_configure st) as R eqn:HR.
    unfold hci_init_configure in HR. cbv zeta in HR.
    match type of HR with
    | _ = bind get ?g ?S => change (bind get g S) with (g S S) in HR; cbv beta in HR
    end.
    rewrite Hle in HR. cbn [negb] in HR.
    ret_step HR E1. ret_step HR E2.
    clear E1 E2.
    destruct (bt_hci_cmd_create_cases BT_HCI_OP_SET_EVENT_MASK 8 s2)
      as [(Hn & _) | (d' & _ & [(Hf & Ec) | (b & rest & s3 & Hf & Ec & _ & Hd3)])];
      [congruence| |].
    + left. eexists. split; [exact Ec|].
      ret_step HR Ec. exact HR.
    + right. exists b, s3.
      ret_step HR Ec.
      assert (Htail : forall (S : sys) (f : Z -> M Z),
                 dev S = dev s3 ->
                 (forall s7 d',
                     drv (dev s7) = Some d' ->
                     (lmp_bredr_capable (dev s7) = false -> exists s8, f 0 s7 = Ret 0 s8) /\
                     (lmp_bredr_capable (dev s7) = true ->
                      exists s8,
                        (le_mtu (dev s7) <> 0 -> s8 = s7) /\
                        (le_mtu (dev s7) = 0 ->
                         exists r3,
                           bt_hci_cmd_send BT_HCI_OP_READ_BUFFER_SIZE None s7 = Ret r3 s8) /\
                        ((exists s9,
                             bt_hci_cmd_create BT_HCI_OP_LE_WRITE_LE_HOST_SUPP
                               sizeof_cp_write_le_host_supp s8 = Ret None s9 /\
                             f 0 s7 = Ret (- ENOBUFS) s9) \/
                         (exists b2 s9 sem2 s10 k2,
                             bt_hci_cmd_create BT_HCI_OP_LE_WRITE_LE_HOST_SUPP
                               sizeof_cp_write_le_host_supp s8 = Ret (Some b2) s9 /\
                             f 0 s7 = Wait sem2 s10 k2 /\
                             forall s11, exists s12, k2 s11 = Ret 0 s12)))) ->
                 R = bind (bt_hci_cmd_send_sync BT_HCI_OP_SET_EVENT_MASK (Some b)) f S ->
                 exists sem s5 k,
                   bt_hci_cmd_create BT_HCI_OP_SET_EVENT_MASK 8 s2 = Ret (Some b) s3 /\
                   R = Wait sem s5 k /\
                   cmd_queue (dev s5) = cmd_queue (dev s2) ++ [b] /\
                   forall s6 d',
                     drv (dev s6) = Some d' ->
                     let s7 := sem_take sem s6 in
                     (lmp_bredr_capable (dev s7) = false -> exists s8, k s6 = Ret 0 s8) /\
                     (lmp_bredr_capable (dev s7) = true ->
                      exists s8,
                        (le_mtu (dev s7) <> 0 -> s8 = s7) /\
                        (le_mtu (dev s7) = 0 ->
                         exists r3,
                           bt_hci_cmd_send BT_HCI_OP_READ_BUFFER_SIZE None s7 = Ret r3 s8) /\
                        ((exists s9,
                             bt_hci_cmd_create BT_HCI_OP_LE_WRITE_LE_HOST_SUPP
                               sizeof_cp_write_le_host_supp s8 = Ret None s9 /\
                             k s6 = Ret (- ENOBUFS) s9) \/
                         (exists b2 s9 sem2 s10 k2,
                             bt_hci_cmd_create BT_HCI_OP_LE_WRITE_LE_HOST_SUPP
                               sizeof_cp_write_le_host_supp s8 = Ret (Some b2) s9 /\
                             k s6 = Wait sem2 s10 k2 /\
                             forall s11, exists s12, k2 s11 = Ret 0 s12)))).
      { intros S f HdS Hf0 HR'.
        rewrite (bind_wait _ _ _ _ _ _ (send_sync_given BT_HCI_OP_SET_EVENT_MASK b S)) in HR'.
        eexists. eexists. eexists. split; [exact Ec|]. split; [exact HR'|].
        split; [run; rewrite HdS, Hd3; reflexivity|].
        intros s6 d6 Hd6. cbv zeta. cbn [bind_res ret].
        apply (Hf0 _ d6). exact Hd6. }
      assert (Hfin : forall s, exists s',
                 (st2 <- get;;
                  BT_DBG "HCI ver %u rev %u, manufacturer %u\n"
                    [hci_version (dev st2); hci_revision (dev st2); manufacturer (dev st2)];;
                  BT_DBG "ACL buffers: pkts %u mtu %u\n" [le_pkts (dev st2); le_mtu (dev st2)];;
                  ret 0) s = Ret 0 s').
      { intros s. eexists. run. reflexivity. }
      assert (HdS : dev s3 = dev s3) by reflexivity.
      do 10 dev_step HR HdS.
      match type of HR with
      | _ = bind get ?g ?S => change (bind get g S) with (g S S) in HR; cbv beta in HR
      end.
      dev_step HR HdS.
      match type of HR with
      | _ = bind (bt_hci_cmd_send_sync _ (Some b)) ?f ?S =>
          apply (Htail S f); [exact HdS| |exact HR]
      end.
      intros s7 d7 Hd7; exact (host_supp_flow s7 d7 Hd7 _ Hfin). }
  split; [|split; [|split; [exact Hflow|split]]].
  - intros r st_b Hb. exact (hci_init_after_barrier env st r st_b Hb).
  - intros d Hd.
    destruct (send_returns BT_HCI_OP_RESET st d Hd) as (r1 & s1 & E1 & Hd1 & _).
    destruct (send_returns BT_HCI_OP_READ_LOCAL_FEATURES s1 d Hd1) as (r2 & s2 & E2 & Hd2 & _).
    destruct (send_returns BT_HCI_OP_READ_LOCAL_VERSION_INFO s2 d Hd2)
      as (r3 & s3 & E3 & Hd3 & _).
    exists r1, s1, r2, s2, r3, s3.
    split; [exact E1|]. split; [exact E2|]. split; [exact E3|].
    unfold hci_init_barrier.
    unfold bind at 1. rewrite E1. cbn [bind_res].
    unfold bind at 1. rewrite E2. cbn [bind_res].
    unfold bind at 1. rewrite E3. cbn [bind_res].
    reflexivity.
  - intros v st' Hrun. unfold hci_init in Hrun. next Hrun.
    apply hci_init_configure_paths in Hrun.
    assert (Hlast : forall (l1 l2 : list event) (e1 e2 : event),
               l1 ++ [e1] = l2 ++ [e2] -> e1 = e2).
    { intros l1 l2 e1 e2 H. apply app_inj_tail in H. tauto. }
    assert (Hnot : forall e st0,
               e <> Err "Cannot get free buffer\n" [] ->
               ~ (exists stc,
                     bt_hci_cmd_create BT_HCI_OP_SET_EVENT_MASK 8 stc = Ret None (emit e st0) \/
                     bt_hci_cmd_create BT_HCI_OP_LE_WRITE_LE_HOST_SUPP
                       sizeof_cp_write_le_host_supp stc = Ret None (emit e st0))).
    { intros e st0 He (stc & [Hc|Hc]); apply failed_create_trace in Hc;
        destruct Hc as (l & Hl); run in Hl; apply Hlast in Hl; contradiction. }
    unfold ENODEV, ENOBUFS in *.
    destruct Hrun as [(-> & _ & ->) | (_ & [(-> & stc & Hc) | [(-> & stc & Hc) | (-> & s1 & args & ->)]])].
    + split; [left; reflexivity|].
      split; [intros H; discriminate H|].
      intros H. exfalso. revert H. apply Hnot. discriminate.
    + split; [right; left; reflexivity|].
      split; [intros _; exists stc; left; exact Hc | reflexivity].
    + split; [right; left; reflexivity|].
      split; [intros _; exists stc; right; exact Hc | reflexivity].
    + split; [right; right; reflexivity|].
      split; [intros H; discriminate H|].
      intros H. exfalso. revert H. apply Hnot. discriminate.
  - intros d Hd Hf.
    destruct (send_without_buffer BT_HCI_OP_RESET st d Hd Hf)
      as (st1 & H1 & _ & Hd1 & Hf1).
    destruct (send_without_buffer BT_HCI_OP_READ_LOCAL_FEATURES st1 d
                ltac:(now rewrite Hd1) Hf1) as (st2 & H2 & _ & Hd2 & Hf2).
    destruct (send_without_buffer BT_HCI_OP_READ_LOCAL_VERSION_INFO st2 d
                ltac:(now rewrite Hd2, Hd1) Hf2) as (st3 & H3 & _ & Hd3 & Hf3).
    destruct (send_without_buffer BT_HCI_OP_READ_BD_ADDR st3 d
                ltac:(now rewrite Hd3, Hd2, Hd1) Hf3) as (st4 & _ & H4 & Hd4 & Hf4).
    exists st1, st2, st3, st4.
    split; [exact H1|]. split; [exact H2|]. split; [exact H3|]. split; [exact H4|].
    split; [now rewrite Hd4, Hd3, Hd2, Hd1|].
    assert (Hb : run_with env (hci_init_barrier st) = Some (- ENOBUFS, st4)).
    { unfold hci_init_barrier.
      rewrite run_with_seq, H1. cbn [run_with].
      rewrite run_with_seq, H2. cbn [run_with].
      rewrite run_with_seq, H3. cbn [run_with].
      rewrite H4. reflexivity. }
    split.
    + intros Hle.
      rewrite (hci_init_after_barrier env st _ _ Hb).
      unfold hci_init_configure. run.
      rewrite Hd4, Hd3, Hd2, Hd1, Hle. run. reflexivity.
    + intros Hle.
      assert (Hdrv4 : drv (dev st4) = Some d) by (rewrite Hd4, Hd3, Hd2, Hd1; exact Hd).
      assert (Hle4 : lmp_le_capable (dev st4) = true)
        by (rewrite Hd4, Hd3, Hd2, Hd1; exact Hle).
      destruct (send_without_buffer BT_HCI_OP_LE_READ_LOCAL_FEATURES st4 d Hdrv4 Hf4)
        as (st5 & H5 & _ & Hd5 & Hf5).
      assert (Hdrv5 : drv (dev st5) = Some d) by (rewrite Hd5; exact Hdrv4).
      destruct (send_without_buffer BT_HCI_OP_LE_READ_BUFFER_SIZE st5 d Hdrv5 Hf5)
        as (st6 & H6 & _ & Hd6 & Hf6).
      destruct (Hflow st4 d Hdrv4 Hle4)
        as (r1 & s1 & r2 & s2 & E1 & E2 &
            [(s3 & Ec3 & Hrun) | (b & s3 & sem & s5 & k & Ec3 & _)]);
        rewrite H5 in E1; injection E1 as <- <-;
        rewrite H6 in E2; injection E2 as <- <-.
      * exists st5, st6, s3.
        split; [exact H5|]. split; [exact H6|]. split; [exact Ec3|].
        rewrite (hci_init_after_barrier env st _ _ Hb), Hrun. reflexivity.
      * exfalso.
        destruct (bt_hci_cmd_create_cases BT_HCI_OP_SET_EVENT_MASK 8 st6)
          as [(_ & s & E) | (d' & _ & [(_ & E) | (i & rest & s & Hfi & _)])];
          congruence.
Qed.

(** With the pool exhausted before bring-up, the four sends fail and
    [hci_init] returns -ENODEV, not -ENOBUFS. *)
Lemma hci_init_exhausted_pool_nodev :
  exists st',
    run_with (fun _ st => st) (hci_init (set_free_bufs [] (started stub_drv))) =
    Some (- ENODEV, st').
Proof.
  destruct (proj2 (proj2 (proj2 (proj2 (hci_init_enobufs_only_from_create
                                          (fun _ st => st)
                                          (set_free_bufs [] (started stub_drv))))))
              stub_drv eq_refl eq_refl)
    as (st1 & st2 & st3 & st_b & _ & _ & _ & _ & _ & H & _).
  eexists. apply H. reflexivity.
Defined.

(** ** Effects of the actions on the credit, the semaphores and the buffers *)

Lemma list_upd_fuse {A} (i : nat) (f g : A -> A) (l : list A) :
  list_upd i f (list_upd i g l) = list_upd i (fun x => f (g x)) l.
Proof.
  revert i. induction l as [|x l IH]; intros [|i]; simpl; try reflexivity.
  now rewrite IH.
Qed.

(** The buffers of a computed state, looked up: all updates of the same
    cell are fused, and the lookup is split into the cell and the others. *)
Ltac bufs :=
  unfold buf_of; run;
  repeat rewrite list_upd_fuse;
  repeat rewrite nth_list_upd;
  repeat match goal with
         | |- context [if ?c then _ else _] => destruct c
         end; run.

Lemma quiet_step_refl (st : sys) : quiet_step st st.
Proof.
  unfold quiet_step. do 5 (split; [reflexivity|]).
  split; [exists []; split; [now rewrite app_nil_r | reflexivity]|].
  split; [reflexivity|]. intros j. left. split; reflexivity.
Qed.

Lemma forallb_app_true {A} (f : A -> bool) (l1 l2 : list A) :
  forallb f l1 = true -> forallb f l2 = true -> forallb f (l1 ++ l2) = true.
Proof. intros H1 H2. rewrite forallb_app, H1, H2. reflexivity. Qed.

Lemma quiet_step_trans (st1 st2 st3 : sys) :
  quiet_step st1 st2 -> quiet_step st2 st3 -> quiet_step st1 st3.
Proof.
  intros (A1 & A2 & A3 & A4 & A5 & (la & Ta & La) & A7 & A8)
         (B1 & B2 & B3 & B4 & B5 & (lb & Tb & Lb) & B7 & B8).
  unfold quiet_step.
  split; [congruence|]. split; [congruence|]. split; [congruence|].
  split; [congruence|]. split; [congruence|].
  split.
  { exists (la ++ lb). split; [rewrite Tb, Ta, app_assoc; reflexivity|].
    apply forallb_app_true; assumption. }
  split; [congruence|].
  intros j. destruct (B8 j) as [(Hs & Ho) | Hn]; [|right; exact Hn].
  destruct (A8 j) as [(Hs' & Ho') | Hn'].
  - left. split; congruence.
  - right. congruence.
Qed.

(** A step that only logs is quiet. *)
Ltac quiet_here :=
  unfold quiet_step; run;
  do 5 (split; [reflexivity|]);
  (split; [first [ rewrite <- ?app_assoc; eexists; split; reflexivity
                 | exists []; split; [now rewrite app_nil_r | reflexivity] ]|]);
  (split; [reflexivity|]);
  let j := fresh "j" in intros j; bufs; auto.

Lemma nth_list_upd_self {B} (g : bt_buf -> B) (f : bt_buf -> bt_buf)
      (i : nat) (l : list bt_buf) (v : B) :
  (forall b, g (f b) = v) ->
  g zero_buf = v ->
  g (nth i (list_upd i f l) zero_buf) = v.
Proof.
  intros Hf Hz. rewrite nth_list_upd, Nat.eqb_refl. cbn [andb].
  destruct (Nat.ltb_spec i (List.length l)) as [Hlt|Hge]; [apply Hf|].
  rewrite nth_overflow by exact Hge. exact Hz.
Qed.

Lemma get_reserve_quiet (rh : Z) (st : sys) (r : option nat) (st' : sys) :
  bt_buf_get_reserve rh st = Ret r st' ->
  quiet_step st st' /\ (forall i, r = Some i -> sync (buf_of st' i) = None).
Proof.
  unfold bt_buf_get_reserve. run.
  destruct (free_bufs st) as [|i rest]; run; intros H; injection H as <- <-.
  - split; [quiet_here | discriminate].
  - split; [quiet_here|]. intros i' Hi. injection Hi as <-.
    unfold buf_of. run. repeat rewrite list_upd_fuse.
    apply nth_list_upd_self; reflexivity.
Qed.

Lemma create_quiet (op plen : Z) (st : sys) (r : option nat) (st' : sys) :
  bt_hci_cmd_create op plen st = Ret r st' ->
  quiet_step st st' /\
  (forall i, r = Some i ->
             sync (buf_of st' i) = None /\
             ((i < List.length (buffers st'))%nat -> opcode (buf_of st' i) = op)).
Proof.
  unfold bt_hci_cmd_create. run.
  destruct (drv (dev st)) as [d|]; run; [|discriminate].
  unfold bind at 1.
  destruct (bt_buf_get_reserve (head_reserve d)
              (emit (Dbg "opcode %x param_len %u\n" [op; plen]) st))
    as [r0 st0 | st0 | s0 st0 k0] eqn:Hg; cbn [bind_res]; try discriminate.
  apply get_reserve_quiet in Hg. destruct Hg as [Hq Hs].
  assert (Hq0 : quiet_step st st0).
  { eapply quiet_step_trans; [|exact Hq]. quiet_here. }
  destruct r0 as [i|]; run; intros H; injection H as <- <-.
  - split.
    + eapply quiet_step_trans; [exact Hq0|]. quiet_here.
    + intros i' Hi. injection Hi as <-. split.
      * unfold buf_of. run. repeat rewrite list_upd_fuse.
        apply nth_list_upd_self; reflexivity.
      * intros Hlt. unfold buf_of. run. repeat rewrite list_upd_fuse.
        rewrite nth_list_upd, Nat.eqb_refl.
        run in Hlt. rewrite ?list_upd_fuse, length_list_upd in Hlt.
        apply Nat.ltb_lt in Hlt. rewrite Hlt.
        reflexivity.
  - split; [|discriminate].
    eapply quiet_step_trans; [exact Hq0|]. quiet_here.
Qed.

Lemma quiet_caller (st st' : sys) : quiet_step st st' -> caller_effect st st'.
Proof.
  intros (A1 & A2 & A3 & A4 & A5 & A6 & A7 & A8). unfold caller_effect.
  do 5 (split; [assumption|]). split; [exact A6|].
  split; [left; exact A7|].
  intros j. destruct (A8 j) as [H|H]; [left; exact H | right; left; exact H].
Qed.

(** The buffer a send works on: the one given, or a fresh command. *)
Lemma send_buffer_quiet (op : Z) (buf : option nat) (st : sys)
      (r : option nat) (st' : sys) :
  match buf with
  | Some i => ret (Some i)
  | None => bt_hci_cmd_create op 0
  end st = Ret r st' ->
  quiet_step st st' /\
  (forall i, r = Some i ->
     (buf = Some i /\ st' = st) \/
     (buf = None /\ sync (buf_of st' i) = None /\
      ((i < List.length (buffers st'))%nat -> opcode (buf_of st' i) = op))).
Proof.
  destruct buf as [i|].
  - run. intros H. injection H as <- <-. split; [apply quiet_step_refl|].
    intros i' Hi. left. split; [exact Hi | reflexivity].
  - intros H. apply create_quiet in H. destruct H as [Hq Hc].
    split; [exact Hq|]. intros i Hi. right. split; [reflexivity|]. apply Hc, Hi.
Qed.

Lemma send_quiet (op : Z) (buf : option nat) (st : sys) (v : Z) (st' : sys) :
  bt_hci_cmd_send op buf st = Ret v st' -> quiet_step st st'.
Proof.
  unfold bt_hci_cmd_send. unfold bind at 1.
  destruct (match buf with Some i => ret (Some i) | None => bt_hci_cmd_create op 0 end st)
    as [r0 st0 | st0 | s0 st0 k0] eqn:Hb; cbn [bind_res]; try discriminate.
  apply send_buffer_quiet in Hb. destruct Hb as [Hq _].
  destruct r0 as [i|]; run; intros H; injection H as <- <-.
  - eapply quiet_step_trans; [exact Hq|]. quiet_here.
  - exact Hq.
Qed.

(** [bt_hci_cmd_send_sync]: without a buffer it returns -ENOBUFS; otherwise
    it attaches a new semaphore to the buffer, queues it and blocks, and
    returns 0 when it is resumed. *)
Lemma send_sync_cases (op : Z) (buf : option nat) (st : sys) :
  (exists st', bt_hci_cmd_send_sync op buf st = Fault st') \/
  (exists st', bt_hci_cmd_send_sync op buf st = Ret (- ENOBUFS) st' /\ quiet_step st st') \/
  (exists i st0,
      quiet_step st st0 /\
      ((buf = Some i /\ st0 = st) \/
       (buf = None /\ sync (buf_of st0 i) = None /\
        ((i < List.length (buffers st0))%nat -> opcode (buf_of st0 i) = op))) /\
      let s := List.length (sems st0) in
      let st1 :=
        upd_dev (fun d => set_cmd_queue (nano_fifo_put (cmd_queue d) i) d)
          (upd_buf i (set_sync (Some s))
             (set_sems (sems st0 ++ [O])
                (emit (Dbg "opcode %x len %u\n" [op; len (buf_of st0 i)]) st0))) in
      bt_hci_cmd_send_sync op buf st =
      Wait s st1 (fun st' => bind_res (Ret tt (sem_take s st')) (fun _ => ret 0))).
Proof.
  remember (bt_hci_cmd_send_sync op buf st) as R eqn:HR.
  unfold bt_hci_cmd_send_sync in HR. unfold bind at 1 in HR.
  destruct (match buf with Some i => ret (Some i) | None => bt_hci_cmd_create op 0 end st)
    as [r0 st0 | st0 | s0 st0 k0] eqn:Hb; cbn [bind_res] in HR.
  - pose proof (send_buffer_quiet op buf st r0 st0 Hb) as [Hq Hc].
    destruct r0 as [i|]; run in HR.
    + right. right. exists i, st0. split; [exact Hq|]. split; [apply Hc; reflexivity|].
      cbv zeta. unfold bind at 1 in HR. rewrite take_wait_blocks in HR.
      * exact HR.
      * unfold sem_count. run. apply nth_middle.
    + right. left. eexists. split; [exact HR | exact Hq].
  - left. eexists. exact HR.
  - exfalso. destruct buf as [i|]; [discriminate Hb|].
    destruct (bt_hci_cmd_create_cases op 0 st)
      as [(_ & s & E) | (d & _ & [(_ & E) | (i & rest & s & _ & E & _)])];
      rewrite E in Hb; discriminate Hb.
Qed.

Lemma drv_deliver_quiet (ty : bt_buf_type) (bytes : list Z) (st : sys) (st' : sys) :
  settle (drv_deliver ty bytes st) = Some st' -> quiet_step st st'.
Proof.
  unfold drv_deliver, bt_buf_get. unfold bind at 1.
  destruct (bt_buf_get_reserve 0 st) as [r0 st0 | st0 | s0 st0 k0] eqn:Hg;
    cbn [bind_res settle]; try discriminate.
  - apply get_reserve_quiet in Hg. destruct Hg as [Hq Hs].
    destruct r0 as [i|]; run; intros H; injection H as <-.
    + eapply quiet_step_trans; [exact Hq|]. quiet_here.
    + exact Hq.
  - exfalso. revert Hg. unfold bt_buf_get_reserve. run.
    destruct (free_bufs st); run; discriminate.
Qed.

Lemma buf_fill_quiet (i : nat) (bytes : list Z) (st : sys) (st' : sys) :
  settle (buf_fill i bytes st) = Some st' -> quiet_step st st'.
Proof.
  unfold buf_fill. run. intros H. injection H as <-.
  unfold quiet_step; run.
  do 5 (split; [reflexivity|]).
  split; [exists []; split; [now rewrite app_nil_r | reflexivity]|].
  split; [reflexivity|]. intros j. bufs; auto.
Qed.

Lemma caller_step_effect (a : action) (st st' : sys) :
  is_caller_action a = true ->
  step a st = Some st' ->
  caller_effect st st'.
Proof.
  destruct a as [ | | ty bytes | op plen | b bytes | op buf | op buf | s ];
    try discriminate; intros _; cbn [step].
  - intros H. apply quiet_caller. eapply drv_deliver_quiet; eassumption.
  - destruct (bt_hci_cmd_create op plen st) as [r0 st0 | st0 | s0 st0 k0] eqn:Hc;
      cbn [settle]; intros H; try discriminate H.
    + injection H as <-. apply quiet_caller. eapply create_quiet; eassumption.
    + exfalso.
      destruct (bt_hci_cmd_create_cases op plen st)
        as [(_ & s & E) | (d & _ & [(_ & E) | (i & rest & s & _ & E & _)])];
        rewrite E in Hc; discriminate Hc.
  - intros H. apply quiet_caller. eapply buf_fill_quiet; eassumption.
  - destruct (bt_hci_cmd_send op buf st) as [r0 st0 | st0 | s0 st0 k0] eqn:Hc;
      cbn [settle]; intros H; try discriminate H.
    + injection H as <-. apply quiet_caller. eapply send_quiet; eassumption.
    + exfalso. revert Hc. unfold bt_hci_cmd_send. unfold bind at 1.
      destruct buf as [i|]; [run; discriminate|].
      destruct (bt_hci_cmd_create_cases op 0 st)
        as [(_ & s & E) | (d & _ & [(_ & E) | (i & rest & s & _ & E & _)])];
        rewrite E; run; discriminate.
  - destruct (send_sync_cases op buf st)
      as [(s & E) | [(s & E & Hq) | (i & st0 & Hq & Hbuf & E)]];
      cbv zeta in E; rewrite E; cbn [settle]; intros H; try discriminate H;
      injection H as <-.
    + apply quiet_caller. exact Hq.
    + destruct Hq as (A1 & A2 & A3 & A4 & A5 & (l & Tl & Ll) & A7 & A8).
      unfold caller_effect. run.
      do 5 (split; [assumption|]).
      split.
      { exists (l ++ [Dbg "opcode %x len %u\n" [op; len (buf_of st0 i)]]).
        split; [rewrite Tl, app_assoc; reflexivity|].
        rewrite forallb_app, Ll. reflexivity. }
      split; [right; rewrite A7; reflexivity|].
      intros j.
      match goal with
      | |- context [buf_of ?S j] =>
          lazymatch S with
          | upd_dev _ _ =>
              assert (Hj : buf_of S j =
                           if ((i =? j) && (i <? List.length (buffers st0)))%nat
                           then set_sync (Some (List.length (sems st0))) (buf_of st0 j)
                           else buf_of st0 j)
                by (unfold buf_of; run; apply nth_list_upd);
              rewrite Hj; clear Hj
          end
      end.
      destruct ((i =? j) && (i <? List.length (buffers st0)))%nat.
      * right. right. run. rewrite <- A7. split; reflexivity.
      * destruct (A8 j) as [Hs|Hn]; [left; exact Hs | right; left; exact Hn].
Qed.

Lemma hci_acl_effect (i : nat) (st : sys) :
  exists st' l,
    hci_acl i st = Ret tt st' /\
    buffers st' = list_upd i (fun b => snd (bt_buf_pull b sizeof_acl_hdr)) (buffers st) /\
    dev st' = dev st /\
    sems st' = sems st /\
    cmd_fiber st' = cmd_fiber st /\
    rx_fiber st' = rx_fiber st /\
    trace st' = trace st ++ l /\
    forallb is_log l = true.
Proof.
  unfold hci_acl. run.
  match goal with
  | |- context [if ?c then _ else _] => destruct c
  end; run; eexists; eexists; (split; [reflexivity|]); run;
    do 5 (split; [reflexivity|]);
    (split; [rewrite <- ?app_assoc; reflexivity | reflexivity]).
Qed.

Lemma completion_tail_null (parser : M unit) (op : Z) (i : nat) (evt off : Z) (st : sys) :
  logs_only parser ->
  sent_cmd (dev st) = None ->
  exists s, (parser;; hci_cmd_done op;; credit_refill i evt off) st = Fault s.
Proof.
  intros Hp Hsent.
  destruct (Hp st) as (st1 & l1 & Hrun1 & _ & _ & _ & Hsc1 & _).
  unfold bind at 1. rewrite Hrun1. cbn [bind_res].
  unfold bind at 1. rewrite hci_cmd_done_null by congruence. cbn [bind_res].
  eexists. reflexivity.
Qed.

Lemma hci_cmd_complete_null (i : nat) (st : sys) :
  sent_cmd (dev st) = None -> exists s, hci_cmd_complete i st = Fault s.
Proof.
  intros H. unfold hci_cmd_complete. run.
  apply completion_tail_null; [apply cmd_complete_switch_logs_only | exact H].
Qed.

Lemma hci_cmd_status_null (i : nat) (st : sys) :
  sent_cmd (dev st) = None -> exists s, hci_cmd_status i st = Fault s.
Proof.
  intros H. unfold hci_cmd_status. run.
  apply (completion_tail_null (BT_ERR "Unknown opcode %x" _));
    [apply BT_ERR_logs_only | exact H].
Qed.

Lemma correlated_outcome (op : Z) (sent : nat) (st0 st1 st st' : sys) (l : list event) :
  correlated op sent st0 st1 l ->
  opcode (buf_of st0 sent) = opcode (buf_of st sent) ->
  sync (buf_of st0 sent) = sync (buf_of st sent) ->
  sems st0 = sems st ->
  sems st' = sems st1 ->
  sent_cmd (dev st') = sent_cmd (dev st1) ->
  completion_outcome op sent st st' l.
Proof.
  unfold correlated, completion_outcome. intros H E1 E2 E3 E4 E5.
  rewrite E1, E2, E3 in H. rewrite E4, E5.
  destruct H as [(H1 & H2 & _ & H3 & H4) | (H1 & H2 & _ & [(H3 & H4 & H5) | (s & H3 & H4 & H5)])].
  - left. auto.
  - right. split; [exact H1|]. split; [exact H2|]. left. auto.
  - right. split; [exact H1|]. split; [exact H2|]. right. exists s. auto.
Qed.

Lemma refilled_transfer (e : Z) (st0 st1 st st' : sys) (l : list event) :
  refilled e st0 st1 l ->
  ncmd (dev st0) = ncmd (dev st) ->
  ncmd_sem (dev st0) = ncmd_sem (dev st) ->
  ncmd (dev st') = ncmd (dev st1) ->
  ncmd_sem (dev st') = ncmd_sem (dev st1) ->
  refilled e st st' l.
Proof.
  unfold refilled. intros H E1 E2 E3 E4.
  rewrite E1, E2 in H. rewrite E3, E4. exact H.
Qed.

Lemma sync_opcode_pulled (i j : nat) (n : Z) (l : list bt_buf) :
  sync (nth j (list_upd i (fun b => snd (bt_buf_pull b n)) l) zero_buf) =
  sync (nth j l zero_buf) /\
  opcode (nth j (list_upd i (fun b => snd (bt_buf_pull b n)) l) zero_buf) =
  opcode (nth j l zero_buf).
Proof. split; apply nth_list_upd_proj; intro; apply pull_keeps. Qed.

(** The effect of [hci_event] when it returns. *)
Lemma hci_event_effect (i : nat) (st st' : sys) :
  hci_event i st = Ret tt st' ->
  cmd_fiber st' = cmd_fiber st /\
  rx_fiber st' = rx_fiber st /\
  (forall j,
      sync (buf_of st' j) = sync (buf_of st j) /\
      opcode (buf_of st' j) = opcode (buf_of st j)) /\
  exists l1 l2 l3 l4,
    trace st' = trace st ++ l1 ++ l2 ++ l3 ++ l4 /\
    forallb is_log l1 = true /\
    forallb is_log l4 = true /\
    ((l2 = [] /\ l3 = [] /\
      sems st' = sems st /\
      ncmd (dev st') = ncmd (dev st) /\
      ncmd_sem (dev st') = ncmd_sem (dev st) /\
      sent_cmd (dev st') = sent_cmd (dev st)) \/
     (exists op sent e,
         (type (buf_of st i) = BT_EVT -> rx_event_opcode st i = Some op) /\
         sent_cmd (dev st) = Some sent /\
         completion_outcome op sent st st' l2 /\
         refilled e st st' l3)).
Proof.
  unfold hci_event. run.
  set (e0 := fld8 (buf_of st i) (data (buf_of st i)) 0).
  set (st0 := upd_buf i (fun b => snd (bt_buf_pull b sizeof_evt_hdr))
                (emit (Dbg "event %u\n" [e0]) st)).
  set (evt := fld8 (buf_of st0 i) (data (buf_of st i)) 0).
  assert (Hb0 : buffers st0 =
                list_upd i (fun b => snd (bt_buf_pull b sizeof_evt_hdr)) (buffers st))
    by reflexivity.
  assert (Hd0 : dev st0 = dev st) by reflexivity.
  assert (Hs0 : sems st0 = sems st) by reflexivity.
  assert (Hc0 : cmd_fiber st0 = cmd_fiber st) by reflexivity.
  assert (Hr0 : rx_fiber st0 = rx_fiber st) by reflexivity.
  assert (Ht0 : trace st0 = trace st ++ [Dbg "event %u\n" [e0]]) by reflexivity.
  assert (Hrxop : forall op,
             (if evt =? BT_HCI_EVT_CMD_COMPLETE
              then Some (fld16 (buf_of st0 i) (data (buf_of st0 i)) 1)
              else if evt =? BT_HCI_EVT_CMD_STATUS
                   then Some (fld16 (buf_of st0 i) (data (buf_of st0 i)) 2)
                   else None) = Some op ->
             type (buf_of st i) = BT_EVT -> rx_event_opcode st i = Some op).
  { intros op H Hty. unfold rx_event_opcode. rewrite Hty. exact H. }
  assert (Hfields : forall j,
             sync (buf_of st0 j) = sync (buf_of st j) /\
             opcode (buf_of st0 j) = opcode (buf_of st j)).
  { intros j. unfold buf_of. rewrite Hb0. apply sync_opcode_pulled. }
  clearbody st0 evt.
  assert (Hcompl : forall (h : M unit) (op e n : Z),
             (forall sent, sent_cmd (dev st0) = Some sent ->
                exists st1 l1 l2 l3,
                  h st0 = Ret tt st1 /\
                  buffers st1 = list_upd i (fun b => snd (bt_buf_pull b n)) (buffers st0) /\
                  cmd_fiber st1 = cmd_fiber st0 /\
                  rx_fiber st1 = rx_fiber st0 /\
                  rx_queue (dev st1) = rx_queue (dev st0) /\
                  cmd_queue (dev st1) = cmd_queue (dev st0) /\
                  drv (dev st1) = drv (dev st0) /\
                  trace st1 = trace st0 ++ l1 ++ l2 ++ l3 /\
                  forallb is_log l1 = true /\
                  correlated op sent st0 st1 l2 /\
                  refilled e st0 st1 l3) ->
             (sent_cmd (dev st0) = None -> exists s, h st0 = Fault s) ->
             (type (buf_of st i) = BT_EVT -> rx_event_opcode st i = Some op) ->
             bind_res (h st0) (fun _ => bt_buf_put i) = Ret tt st' ->
             cmd_fiber st' = cmd_fiber st /\
             rx_fiber st' = rx_fiber st /\
             (forall j,
                 sync (buf_of st' j) = sync (buf_of st j) /\
                 opcode (buf_of st' j) = opcode (buf_of st j)) /\
             exists l1 l2 l3 l4,
               trace st' = trace st ++ l1 ++ l2 ++ l3 ++ l4 /\
               forallb is_log l1 = true /\
               forallb is_log l4 = true /\
               ((l2 = [] /\ l3 = [] /\
                 sems st' = sems st /\
                 ncmd (dev st') = ncmd (dev st) /\
                 ncmd_sem (dev st') = ncmd_sem (dev st) /\
                 sent_cmd (dev st') = sent_cmd (dev st)) \/
                (exists op sent e,
                    (type (buf_of st i) = BT_EVT -> rx_event_opcode st i = Some op) /\
                    sent_cmd (dev st) = Some sent /\
                    completion_outcome op sent st st' l2 /\
                    refilled e st st' l3))).
  { intros h op e n Hsome Hnone Hop Hrun.
    destruct (sent_cmd (dev st0)) as [sent|] eqn:Hsent.
    2:{ destruct (Hnone eq_refl) as (s & E). rewrite E in Hrun. discriminate Hrun. }
    destruct (Hsome sent eq_refl)
      as (st1 & l1 & l2 & l3 & E & Hb1 & Hc1 & Hr1 & _ & _ & _ & Ht1 & Hl1 & Hcorr & Hre).
    rewrite E in Hrun. run in Hrun. injection Hrun as <-. run.
    split; [congruence|]. split; [congruence|].
    split.
    { intros j. destruct (Hfields j) as [F1 F2]. rewrite <- F1, <- F2.
      unfold buf_of. run. rewrite Hb1. apply sync_opcode_pulled. }
    exists (Dbg "event %u\n" [e0] :: l1), l2, l3, [Dbg "buf %p\n" [ptr i]].
    split; [rewrite Ht1, Ht0, <- !app_assoc; reflexivity|].
    split; [exact Hl1|]. split; [reflexivity|].
    right. exists op, sent, e.
    split; [exact Hop|]. split; [rewrite <- Hd0; exact Hsent|].
    split.
    - eapply correlated_outcome; [exact Hcorr| | | | |]; try reflexivity;
        try apply Hfields; exact Hs0.
    - eapply refilled_transfer; [exact Hre| | | |]; try reflexivity;
        rewrite Hd0; reflexivity. }
  destruct (evt =? BT_HCI_EVT_CMD_COMPLETE) eqn:Ecc.
  - intros H. eapply (Hcompl (hci_cmd_complete i)); [| | |exact H].
    + intros sent Hs. apply hci_cmd_complete_effect. exact Hs.
    + apply hci_cmd_complete_null.
    + apply Hrxop. reflexivity.
  - destruct (evt =? BT_HCI_EVT_CMD_STATUS) eqn:Ecs.
    + intros H. eapply (Hcompl (hci_cmd_status i)); [| | |exact H].
      * intros sent Hs. apply hci_cmd_status_effect. exact Hs.
      * apply hci_cmd_status_null.
      * apply Hrxop. reflexivity.
    + run. intros H. injection H as <-. run.
      split; [congruence|]. split; [congruence|].
      split; [exact Hfields|].
      rewrite Ht0, <- ?app_assoc. exists [], [], []. eexists. cbn [app].
      split; [reflexivity|]. split; [reflexivity|]. split; [reflexivity|].
      left. rewrite Hd0, Hs0. repeat split.
Qed.

(** The effect of one iteration of the receive fiber. *)
Lemma rx_step_effect (st st' : sys) :
  hci_rx_fiber st = Some st' -> rx_effect st st'.
Proof.
  unfold hci_rx_fiber.
  destruct (rx_fiber st) eqn:Hrx; try discriminate.
  destruct (rx_queue (dev st)) as [|i rest] eqn:Hq; cbn [nano_fifo_get]; try discriminate.
  unfold hci_rx_dispatch. run.
  set (stq := emit (Dbg "buf %p type %u len %u\n"
                      [ptr i; type_code (type (buf_of (upd_dev (set_rx_queue rest) st) i));
                       len (buf_of (upd_dev (set_rx_queue rest) st) i)])
                (upd_dev (set_rx_queue rest) st)).
  assert (Hbq : buffers stq = buffers st) by reflexivity.
  assert (Hsq : sems stq = sems st) by reflexivity.
  assert (Hcq : cmd_fiber stq = cmd_fiber st) by reflexivity.
  assert (Hnq : ncmd (dev stq) = ncmd (dev st)) by reflexivity.
  assert (Hmq : ncmd_sem (dev stq) = ncmd_sem (dev st)) by reflexivity.
  assert (Hscq : sent_cmd (dev stq) = sent_cmd (dev st)) by reflexivity.
  assert (Htq : exists e, trace stq = trace st ++ [e] /\ is_log e = true)
    by (eexists; split; reflexivity).
  assert (Hbufq : forall j, buf_of stq j = buf_of st j) by reflexivity.
  assert (Hopq : rx_event_opcode stq i = rx_event_opcode st i) by reflexivity.
  change (type (buf_of (upd_dev (set_rx_queue rest) st) i)) with (type (buf_of st i)).
  clearbody stq. destruct Htq as (eq & Htq & Heq).
  unfold rx_effect.
  destruct (type (buf_of st i)) eqn:Hty.
  - (* BT_CMD *)
    run. intros H. injection H as <-. run.
    split; [exact Hcq|]. split; [intros j; rewrite <- Hbufq; split; reflexivity|].
    rewrite Htq, <- ?app_assoc. exists [], [], []. eexists. cbn [app].
    split; [reflexivity|]. split; [reflexivity|].
    split; [cbn [forallb]; rewrite Heq; reflexivity|]. left. repeat split; first [assumption | reflexivity | congruence].
  - (* BT_EVT *)
    destruct (hci_event i stq) as [[] st1 | st1 | s1 st1 k1] eqn:Hev; try discriminate.
    intros H. injection H as <-.
    apply hci_event_effect in Hev.
    destruct Hev as (Hc & Hr & Hf & l1 & l2 & l3 & l4 & Ht & Hl1 & Hl4 & Hcase).
    split; [congruence|].
    split; [intros j; rewrite <- Hbufq; apply Hf|].
    exists (eq :: l1), l2, l3, l4.
    split; [rewrite Ht, Htq, <- !app_assoc; reflexivity|].
    split; [cbn [forallb]; rewrite Heq, Hl1; reflexivity|].
    split; [exact Hl4|].
    destruct Hcase as [(-> & -> & E1 & E2 & E3 & E4) | (op & sent & e & Hop & Hs & Hco & Hre)].
    + left. repeat split; congruence.
    + right. exists op, sent, e.
      split.
      { exists i, rest. split; [exact Hrx|]. split; [exact Hq|].
        rewrite <- Hopq. apply Hop. rewrite Hbufq. exact Hty. }
      split; [congruence|].
      split.
      * unfold completion_outcome in *. rewrite Hbufq, Hsq in Hco. exact Hco.
      * unfold refilled in *. rewrite Hnq, Hmq in Hre. exact Hre.
  - (* BT_ACL *)
    destruct (hci_acl_effect i stq) as (st1 & l & E & Hb & Hd & Hs & Hc & Hr & Ht & Hl).
    rewrite E. intros H. injection H as <-.
    split; [congruence|].
    split.
    { intros j. unfold buf_of. rewrite Hb, Hbq. apply sync_opcode_pulled. }
    rewrite Ht, Htq, <- ?app_assoc. exists [], [], [], (eq :: l). cbn [app].
    split; [reflexivity|]. split; [reflexivity|].
    split; [cbn [forallb]; rewrite Heq, Hl; reflexivity|].
    left. rewrite Hd. repeat split; first [assumption | reflexivity | congruence].
  - (* another type *)
    run. intros H. injection H as <-. run.
    split; [exact Hcq|]. split; [intros j; rewrite <- Hbufq; split; reflexivity|].
    rewrite Htq, <- ?app_assoc. exists [], [], []. eexists. cbn [app].
    split; [reflexivity|]. split; [reflexivity|].
    split; [cbn [forallb]; rewrite Heq; reflexivity|]. left. repeat split; first [assumption | reflexivity | congruence].
Qed.

(** ** One command per credit *)

Lemma gate_app (tr l : list event) : gate (tr ++ l) = fold_left gate_step l (gate tr).
Proof. unfold gate. apply fold_left_app. Qed.

Lemma gate_logs (l : list event) (c : option bool) :
  forallb is_log l = true -> fold_left gate_step l c = c.
Proof.
  revert c. induction l as [|e l IH]; intros c H; [reflexivity|].
  cbn [forallb] in H. apply andb_prop in H. destruct H as [He Hl].
  cbn [fold_left]. rewrite IH by exact Hl.
  destruct e as [| | |[|]]; try discriminate He; destruct c as [[|]|]; reflexivity.
Qed.

Lemma gate_outcome (op : Z) (sent : nat) (st st' : sys) (l : list event) (c : option bool) :
  completion_outcome op sent st st' l -> fold_left gate_step l c = c.
Proof.
  intros [(_ & _ & _ & ->) | (_ & _ & [(_ & _ & ->) | (s & _ & _ & ->)])];
    destruct c as [[|]|]; reflexivity.
Qed.

Lemma gate_none (l : list event) : fold_left gate_step l None = None.
Proof. induction l as [|e l IH]; [reflexivity | exact IH]. Qed.

Lemma credit_inv_started (d : bt_driver) : credit_inv (started d).
Proof.
  exists true. split; [reflexivity|]. split.
  - left. split; reflexivity.
  - intros H. discriminate H.
Qed.

Lemma credit_inv_quiet (st st' : sys) :
  ncmd (dev st') = ncmd (dev st) ->
  ncmd_sem (dev st') = ncmd_sem (dev st) ->
  cmd_fiber st' = cmd_fiber st ->
  gate (trace st') = gate (trace st) ->
  credit_inv st -> credit_inv st'.
Proof.
  unfold credit_inv. intros -> -> -> ->. exact (fun H => H).
Qed.

Lemma step_credit_inv (a : action) (st st' : sys) :
  step a st = Some st' -> credit_inv st -> credit_inv st'.
Proof.
  intros Hstep Hinv.
  destruct (is_caller_action a) eqn:Hca.
  - destruct (caller_step_effect a st st' Hca Hstep)
      as (A1 & A2 & _ & A4 & _ & (l & Tl & Ll) & _).
    apply (credit_inv_quiet st st'); try assumption.
    rewrite Tl, gate_app. apply gate_logs. exact Ll.
  - destruct a; try discriminate Hca; cbn [step] in Hstep.
    + (* Cmd_fiber *)
      unfold hci_cmd_fiber in Hstep.
      destruct Hinv as (c & Hg & Hc & Hn).
      destruct (cmd_fiber st) eqn:Hpc; try discriminate Hstep.
      * destruct (ncmd_sem (dev st)) as [|n] eqn:Hsem; try discriminate Hstep.
        injection Hstep as <-. exists c. run.
        split; [exact Hg|].
        destruct c.
        -- split; [|exact Hn]. right.
           destruct Hc as [(E & _) | (_ & E)]; [|discriminate E].
           injection E as ->. split; reflexivity.
        -- destruct Hc as (E & _). discriminate E.
      * destruct (cmd_queue (dev st)) as [|b rest] eqn:Hq; cbn [nano_fifo_get] in Hstep;
          try discriminate Hstep.
        injection Hstep as <-. exists false. run.
        destruct c.
        -- destruct Hc as [(_ & E) | (E & _)]; [discriminate E|].
           split; [rewrite <- app_assoc, gate_app, Hg; reflexivity|].
           split; [split; [exact E | reflexivity]|]. reflexivity.
        -- destruct Hc as (_ & E). discriminate E.
    + (* Rx_fiber *)
      apply rx_step_effect in Hstep.
      destruct Hstep as (Hc & _ & l1 & l2 & l3 & l4 & Ht & Hl1 & Hl4 & Hcase).
      destruct Hinv as (c & Hg & Hcc & Hn).
      assert (Hgate : gate (trace st') = fold_left gate_step l3 (fold_left gate_step l2 (Some c))).
      { rewrite Ht, gate_app, Hg, !fold_left_app, (gate_logs l1 _ Hl1).
        apply gate_logs. exact Hl4. }
      destruct Hcase as [(-> & -> & _ & E2 & E3 & _) | (op & sent & e & _ & _ & Hco & Hre)].
      * exists c. rewrite Hgate, E2, E3, Hc. repeat split; assumption.
      * rewrite (gate_outcome _ _ _ _ _ _ Hco) in Hgate.
        destruct Hre as [(_ & N0 & N1 & S1 & ->) | (_ & N & S0 & ->)].
        -- exists true. rewrite Hgate, N1, S1, Hc.
           specialize (Hn N0). subst c. destruct Hcc as (E & F).
           split; [reflexivity|]. split; [left; split; congruence|]. discriminate.
        -- exists c. rewrite Hgate, N, S0, Hc. repeat split; assumption.
    + (* Sync_return *)
      destruct (0 <? sem_count s st)%nat; try discriminate Hstep.
      injection Hstep as <-. exact Hinv.
Qed.

Lemma exec_invariant (P : sys -> Prop) :
  (forall a s s', step a s = Some s' -> P s -> P s') ->
  forall acts st st', exec acts st = Some st' -> P st -> P st'.
Proof.
  intros Hstep. induction acts as [|a acts IH]; intros st st' He Hp; cbn [exec] in He.
  - injection He as <-. exact Hp.
  - destruct (step a st) as [s1|] eqn:Hs; [|discriminate He].
    eapply IH; [exact He|]. eapply Hstep; eassumption.
Qed.

Lemma reachable_credit_inv (d : bt_driver) (st : sys) :
  reachable d st -> credit_inv st.
Proof.
  intros (acts & He).
  eapply (exec_invariant credit_inv step_credit_inv); [exact He|].
  apply credit_inv_started.
Qed.

(** Without a give of the credit semaphore, used-up credit stays used up. *)
Lemma gate_no_give (mid : list event) (c : option bool) :
  c <> Some true ->
  In (SemGive NcmdSem) mid \/ fold_left gate_step mid c <> Some true.
Proof.
  revert c. induction mid as [|e mid IH]; intros c Hc.
  - right. exact Hc.
  - assert (Hstep : e = SemGive NcmdSem \/ gate_step c e <> Some true).
    { destruct e as [f a | f a | b | [|s]]; [right|right|right|left|right];
        try reflexivity; destruct c as [[|]|]; cbn [gate_step]; congruence. }
    destruct Hstep as [->|Hs]; [left; left; reflexivity|].
    destruct (IH _ Hs) as [H|H]; [left; right; exact H | right; exact H].
Qed.

Lemma gate_between (tr : list event) (c : bool) :
  gate tr = Some c ->
  forall tr1 b1 mid b2 tr2,
    tr = tr1 ++ DrvSend b1 :: mid ++ DrvSend b2 :: tr2 ->
    In (SemGive NcmdSem) mid.
Proof.
  intros Hg tr1 b1 mid b2 tr2 ->.
  rewrite gate_app in Hg. cbn [fold_left] in Hg.
  rewrite fold_left_app in Hg. cbn [fold_left] in Hg.
  set (c1 := gate_step (gate tr1) (DrvSend b1)) in Hg.
  assert (Hc1 : c1 <> Some true).
  { unfold c1. destruct (gate tr1) as [[|]|]; discriminate. }
  destruct (gate_no_give mid c1 Hc1) as [H|H1]; [exact H|exfalso].
  destruct (fold_left gate_step mid c1) as [[|]|] eqn:E.
  - congruence.
  - cbn [gate_step] in Hg. rewrite gate_none in Hg. discriminate Hg.
  - cbn [gate_step] in Hg. rewrite gate_none in Hg. discriminate Hg.
Qed.

Lemma no_unexpected_app (tr l : list event) :
  no_unexpected (tr ++ l) -> no_unexpected tr /\ no_unexpected l.
Proof.
  unfold no_unexpected. intros H. split; intros op Hin; apply (H op), in_or_app; auto.
Qed.

Lemma cleared_inv_started (d : bt_driver) : cleared_inv (started d).
Proof. intros _ _. reflexivity. Qed.

Lemma step_cleared_inv (a : action) (st st' : sys) :
  step a st = Some st' -> cleared_inv st -> cleared_inv st'.
Proof.
  intros Hstep Hinv.
  destruct (is_caller_action a) eqn:Hca.
  - destruct (caller_step_effect a st st' Hca Hstep)
      as (_ & _ & A3 & _ & _ & (l & Tl & Ll) & _).
    unfold cleared_inv. rewrite Tl, A3, gate_app, (gate_logs l _ Ll).
    intros Hno Hg. apply no_unexpected_app in Hno. apply Hinv; tauto.
  - destruct a; try discriminate Hca; cbn [step] in Hstep.
    + unfold hci_cmd_fiber in Hstep.
      destruct (cmd_fiber st) eqn:Hpc; try discriminate Hstep.
      * destruct (ncmd_sem (dev st)) as [|n] eqn:Hsem; try discriminate Hstep.
        injection Hstep as <-. exact Hinv.
      * destruct (cmd_queue (dev st)) as [|b rest] eqn:Hq; cbn [nano_fifo_get] in Hstep;
          try discriminate Hstep.
        injection Hstep as <-. unfold cleared_inv. run.
        rewrite <- app_assoc, gate_app. cbn [fold_left app].
        intros _ Hg. exfalso.
        destruct (gate (trace st)) as [[|]|]; discriminate Hg.
    + apply rx_step_effect in Hstep.
      destruct Hstep as (_ & _ & l1 & l2 & l3 & l4 & Ht & Hl1 & Hl4 & Hcase).
      unfold cleared_inv. rewrite Ht. intros Hno Hg.
      apply no_unexpected_app in Hno. destruct Hno as [Hno0 Hno].
      apply no_unexpected_app in Hno. destruct Hno as [_ Hno].
      apply no_unexpected_app in Hno. destruct Hno as [Hno2 _].
      rewrite gate_app, !fold_left_app, (gate_logs l1 _ Hl1), (gate_logs l4 _ Hl4) in Hg.
      destruct Hcase as [(-> & -> & _ & _ & _ & E) | (op & sent & e & _ & _ & Hco & Hre)].
      * rewrite E. apply Hinv; assumption.
      * destruct Hco as [(_ & _ & _ & ->) | (_ & E & _)]; [|exact E].
        exfalso. apply (Hno2 op). left. reflexivity.
    + destruct (0 <? sem_count s st)%nat; try discriminate Hstep.
      injection Hstep as <-. exact Hinv.
Qed.

(** C5 (as amended): in every reachable state the credit semaphore holds at
    most one credit and none while the command fiber holds it, so that
    between two commands handed to the driver the credit semaphore has been
    given by the refill of a completion event; and as long as no completion
    with a mismatching opcode has been processed, the command fiber hands a
    buffer to the driver only after [sent_cmd] has been cleared. *)
Theorem one_command_per_credit (d : bt_driver) (st : sys) :
  reachable d st ->
  (ncmd_sem (dev st) <= 1)%nat /\
  (cmd_fiber st = CmdWaitFifo -> ncmd_sem (dev st) = O) /\
  (forall tr1 b1 mid b2 tr2,
      trace st = tr1 ++ DrvSend b1 :: mid ++ DrvSend b2 :: tr2 ->
      In (SemGive NcmdSem) mid) /\
  (no_unexpected (trace st) -> hands_over_only_after_completion st).
Proof.
  intros Hreach.
  pose proof (reachable_credit_inv d st Hreach) as (c & Hg & Hc & Hn).
  assert (Hcl : cleared_inv st).
  { destruct Hreach as (acts & He).
    eapply (exec_invariant cleared_inv step_cleared_inv); [exact He|].
    apply cleared_inv_started. }
  split; [|split; [|split]].
  - destruct c; [destruct Hc as [(E & _) | (E & _)] | destruct Hc as (E & _)];
      rewrite E; lia.
  - intros Hpc. destruct c; [destruct Hc as [(_ & E) | (E & _)] | destruct Hc as (_ & E)];
      congruence.
  - exact (gate_between (trace st) c Hg).
  - intros Hno Hpc _. apply Hcl; [exact Hno|].
    destruct c; [exact Hg|]. destruct Hc as (_ & E). congruence.
Qed.

Lemma one_command_per_credit_two_commands :
  let st := after two_commands_scenario in
  reachable stub_drv st /\
  credit_trace (trace st) = [SemGive NcmdSem; DrvSend 0; SemGive NcmdSem; DrvSend 1] /\
  (ncmd_sem (dev st) <= 1)%nat /\
  (cmd_fiber st = CmdWaitFifo -> ncmd_sem (dev st) = O) /\
  (forall tr1 b1 mid b2 tr2,
      trace st = tr1 ++ DrvSend b1 :: mid ++ DrvSend b2 :: tr2 ->
      In (SemGive NcmdSem) mid) /\
  (no_unexpected (trace st) -> hands_over_only_after_completion st).
Proof.
  assert (H : reachable stub_drv (after two_commands_scenario))
    by (exists two_commands_scenario; vm_compute; reflexivity).
  split; [exact H|].
  split; [vm_compute; reflexivity|].
  exact (one_command_per_credit stub_drv _ H).
Defined.

(** C5 (as stated) fails: after a completion for an opcode that was never
    sent, the command fiber hands the second command to the driver while
    [sent_cmd] still points at the first one, which is never released. *)
Lemma second_command_before_completion :
  exists st st',
    reachable stub_drv st /\
    exec mismatch_scenario (started stub_drv) = Some st /\
    sent_cmd (dev st) = Some O /\
    cmd_fiber st = CmdWaitFifo /\
    cmd_queue (dev st) = [1%nat] /\
    ~ hands_over_only_after_completion st /\
    step Cmd_fiber st = Some st' /\
    credit_trace (trace st') = [SemGive NcmdSem; DrvSend 0; SemGive NcmdSem; DrvSend 1] /\
    ~ In O (free_bufs st').
Proof.
  eexists. eexists.
  split; [exists mismatch_scenario; vm_compute; reflexivity|].
  split; [vm_compute; reflexivity|].
  split; [reflexivity|]. split; [reflexivity|]. split; [reflexivity|].
  split.
  { intros H. specialize (H eq_refl ltac:(discriminate)). discriminate H. }
  split; [vm_compute; reflexivity|].
  split; [vm_compute; reflexivity|].
  vm_compute. intuition discriminate.
Qed.

(** ** A synchronous sender is woken by its own completion *)

Lemma cmd_fiber_memory (st st' : sys) :
  hci_cmd_fiber st = Some st' -> sems st' = sems st /\ buffers st' = buffers st.
Proof.
  unfold hci_cmd_fiber. intros H.
  destruct (cmd_fiber st); try discriminate H.
  - destruct (ncmd_sem (dev st)); try discriminate H.
    injection H as <-. split; reflexivity.
  - destruct (cmd_queue (dev st)); cbn [nano_fifo_get] in H; try discriminate H.
    injection H as <-. split; reflexivity.
Qed.

Lemma sync_return_memory (s : sem_id) (st st' : sys) :
  step (Sync_return s) st = Some st' ->
  sems st' = list_upd s pred (sems st) /\ buffers st' = buffers st.
Proof.
  cbn [step]. destruct (0 <? sem_count s st)%nat; intros H; try discriminate H.
  injection H as <-. split; reflexivity.
Qed.

Lemma buf_of_same_buffers (st st' : sys) (j : nat) :
  buffers st' = buffers st -> buf_of st' j = buf_of st j.
Proof. unfold buf_of. intros ->. reflexivity. Qed.

Lemma rx_step_sems (st st' : sys) :
  hci_rx_fiber st = Some st' ->
  sems st' = sems st \/
  exists op sent s,
    rx_consumes st op /\ sent_cmd (dev st) = Some sent /\
    opcode (buf_of st sent) = op /\ sync (buf_of st sent) = Some s /\
    sems st' = list_upd s S (sems st).
Proof.
  intros H. apply rx_step_effect in H.
  destruct H as (_ & _ & l1 & l2 & l3 & l4 & _ & _ & _ & Hcase).
  destruct Hcase as [(_ & _ & E & _) | (op & sent & e & Hrx & Hsent & Hco & _)];
    [left; exact E|].
  destruct Hco as [(_ & _ & E & _) | (Hop & _ & [(_ & E & _) | (s & Hs & E & _)])];
    [left; exact E | left; exact E |].
  right. exists op, sent, s. repeat split; assumption.
Qed.

Lemma step_syncs_exist (a : action) (st st' : sys) :
  step a st = Some st' -> syncs_exist st -> syncs_exist st'.
Proof.
  intros Hstep Hinv j s Hs.
  destruct (is_caller_action a) eqn:Hca.
  - destruct (caller_step_effect a st st' Hca Hstep)
      as (_ & _ & _ & _ & _ & _ & Hsems & Hj).
    assert (Hlen : (List.length (sems st) <= List.length (sems st'))%nat).
    { destruct Hsems as [-> | ->]; [lia | rewrite length_app; cbn; lia]. }
    destruct (Hj j) as [(E & _) | [E | (E & E')]].
    + rewrite E in Hs. apply Hinv in Hs. lia.
    + congruence.
    + rewrite E in Hs. injection Hs as <-. rewrite E', length_app. cbn. lia.
  - destruct a; try discriminate Hca; cbn [step] in Hstep.
    + apply cmd_fiber_memory in Hstep. destruct Hstep as (E1 & E2).
      rewrite (buf_of_same_buffers _ _ j E2) in Hs. rewrite E1. eapply Hinv, Hs.
    + pose proof (rx_step_sems _ _ Hstep) as Hsems.
      apply rx_step_effect in Hstep. destruct Hstep as (_ & Hj & _).
      destruct (Hj j) as (E & _). rewrite E in Hs. apply Hinv in Hs.
      destruct Hsems as [-> | (op & sent & s0 & _ & _ & _ & _ & ->)];
        [|rewrite length_list_upd]; exact Hs.
    + apply sync_return_memory in Hstep. destruct Hstep as (E1 & E2).
      rewrite (buf_of_same_buffers _ _ j E2) in Hs. rewrite E1, length_list_upd.
      eapply Hinv, Hs.
Qed.

Lemma syncs_exist_started (d : bt_driver) : syncs_exist (started d).
Proof.
  intros j s. unfold buf_of.
  do 6 (destruct j as [|j]; [discriminate|]).
  destruct j; discriminate.
Qed.

Lemma reachable_syncs_exist (d : bt_driver) (st : sys) :
  reachable d st -> syncs_exist st.
Proof.
  intros (acts & He).
  eapply (exec_invariant syncs_exist step_syncs_exist); [exact He|].
  apply syncs_exist_started.
Qed.

Lemma step_waits_for (a : action) (s : sem_id) (op : Z) (st st' : sys) :
  step a st = Some st' -> waits_for s op st -> waits_for s op st'.
Proof.
  intros Hstep (Hlt & Hw).
  destruct (is_caller_action a) eqn:Hca.
  - destruct (caller_step_effect a st st' Hca Hstep)
      as (_ & _ & _ & _ & _ & _ & Hsems & Hj).
    split.
    + destruct Hsems as [-> | ->]; [lia | rewrite length_app; cbn; lia].
    + intros j Hs. destruct (Hj j) as [(E & E') | [E | (E & _)]].
      * rewrite E'. apply Hw. congruence.
      * congruence.
      * rewrite E in Hs. injection Hs as Hs. lia.
  - destruct a; try discriminate Hca; cbn [step] in Hstep.
    + apply cmd_fiber_memory in Hstep. destruct Hstep as (E1 & E2).
      split; [rewrite E1; exact Hlt|].
      intros j. rewrite (buf_of_same_buffers _ _ j E2). apply Hw.
    + pose proof (rx_step_sems _ _ Hstep) as Hsems.
      apply rx_step_effect in Hstep. destruct Hstep as (_ & Hj & _).
      split.
      * destruct Hsems as [-> | (op0 & sent & s0 & _ & _ & _ & _ & ->)];
          [|rewrite length_list_upd]; exact Hlt.
      * intros j Hs. destruct (Hj j) as (E & E'). rewrite E'. apply Hw. congruence.
    + apply sync_return_memory in Hstep. destruct Hstep as (E1 & E2).
      split; [rewrite E1, length_list_upd; exact Hlt|].
      intros j. rewrite (buf_of_same_buffers _ _ j E2). apply Hw.
Qed.

Lemma nth_app_old (l : list nat) (s : nat) :
  (s < List.length l)%nat -> nth s (l ++ [O]) O = nth s l O.
Proof. intros H. apply app_nth1, H. Qed.

(** Only the receive fiber consuming the completion of a command that
    carries [s] raises the count of [s]. *)
Lemma step_gives (a : action) (s : sem_id) (op : Z) (st st' : sys) :
  step a st = Some st' ->
  waits_for s op st ->
  sem_count s st = O ->
  (0 < sem_count s st')%nat ->
  a = Rx_fiber /\
  rx_consumes st op /\
  exists sent,
    sent_cmd (dev st) = Some sent /\
    sync (buf_of st sent) = Some s /\
    opcode (buf_of st sent) = op.
Proof.
  unfold sem_count. intros Hstep (Hlt & Hw) H0 H1.
  destruct (is_caller_action a) eqn:Hca.
  - exfalso.
    destruct (caller_step_effect a st st' Hca Hstep)
      as (_ & _ & _ & _ & _ & _ & Hsems & _).
    destruct Hsems as [E | E]; rewrite E in H1; [|rewrite (nth_app_old _ _ Hlt) in H1];
      rewrite H0 in H1; inversion H1.
  - destruct a; try discriminate Hca; cbn [step] in Hstep.
    + exfalso. apply cmd_fiber_memory in Hstep. destruct Hstep as (E1 & _).
      rewrite E1, H0 in H1. inversion H1.
    + split; [reflexivity|].
      destruct (rx_step_sems _ _ Hstep)
        as [E | (op0 & sent & s0 & Hrx & Hsent & Hop & Hs & E)].
      * exfalso. rewrite E, H0 in H1. inversion H1.
      * rewrite E, nth_list_upd in H1.
        destruct (Nat.eqb_spec s s0) as [<- | Hne].
        -- pose proof (Hw sent Hs) as Hop'.
           assert (op0 = op) as -> by congruence.
           split; [exact Hrx|]. exists sent. repeat split; assumption.
        -- exfalso.
           rewrite (proj2 (Nat.eqb_neq s0 s)) in H1 by congruence.
           cbn [andb] in H1. rewrite H0 in H1. inversion H1.
    + exfalso. apply sync_return_memory in Hstep. destruct Hstep as (E1 & _).
      rewrite E1, nth_list_upd in H1.
      rewrite H0 in H1. destruct (_ && _)%bool in H1; inversion H1.
Qed.

Lemma exec_app (acts1 acts2 : list action) (st : sys) :
  exec (acts1 ++ acts2) st =
  match exec acts1 st with Some st' => exec acts2 st' | None => None end.
Proof.
  revert st. induction acts1 as [|a acts1 IH]; intros st; cbn [exec app]; [reflexivity|].
  destruct (step a st); [apply IH | reflexivity].
Qed.

(** A semaphore nobody has given is given, along a schedule, by the receive
    fiber consuming a completion for the opcode its command carries. *)
Lemma given_by_completion (s : sem_id) (op : Z) (acts : list action) :
  forall st1 st2,
    exec acts st1 = Some st2 ->
    waits_for s op st1 ->
    sem_count s st1 = O ->
    (0 < sem_count s st2)%nat ->
    completion_consumed s op acts st1.
Proof.
  unfold completion_consumed.
  induction acts as [|a acts IH]; intros st1 st2 He Hw H0 H1; cbn [exec] in He.
  - injection He as <-. lia.
  - destruct (step a st1) as [st'|] eqn:Hstep; try discriminate He.
    destruct (sem_count s st') as [|n] eqn:Hc.
    + destruct (IH st' st2 He (step_waits_for _ _ _ _ _ Hstep Hw) Hc H1)
        as (acts1 & acts2 & st_a & sent & -> & Ha & Hrest).
      exists (a :: acts1), acts2, st_a, sent.
      split; [reflexivity|]. split; [|exact Hrest].
      cbn [exec]. rewrite Hstep. exact Ha.
    + destruct (step_gives a s op st1 st' Hstep Hw H0 ltac:(lia))
        as (-> & Hrx & sent & Hsent & Hs & Hop).
      exists [], acts, st1, sent. repeat split; assumption.
Qed.

Lemma quiet_syncs_exist (st st' : sys) :
  quiet_step st st' -> syncs_exist st -> syncs_exist st'.
Proof.
  intros (_ & _ & _ & _ & _ & _ & Hsems & Hj) Hinv j s Hs.
  rewrite Hsems. destruct (Hj j) as [(E & _) | E].
  - rewrite E in Hs. eapply Hinv, Hs.
  - congruence.
Qed.

(** C6: [bt_hci_cmd_send_sync] is static and is called from [hci_init]
    only, with no buffer (READ_BD_ADDR) or with the buffer
    [bt_hci_cmd_create] has just made for the same opcode (SET_EVENT_MASK,
    LE_WRITE_LE_HOST_SUPP): a buffer that is given carries the opcode [op].
    Such a call, in a reachable state, returns at once only with [-ENOBUFS];
    otherwise it blocks on a fresh semaphore nobody has given, and when it
    is resumed with that semaphore given it returns 0 and the receive fiber
    has, in between, consumed a Command Complete or Command Status event for
    [op] while the caller's command was the outstanding one. *)
Theorem send_sync_returns_after_completion
    (d : bt_driver) (op : Z) (buf : option nat) (st : sys) :
  reachable d st ->
  (forall i, buf = Some i -> opcode (buf_of st i) = op) ->
  (forall v st', bt_hci_cmd_send_sync op buf st = Ret v st' -> v = - ENOBUFS) /\
  (forall s st1 k,
      bt_hci_cmd_send_sync op buf st = Wait s st1 k ->
      sem_count s st1 = O /\
      forall acts st2,
        exec acts st1 = Some st2 ->
        (0 < sem_count s st2)%nat ->
        k st2 = Ret 0 (sem_take s st2) /\
        completion_consumed s op acts st1).
Proof.
  intros Hreach Hbuf.
  pose proof (reachable_syncs_exist d st Hreach) as Hsy.
  destruct (send_sync_cases op buf st)
    as [(st' & E) | [(st' & E & _) | (i & st0 & Hq & Hi & E)]].
  - split; intros; congruence.
  - split; intros; congruence.
  - cbv zeta in E. split; [intros; congruence|].
    intros s st1 k Hw. rewrite E in Hw. injection Hw as <- <- <-.
    pose proof (quiet_syncs_exist st st0 Hq Hsy) as Hsy0.
    assert (Hop : (i < List.length (buffers st0))%nat -> opcode (buf_of st0 i) = op).
    { destruct Hi as [(-> & ->) | (_ & _ & H)]; [|exact H].
      intros _. apply Hbuf. reflexivity. }
    match goal with |- sem_count ?s0 ?S = O /\ _ => set (st1 := S) end.
    assert (Hc : sem_count (List.length (sems st0)) st1 = O).
    { unfold sem_count, st1. run. apply nth_middle. }
    assert (Hwf : waits_for (List.length (sems st0)) op st1).
    { split.
      - unfold st1. run. rewrite length_app. cbn. lia.
      - intros j.
        assert (Hj : buf_of st1 j =
                     if ((i =? j) && (i <? List.length (buffers st0)))%nat
                     then set_sync (Some (List.length (sems st0))) (buf_of st0 j)
                     else buf_of st0 j)
          by (unfold st1, buf_of; run; apply nth_list_upd).
        rewrite Hj.
        destruct (i =? j)%nat eqn:Eij; cbn [andb].
        + apply Nat.eqb_eq in Eij. subst j.
          destruct (i <? List.length (buffers st0))%nat eqn:Elt.
          * intros _. apply Nat.ltb_lt in Elt. apply Hop, Elt.
          * intros Hs. apply Hsy0 in Hs. exfalso. exact (Nat.lt_irrefl _ Hs).
        + intros Hs. apply Hsy0 in Hs. exfalso. exact (Nat.lt_irrefl _ Hs). }
    clearbody st1.
    split; [exact Hc|].
    intros acts st2 He Hpos. split; [reflexivity|].
    exact (given_by_completion _ op acts st1 st2 He Hwf Hc Hpos).
Qed.

(** C6 at the state of [created_scenario]: the caller of
    [bt_hci_cmd_send_sync(BT_HCI_OP_READ_BD_ADDR, buf)] is resumed after the
    completion of [completion_scenario]. *)
Lemma send_sync_returns_after_completion_read_bd_addr :
  let st := after created_scenario in
  let op := BT_HCI_OP_READ_BD_ADDR in
  reachable stub_drv st /\
  (forall i, Some O = Some i -> opcode (buf_of st i) = op) /\
  (exists s st1 k st2,
      bt_hci_cmd_send_sync op (Some O) st = Wait s st1 k /\
      exec completion_scenario st1 = Some st2 /\
      (0 < sem_count s st2)%nat) /\
  (forall v st', bt_hci_cmd_send_sync op (Some O) st = Ret v st' -> v = - ENOBUFS) /\
  (forall s st1 k,
      bt_hci_cmd_send_sync op (Some O) st = Wait s st1 k ->
      sem_count s st1 = O /\
      forall acts st2,
        exec acts st1 = Some st2 ->
        (0 < sem_count s st2)%nat ->
        k st2 = Ret 0 (sem_take s st2) /\
        completion_consumed s op acts st1).
Proof.
  cbv zeta.
  assert (H1 : reachable stub_drv (after created_scenario))
    by (exists created_scenario; vm_compute; reflexivity).
  assert (H2 : forall i, Some O = Some i ->
                         opcode (buf_of (after created_scenario) i) = BT_HCI_OP_READ_BD_ADDR).
  { intros i Hi. injection Hi as <-. vm_compute. reflexivity. }
  split; [exact H1|]. split; [exact H2|]. split.
  - eexists. eexists. eexists. eexists.
    split; [vm_compute; reflexivity|].
    split; [vm_compute; reflexivity|].
    vm_compute. apply le_n.
  - exact (send_sync_returns_after_completion stub_drv _ _ _ H1 H2).
Defined.

(** ** The theorems at the states of concrete schedules *)


(** C4 at the state of [matching_scenario]: the credit is 0 and the event
    grants one. *)
Lemma credit_refill_exactly_once_reset :
  let st := event_pulled 1 (after matching_scenario) in
  sent_cmd (dev st) = Some O /\
  ncmd (dev st) = 0 /\
  fld8 (buf_of st 1) (data (buf_of st 1)) 0 = 1 /\
  exists st',
    hci_cmd_complete 1 st = Ret tt st' /\
    ncmd (dev st') = 1 /\
    ncmd_sem (dev st') = S (ncmd_sem (dev st)) /\
    credit_gives (trace st') = S (credit_gives (trace st)).
Proof.
  cbv zeta.
  assert (Hs : sent_cmd (dev (event_pulled 1 (after matching_scenario))) = Some O)
    by (vm_compute; reflexivity).
  split; [exact Hs|].
  split; [vm_compute; reflexivity|].
  split; [vm_compute; reflexivity|].
  destruct (proj1 (credit_refill_exactly_once _ 1%nat) O Hs) as ((st' & Hrun & Hre & _) & _).
  exists st'. split; [exact Hrun|].
  apply Hre. split; vm_compute; reflexivity.
Defined.

(** C7 at the state of [acl_scenario]: the mismatch is logged and the
    buffer released. *)
Lemma hci_acl_validates_length_short_packet :
  let st := after acl_scenario in
  (O < List.length (buffers st))%nat /\
  0 <= len (buf_of st O) < 2 ^ size_bits /\
  exists st',
    hci_acl O st = Ret tt st' /\
    free_bufs st' = free_bufs st ++ [O] /\
    dev st' = dev st /\
    In (Err "ACL data length mismatch (%u != %u)\n" [2; 5]) (trace st').
Proof.
  cbv zeta.
  assert (H1 : (O < List.length (buffers (after acl_scenario)))%nat)
    by (vm_compute; repeat constructor).
  assert (H2 : 0 <= len (buf_of (after acl_scenario) O) < 2 ^ size_bits)
    by (vm_compute; split; [discriminate | reflexivity]).
  split; [exact H1|]. split; [exact H2|].
  destruct (hci_acl_validates_length _ O H1 H2)
    as (st' & dbg & Hrun & _ & _ & Hf & Hd & _ & _ & _ & _ & Hne).
  exists st'. split; [exact Hrun|]. split; [exact Hf|]. split; [exact Hd|].
  rewrite Hne by (vm_compute; discriminate).
  apply in_or_app. right. right. left. vm_compute. reflexivity.
Defined.

(** C8 on a buffer with one byte of headroom: add 3, push 1, pull 2. *)
Lemma buf_ops_keep_capacity_add_push_pull :
  let b := set_data 1 zero_buf in
  let ops := [OpAdd 3; OpPush 1; OpPull 2] in
  buf_wf b /\ ops_ok b ops /\
  Forall buf_inv (run_ops b ops) /\
  map (fun b' => (bt_buf_headroom b', len b', bt_buf_tailroom b')) (run_ops b ops) =
  [(1, 3, BT_BUF_MAX_DATA - 4); (0, 4, BT_BUF_MAX_DATA - 4); (2, 2, BT_BUF_MAX_DATA - 4)].
Proof.
  cbv zeta.
  assert (H1 : buf_wf (set_data 1 zero_buf)) by (vm_compute; repeat split; discriminate).
  assert (H2 : ops_ok (set_data 1 zero_buf) [OpAdd 3; OpPush 1; OpPull 2])
    by (vm_compute; repeat split; discriminate).
  split; [exact H1|]. split; [exact H2|]. split.
  - eapply Forall_impl; [|exact (buf_ops_keep_capacity _ _ H1 H2)].
    intros b' (H & _). exact H.
  - vm_compute. reflexivity.
Defined.

(** C9 at the state of [stale_scenario]: the buffer acquired is the one the
    Reset command used, and it still carries its type and opcode. *)
Lemma get_reserve_keeps_type_opcode_stale_reset :
  let st := after stale_scenario in
  let st' := state_of (bt_buf_get_reserve 0 st) in
  bt_buf_get_reserve 0 st = Ret (Some O) st' /\
  (O < List.length (buffers st))%nat /\
  type (buf_of st' O) = BT_CMD /\
  opcode (buf_of st' O) = BT_HCI_OP_RESET /\
  data (buf_of st O) = 1 /\ len (buf_of st O) = 3 /\
  data (buf_of st' O) = 0 /\ len (buf_of st' O) = 0.
Proof.
  cbv zeta.
  assert (H1 : bt_buf_get_reserve 0 (after stale_scenario) =
               Ret (Some O) (state_of (bt_buf_get_reserve 0 (after stale_scenario))))
    by (vm_compute; reflexivity).
  assert (H2 : (O < List.length (buffers (after stale_scenario)))%nat)
    by (vm_compute; repeat constructor).
  split; [exact H1|]. split; [exact H2|].
  destruct (proj1 get_reserve_keeps_type_opcode _ _ _ _ H1 H2)
    as (Ht & Ho & _ & Hd & Hl & _).
  rewrite Ht, Ho, Hd, Hl.
  repeat split; vm_compute; reflexivity.
Defined.

(** * Further properties of the core *)

Lemma sent_bufs_app (tr l : list event) : sent_bufs (tr ++ l) = sent_bufs tr ++ sent_bufs l.
Proof. unfold sent_bufs. apply flat_map_app. Qed.

(** ** The buffer pool is a FIFO *)

Lemma bt_buf_get_empty (st : sys) :
  free_bufs st = [] ->
  bt_buf_get st = Ret None (emit (Err "Failed to get free buffer\n" []) st).
Proof.
  intros H. unfold bt_buf_get, bt_buf_get_reserve. run. rewrite H. run. reflexivity.
Qed.

Lemma bt_buf_get_head (st : sys) (i : nat) (rest : list nat) :
  free_bufs st = i :: rest ->
  exists st',
    bt_buf_get st = Ret (Some i) st' /\
    free_bufs st' = rest /\
    dev st' = dev st /\
    sems st' = sems st.
Proof.
  intros H. unfold bt_buf_get, bt_buf_get_reserve. run. rewrite H. run.
  eexists. split; [reflexivity|]. run. repeat split.
Qed.

Lemma bt_buf_get_n_drains (n : nat) :
  forall st,
  exists st',
    bt_buf_get_n n st =
      Ret (map Some (firstn n (free_bufs st)) ++
           repeat None (n - List.length (free_bufs st))) st' /\
    free_bufs st' = skipn n (free_bufs st) /\
    dev st' = dev st /\
    sems st' = sems st.
Proof.
  induction n as [|n IH]; intros st.
  - exists st. cbn [bt_buf_get_n firstn skipn map Nat.sub repeat app ret].
    repeat split.
  - cbn [bt_buf_get_n]. unfold bind at 1.
    destruct (free_bufs st) as [|i rest] eqn:Hf.
    + rewrite (bt_buf_get_empty st Hf). cbn [bind_res]. unfold bind at 1.
      set (st1 := emit _ st).
      assert (Hf1 : free_bufs st1 = []) by exact Hf.
      assert (Hd1 : dev st1 = dev st) by reflexivity.
      assert (Hs1 : sems st1 = sems st) by reflexivity.
      clearbody st1.
      destruct (IH st1) as (st' & Hrun & Hfree & Hdev & Hsems).
      rewrite Hrun. cbn [bind_res ret]. exists st'.
      rewrite Hf1 in Hrun, Hfree. 
      split.
      * rewrite Hf1. rewrite firstn_nil. cbn [map app List.length Nat.sub repeat].
        rewrite Nat.sub_0_r. reflexivity.
      * rewrite skipn_nil in Hfree. cbn [skipn].
        split; [exact Hfree|]. split; congruence.
    + destruct (bt_buf_get_head st i rest Hf) as (st1 & Hget & Hf1 & Hd1 & Hs1).
      rewrite Hget. cbn [bind_res]. unfold bind at 1.
      destruct (IH st1) as (st' & Hrun & Hfree & Hdev & Hsems).
      rewrite Hrun. cbn [bind_res ret]. exists st'.
      rewrite Hf1 in Hfree. split.
      * rewrite Hf1. cbn [firstn map app List.length Nat.sub]. reflexivity.
      * cbn [skipn]. split; [exact Hfree|]. split; congruence.
Qed.

Lemma moved_to_queue (x : nat) (l1 l2 l3 : list nat) :
  Permutation (x :: l1 ++ l2 ++ l3) (l1 ++ (l2 ++ [x]) ++ l3).
Proof.
  rewrite <- (app_assoc l2 [x] l3). cbn [app]. rewrite (app_assoc l1 l2 (x :: l3)).
  rewrite (app_assoc l1 l2 l3). apply Permutation_middle.
Qed.


Ltac nodup_nat :=
  repeat (constructor; [cbn [In]; intuition discriminate|]); constructor.


(** ** The packet window *)

Lemma usize_add_sub (d n : Z) : usize (usize (d - n) + n) = usize d.
Proof.
  unfold usize. rewrite Z.add_mod_idemp_l by (unfold size_bits; lia).
  f_equal. lia.
Qed.

Lemma usize_sub_add (d n : Z) : usize (usize (d + n) - n) = usize d.
Proof.
  unfold usize. rewrite Zminus_mod_idemp_l. f_equal. lia.
Qed.

(** X2: [bt_buf_pull] undoes [bt_buf_push] and [bt_buf_push] undoes
    [bt_buf_pull], for every length, on a buffer whose [data] offset and
    [len] are [size_t] values; neither function checks its length: a pull of
    more than [len] bytes leaves [len] wrapped around to
    [2^32 + len - n]. *)
Theorem push_pull_round_trip (b : bt_buf) (n : Z) :
  0 <= data b < 2 ^ size_bits ->
  0 <= len b < 2 ^ size_bits ->
  snd (bt_buf_pull (snd (bt_buf_push b n)) n) = b /\
  snd (bt_buf_push (snd (bt_buf_pull b n)) n) = b /\
  fst (bt_buf_push b n) = usize (data b - n) /\
  fst (bt_buf_pull b n) = usize (data b + n) /\
  (len b < n <= 2 ^ size_bits ->
   len (snd (bt_buf_pull b n)) = 2 ^ size_bits + len b - n).
Proof.
  intros Hd Hl. destruct b as [sy op ty d l bytes].
  cbn [data len] in Hd, Hl.
  unfold bt_buf_pull, bt_buf_push.
  cbn [fst snd data len set_data set_len sync opcode type buf].
  rewrite usize_add_sub, usize_sub_add, !usize_small by assumption.
  split; [reflexivity|]. 
  rewrite usize_add_sub, usize_sub_add, !usize_small by assumption.
  split; [reflexivity|]. split; [reflexivity|]. split; [reflexivity|].
  intros Hn. unfold usize.
  replace (l - n) with (2 ^ size_bits + l - n + (-1) * 2 ^ size_bits) by lia.
  rewrite Z.mod_add by (unfold size_bits; lia).
  apply Z.mod_small. lia.
Qed.

Lemma push_pull_round_trip_short_event :
  let b := set_len 1 zero_buf in
  0 <= data b < 2 ^ size_bits /\
  0 <= len b < 2 ^ size_bits /\
  snd (bt_buf_pull (snd (bt_buf_push b sizeof_evt_hdr)) sizeof_evt_hdr) = b /\
  len (snd (bt_buf_pull b sizeof_evt_hdr)) = 2 ^ size_bits - 1.
Proof.
  cbv zeta.
  assert (H1 : 0 <= data (set_len 1 zero_buf) < 2 ^ size_bits)
    by (vm_compute; split; [discriminate | reflexivity]).
  assert (H2 : 0 <= len (set_len 1 zero_buf) < 2 ^ size_bits)
    by (vm_compute; split; [discriminate | reflexivity]).
  split; [exact H1|]. split; [exact H2|].
  destruct (push_pull_round_trip (set_len 1 zero_buf) sizeof_evt_hdr H1 H2) as (Ha & _ & _ & _ & Hw).
  split; [exact Ha|].
  rewrite Hw by (vm_compute; split; [reflexivity | discriminate]).
  reflexivity.
Defined.

(** ** Driver registration and initialisation *)

(** X3: [bt_driver_register] refuses a second driver with [-EALREADY] and
    keeps the first; [bt_driver_unregister] does not look at its argument and
    removes whichever driver is registered, after which a third driver is
    accepted; a driver without [open] or without [send] is refused with
    [-EINVAL] and nothing is registered. *)
Theorem driver_registration (st : sys) (a b c : bt_driver_ops) (da dc : bt_driver) :
  drv (dev st) = None ->
  registered a = Some da ->
  registered c = Some dc ->
  register_twice_then_swap a b c st =
    Ret (0, - EALREADY, 0) (upd_dev (set_drv (Some dc)) st) /\
  (r1 <- bt_driver_register a;; r2 <- bt_driver_register b;; ret (r1, r2)) st =
    Ret (0, - EALREADY) (upd_dev (set_drv (Some da)) st) /\
  (registered b = None -> bt_driver_register b st = Ret (- EINVAL) st).
Proof.
  intros Hnone Ha Hc.
  unfold register_twice_then_swap, bt_driver_register, bt_driver_unregister, registered in *.
  run. rewrite Hnone.
  destruct (ops_open a) as [oa|]; [|discriminate Ha].
  destruct (ops_send a); [|discriminate Ha]. injection Ha as <-.
  destruct (ops_open c) as [oc|]; [|discriminate Hc].
  destruct (ops_send c); [|discriminate Hc]. injection Hc as <-.
  run. split; [reflexivity|]. split; [reflexivity|].
  intros Hb. destruct (ops_open b) as [ob|]; [|reflexivity].
  destruct (ops_send b); [discriminate Hb | reflexivity].
Qed.

Lemma driver_registration_boot :
  let a := mk_ops 1 (Some 0) true in
  let b := mk_ops 0 None true in
  let c := mk_ops 4 (Some 0) true in
  drv (dev (boot None)) = None /\
  registered a = Some (mk_drv 1 0) /\
  registered c = Some (mk_drv 4 0) /\
  register_twice_then_swap a b c (boot None) =
    Ret (0, - EALREADY, 0) (boot (Some (mk_drv 4 0))) /\
  bt_driver_register b (boot None) = Ret (- EINVAL) (boot None).
Proof.
  cbv zeta.
  assert (H1 : drv (dev (boot None)) = None) by reflexivity.
  assert (H2 : registered (mk_ops 1 (Some 0) true) = Some (mk_drv 1 0)) by reflexivity.
  assert (H3 : registered (mk_ops 4 (Some 0) true) = Some (mk_drv 4 0)) by reflexivity.
  split; [exact H1|]. split; [exact H2|]. split; [exact H3|].
  destruct (driver_registration (boot None) _ (mk_ops 0 None true) _ _ _ H1 H2 H3)
    as (Ha & _ & Hb).
  split; [exact Ha | exact (Hb eq_refl)].
Defined.

Lemma queues_init_result (st : sys) :
  exists st0,
    queues_init st = Ret tt st0 /\
    free_bufs st0 = seq 0 NUM_BUFS /\
    buffers st0 = buffers st /\
    sems st0 = sems st /\
    cmd_fiber st0 = CmdWaitSem /\
    rx_fiber st0 = RxWaitFifo /\
    dev st0 =
      set_rx_queue [] (set_ncmd_sem 1%nat (set_ncmd 1 (set_cmd_queue [] (dev st)))) /\
    trace st0 = trace st ++ [SemGive NcmdSem; Dbg "\n" []; Dbg "\n" []].
Proof.
  unfold queues_init, free_queue_init, cmd_queue_init, rx_queue_init,
    fiber_start_cmd, fiber_start_rx.
  run. eexists. split; [reflexivity|]. run.
  rewrite <- !app_assoc. repeat split.
Qed.

(** X4: with a driver registered, [bt_init] first sets up the pool with all
    [NUM_BUFS] buffers free, in the order of the array, empties both queues
    and sets the credit count to 1, whatever state it is called in, but
    leaves [sent_cmd] as it was; when [open()] fails it returns the driver's
    error code from that state, without having created or queued a command;
    otherwise it goes on with [hci_init] from that state. *)
Theorem bt_init_opens_driver (st : sys) (d : bt_driver) :
  drv (dev st) = Some d ->
  exists st0,
    queues_init st = Ret tt st0 /\
    free_bufs st0 = seq 0 NUM_BUFS /\
    buffers st0 = buffers st /\
    cmd_queue (dev st0) = [] /\
    rx_queue (dev st0) = [] /\
    ncmd (dev st0) = 1 /\
    sent_cmd (dev st0) = sent_cmd (dev st) /\
    sent_bufs (trace st0) = sent_bufs (trace st) /\
    bt_init st = (if open d =? 0 then hci_init st0 else Ret (open d) st0).
Proof.
  intros Hd.
  destruct (queues_init_result st)
    as (st0 & Hrun & Hf & Hb & Hs & Hc & Hr & Hdev & Ht).
  exists st0. split; [exact Hrun|]. split; [exact Hf|]. split; [exact Hb|].
  rewrite Hdev. run. do 4 (split; [reflexivity|]).
  split; [rewrite Ht, sent_bufs_app; apply app_nil_r|].
  unfold bt_init. unfold bind at 1. cbn [get bind_res]. rewrite Hd.
  change (free_queue_init;; cmd_queue_init;; rx_queue_init;;
          (if negb (open d =? 0) then ret (open d) else hci_init))
    with (fun s => bind_res (free_queue_init s)
                     (fun _ => cmd_queue_init;; rx_queue_init;;
                               (if negb (open d =? 0) then ret (open d) else hci_init))).
  cbv beta.
  unfold queues_init in Hrun. unfold bind at 1 in Hrun.
  destruct (free_queue_init st) as [[] s1| |] eqn:E1; cbn [bind_res] in Hrun |- *;
    try discriminate Hrun.
  unfold bind at 1 in Hrun. unfold bind at 1.
  destruct (cmd_queue_init s1) as [[] s2| |] eqn:E2; cbn [bind_res] in Hrun |- *;
    try discriminate Hrun.
  unfold bind at 1. rewrite Hrun. cbn [bind_res].
  destruct (open d =? 0); reflexivity.
Qed.

Lemma bt_init_opens_driver_failing_open :
  let st := boot (Some (mk_drv 1 (- 5))) in
  drv (dev st) = Some (mk_drv 1 (- 5)) /\
  exists st0,
    bt_init st = Ret (- 5) st0 /\
    free_bufs st0 = [0; 1; 2; 3; 4]%nat /\
    cmd_queue (dev st0) = [].
Proof.
  cbv zeta.
  assert (H : drv (dev (boot (Some (mk_drv 1 (- 5))))) = Some (mk_drv 1 (- 5)))
    by reflexivity.
  split; [exact H|].
  destruct (bt_init_opens_driver _ _ H)
    as (st0 & _ & Hf & _ & Hq & _ & _ & _ & _ & Hinit).
  exists st0. split; [exact Hinit|]. split; [exact Hf | exact Hq].
Defined.

(** X5: without a registered driver [bt_init] returns [-ENODEV] and leaves
    the state as it is, but [bt_hci_reset], which enters [hci_init] without
    that check, dereferences the [NULL] driver pointer in its first
    [bt_hci_cmd_create]; so does a reset that follows
    [bt_driver_unregister]. *)
Theorem reset_without_driver_faults (st : sys) :
  drv (dev st) = None ->
  bt_init st = Ret (- ENODEV) st /\
  bt_hci_reset st =
    Fault (emit (Dbg "opcode %x param_len %u\n" [BT_HCI_OP_RESET; 0]) st) /\
  forall st1 o,
    exists st2, (bt_driver_unregister o;; bt_hci_reset) st1 = Fault st2.
Proof.
  intros Hd.
  assert (Hreset : forall s, drv (dev s) = None ->
            bt_hci_reset s =
            Fault (emit (Dbg "opcode %x param_len %u\n" [BT_HCI_OP_RESET; 0]) s)).
  { intros s Hs.
    unfold bt_hci_reset, hci_init, hci_init_barrier, bt_hci_cmd_send.
    unfold bind at 1. unfold bind at 1. unfold bind at 1.
    unfold bt_hci_cmd_create. run. rewrite Hs. reflexivity. }
  split; [|split].
  - unfold bt_init. run. rewrite Hd. reflexivity.
  - apply Hreset, Hd.
  - intros st1 o. eexists. unfold bind, bt_driver_unregister. run.
    apply Hreset. reflexivity.
Qed.

Lemma reset_without_driver_faults_boot :
  drv (dev (boot None)) = None /\
  bt_init (boot None) = Ret (- ENODEV) (boot None) /\
  exists st', bt_hci_reset (boot None) = Fault st'.
Proof.
  assert (H : drv (dev (boot None)) = None) by reflexivity.
  split; [exact H|].
  destruct (reset_without_driver_faults _ H) as (H1 & H2 & _).
  split; [exact H1|]. eexists. exact H2.
Defined.

(** ** Events *)

Lemma event_code_after_pull (st : sys) (i : nat) (e : event) (p off : Z) :
  fld8 (buf_of (upd_buf i (fun b => snd (bt_buf_pull b sizeof_evt_hdr)) (emit e st)) i) p off =
  fld8 (buf_of st i) p off.
Proof.
  apply fld8_ext. unfold buf_of. run. apply nth_list_upd_proj. intro. apply pull_keeps.
Qed.

(** X7: [hci_event] gives the event buffer back to the pool for every event
    code.  An event that is neither Command Complete nor Command Status is
    logged as unknown and changes nothing else.  A Command Complete or
    Command Status whose opcode matches the outstanding command releases the
    command buffer first and clears [sent_cmd]; on a mismatch only the event
    buffer is released.  With no command outstanding such an event makes
    [hci_cmd_done] dereference [NULL]. *)
Theorem hci_event_returns_buffer (st : sys) (i : nat) :
  let b := buf_of st i in
  let code := fld8 b (data b) 0 in
  let b0 := buf_of (event_pulled i st) i in
  let op := if code =? BT_HCI_EVT_CMD_COMPLETE
            then fld16 b0 (data b0) 1 else fld16 b0 (data b0) 2 in
  (code <> BT_HCI_EVT_CMD_COMPLETE -> code <> BT_HCI_EVT_CMD_STATUS ->
   exists st',
     hci_event i st = Ret tt st' /\
     dev st' = dev st /\
     sems st' = sems st /\
     free_bufs st' = free_bufs st ++ [i] /\
     trace st' = trace st ++
       [Dbg "event %u\n" [code]; Err "Unknown event %u\n" [code]; Dbg "buf %p\n" [ptr i]]) /\
  (code = BT_HCI_EVT_CMD_COMPLETE \/ code = BT_HCI_EVT_CMD_STATUS ->
   sent_cmd (dev st) = None ->
   exists s, hci_event i st = Fault s) /\
  (code = BT_HCI_EVT_CMD_COMPLETE \/ code = BT_HCI_EVT_CMD_STATUS ->
   forall sent,
     sent_cmd (dev st) = Some sent ->
     exists st',
       hci_event i st = Ret tt st' /\
       ((opcode (buf_of st sent) = op /\
         sent_cmd (dev st') = None /\
         free_bufs st' = free_bufs st ++ [sent; i]) \/
        (opcode (buf_of st sent) <> op /\
         sent_cmd (dev st') = Some sent /\
         free_bufs st' = free_bufs st ++ [i]))).
Proof.
  intros b code b0 op.
  unfold hci_event. run.
  rewrite event_code_after_pull. fold b. fold code.
  set (st0 := upd_buf i (fun b => snd (bt_buf_pull b sizeof_evt_hdr))
                (emit (Dbg "event %u\n" [code]) st)).
  assert (Hd0 : dev st0 = dev st) by reflexivity.
  assert (Hf0 : free_bufs st0 = free_bufs st) by reflexivity.
  assert (Hb0 : buf_of st0 i = b0) by reflexivity.
  assert (Hops : forall j, opcode (buf_of st0 j) = opcode (buf_of st j)).
  { intros j. unfold st0, buf_of. run. apply sync_opcode_pulled. }
  assert (Hcompl : forall (h : M unit) (n off : Z) (opx : Z),
             (forall sent, sent_cmd (dev st0) = Some sent ->
                exists st1 l1 l2 l3,
                  h st0 = Ret tt st1 /\
                  buffers st1 = list_upd i (fun b => snd (bt_buf_pull b n)) (buffers st0) /\
                  cmd_fiber st1 = cmd_fiber st0 /\
                  rx_fiber st1 = rx_fiber st0 /\
                  rx_queue (dev st1) = rx_queue (dev st0) /\
                  cmd_queue (dev st1) = cmd_queue (dev st0) /\
                  drv (dev st1) = drv (dev st0) /\
                  trace st1 = trace st0 ++ l1 ++ l2 ++ l3 /\
                  forallb is_log l1 = true /\
                  correlated opx sent st0 st1 l2 /\
                  refilled (fld8 (buf_of st0 i) (data (buf_of st0 i)) off) st0 st1 l3) ->
             forall sent, sent_cmd (dev st) = Some sent ->
             exists st',
               bind_res (h st0) (fun _ => bt_buf_put i) = Ret tt st' /\
               ((opcode (buf_of st sent) = opx /\
                 sent_cmd (dev st') = None /\
                 free_bufs st' = free_bufs st ++ [sent; i]) \/
                (opcode (buf_of st sent) <> opx /\
                 sent_cmd (dev st') = Some sent /\
                 free_bufs st' = free_bufs st ++ [i]))).
  { intros h n off opx Hh sent Hsent.
    clearbody st0.
    destruct (Hh sent) as (st1 & l1 & l2 & l3 & E & _ & _ & _ & _ & _ & _ & _ & _ & Hcorr & _);
      [congruence|].
    rewrite E. run. eexists. split; [reflexivity|]. run.
    destruct Hcorr as [(Hne & Hs & Hf & _) | (Heq & Hs & Hf & _)].
    - right. rewrite <- Hops. split; [exact Hne|]. split; [exact Hs|].
      unfold nano_fifo_put. congruence.
    - left. rewrite <- Hops. split; [exact Heq|]. split; [exact Hs|].
      unfold nano_fifo_put. rewrite Hf, Hf0, <- app_assoc. reflexivity. }
  split; [|split].
  - intros H1 H2.
    destruct (Z.eqb_spec code BT_HCI_EVT_CMD_COMPLETE) as [E|_]; [contradiction|].
    destruct (Z.eqb_spec code BT_HCI_EVT_CMD_STATUS) as [E|_]; [contradiction|].
    run. eexists. split; [reflexivity|]. run.
    rewrite <- !app_assoc. repeat split.
    unfold st0. run. rewrite <- !app_assoc. reflexivity.
  - intros Hc Hnone.
    assert (Hn0 : sent_cmd (dev st0) = None) by exact Hnone.
    clearbody st0.
    destruct (Z.eqb_spec code BT_HCI_EVT_CMD_COMPLETE) as [E|NE].
    + cbv beta iota. unfold bind. destruct (hci_cmd_complete_null i st0 Hn0) as (s & Es). rewrite Es.
      exists s. reflexivity.
    + destruct (Z.eqb_spec code BT_HCI_EVT_CMD_STATUS) as [E|NE'].
      * cbv beta iota. unfold bind. destruct (hci_cmd_status_null i st0 Hn0) as (s & Es). rewrite Es.
        exists s. reflexivity.
      * exfalso. tauto.
  - intros Hc sent Hsent. unfold op. rewrite <- Hb0.
    destruct (Z.eqb_spec code BT_HCI_EVT_CMD_COMPLETE) as [E|NE].
    + apply (Hcompl (hci_cmd_complete i) sizeof_evt_cmd_complete 0); [|exact Hsent].
      intros s Hs. apply (hci_cmd_complete_effect i st0 s Hs).
    + destruct (Z.eqb_spec code BT_HCI_EVT_CMD_STATUS) as [E|NE'].
      * apply (Hcompl (hci_cmd_status i) sizeof_evt_cmd_status 1); [|exact Hsent].
        intros s Hs. apply (hci_cmd_status_effect i st0 s Hs).
      * exfalso. tauto.
Qed.

Lemma hci_event_returns_buffer_matching_reset :
  let st := after matching_scenario in
  fld8 (buf_of st 1) (data (buf_of st 1)) 0 = BT_HCI_EVT_CMD_COMPLETE /\
  sent_cmd (dev st) = Some O /\
  exists st',
    hci_event 1 st = Ret tt st' /\
    sent_cmd (dev st') = None /\
    free_bufs st' = free_bufs st ++ [0; 1]%nat.
Proof.
  cbv zeta.
  assert (H1 : fld8 (buf_of (after matching_scenario) 1)
                 (data (buf_of (after matching_scenario) 1)) 0 = BT_HCI_EVT_CMD_COMPLETE)
    by (vm_compute; reflexivity).
  assert (H2 : sent_cmd (dev (after matching_scenario)) = Some O)
    by (vm_compute; reflexivity).
  split; [exact H1|]. split; [exact H2|].
  destruct (proj2 (proj2 (hci_event_returns_buffer (after matching_scenario) 1))
              (or_introl H1) O H2)
    as (st' & Hrun & [(_ & Hs & Hf) | (Hne & _)]).
  - exists st'. split; [exact Hrun|]. split; [exact Hs | exact Hf].
  - exfalso. apply Hne. vm_compute. reflexivity.
Defined.

(** X8: [hci_cmd_status] has no response parser: whatever the opcode, it
    logs "Unknown opcode" as an error, also for the command that is
    outstanding, and leaves what the host knows about the controller as it
    is; it still correlates the event, so a Command Status for the
    outstanding command completes it and releases its buffer. *)
Theorem command_status_only_correlates (st : sys) (i sent : nat) :
  sent_cmd (dev st) = Some sent ->
  let b := buf_of st i in
  let op := fld16 b (data b) 2 in
  exists st' l,
    hci_cmd_status i st = Ret tt st' /\
    controller_info (dev st') = controller_info (dev st) /\
    trace st' = trace st ++ [Dbg "opcode %x\n" [op]; Err "Unknown opcode %x" [op]] ++ l /\
    (opcode (buf_of st sent) = op ->
     sent_cmd (dev st') = None /\ free_bufs st' = free_bufs st ++ [sent]).
Proof.
  intros Hsent b op.
  destruct (hci_cmd_status_effect i st sent Hsent)
    as (st1 & l1 & l2 & l3 & Hrun1 & _ & _ & _ & _ & _ & _ & _ & _ & Hcorr & _).
  fold b in Hcorr. fold op in Hcorr.
  assert (H : exists st' l,
             hci_cmd_status i st = Ret tt st' /\
             controller_info (dev st') = controller_info (dev st) /\
             trace st' = trace st ++
               [Dbg "opcode %x\n" [op]; Err "Unknown opcode %x" [op]] ++ l).
  { unfold hci_cmd_status. run. fold b. fold op.
    set (st0 := emit (Err "Unknown opcode %x" [op]) _).
    assert (Hs0 : sent_cmd (dev st0) = Some sent) by exact Hsent.
    assert (Hi0 : controller_info (dev st0) = controller_info (dev st)) by reflexivity.
    assert (Ht0 : trace st0 = trace st ++
                    [Dbg "opcode %x\n" [op]; Err "Unknown opcode %x" [op]])
      by (unfold st0; run; rewrite <- app_assoc; reflexivity).
    clearbody st0.
    destruct (done_refill_info op i (data b) 1 st0 sent Hs0) as (st' & l & E & Hi & Ht).
    exists st', l. split; [exact E|]. split; [congruence|].
    rewrite Ht, Ht0, <- app_assoc. reflexivity. }
  destruct H as (st' & l & Hrun & Hi & Ht).
  exists st', l. split; [exact Hrun|]. split; [exact Hi|]. split; [exact Ht|].
  intros Hop. assert (st1 = st') as -> by congruence.
  destruct Hcorr as [(Hne & _) | (_ & Hs & Hf & _)]; [contradiction|].
  split; [exact Hs | exact Hf].
Qed.

Lemma command_status_only_correlates_reset :
  let st := event_pulled 1 (after status_scenario) in
  sent_cmd (dev st) = Some O /\
  opcode (buf_of st O) = BT_HCI_OP_RESET /\
  exists st',
    hci_cmd_status 1 st = Ret tt st' /\
    controller_info (dev st') = controller_info (dev st) /\
    In (Err "Unknown opcode %x" [BT_HCI_OP_RESET]) (trace st') /\
    sent_cmd (dev st') = None.
Proof.
  cbv zeta.
  assert (H1 : sent_cmd (dev (event_pulled 1 (after status_scenario))) = Some O)
    by (vm_compute; reflexivity).
  split; [exact H1|]. split; [vm_compute; reflexivity|].
  destruct (command_status_only_correlates _ 1%nat O H1)
    as (st' & l & Hrun & Hi & Ht & Hc).
  exists st'. split; [exact Hrun|]. split; [exact Hi|]. split.
  - rewrite Ht. apply in_or_app. right. right. left. vm_compute. reflexivity.
  - apply Hc. vm_compute. reflexivity.
Defined.

Lemma cmd_complete_switch_default (op : Z) (i : nat) :
  ~ In op parsed_opcodes ->
  cmd_complete_switch op i = BT_ERR "Unknown opcode %x\n" [op].
Proof.
  intros H. unfold cmd_complete_switch.
  repeat match goal with
         | |- (if ?x =? ?y then _ else _) = _ =>
             destruct (Z.eqb_spec x y) as [E|_];
             [exfalso; apply H; rewrite E; unfold parsed_opcodes; cbn [In]; tauto|]
         end.
  reflexivity.
Qed.

(** X9: a Command Complete for an opcode without a response parser, such as
    the SET_EVENT_MASK and LE_WRITE_LE_HOST_SUPP that [hci_init] sends, is
    logged as "Unknown opcode" and changes nothing the host knows about the
    controller; it is still correlated: when it is the outstanding command,
    [sent_cmd] is cleared, the buffer released and a synchronous sender
    woken. *)
Theorem unparsed_completion_completes (st : sys) (i sent : nat) :
  sent_cmd (dev st) = Some sent ->
  let b := buf_of st i in
  let op := fld16 b (data b) 1 in
  ~ In op parsed_opcodes ->
  exists st' l,
    hci_cmd_complete i st = Ret tt st' /\
    controller_info (dev st') = controller_info (dev st) /\
    trace st' = trace st ++ [Dbg "opcode %x\n" [op]; Err "Unknown opcode %x\n" [op]] ++ l /\
    (opcode (buf_of st sent) = op ->
     sent_cmd (dev st') = None /\
     free_bufs st' = free_bufs st ++ [sent] /\
     forall s, sync (buf_of st sent) = Some s -> sems st' = list_upd s S (sems st)).
Proof.
  intros Hsent b op Hop.
  destruct (hci_cmd_complete_effect i st sent Hsent)
    as (st1 & l1 & l2 & l3 & Hrun1 & _ & _ & _ & _ & _ & _ & _ & _ & Hcorr & _).
  fold b in Hcorr. fold op in Hcorr.
  assert (H : exists st' l,
             hci_cmd_complete i st = Ret tt st' /\
             controller_info (dev st') = controller_info (dev st) /\
             trace st' = trace st ++
               [Dbg "opcode %x\n" [op]; Err "Unknown opcode %x\n" [op]] ++ l).
  { unfold hci_cmd_complete. run. fold b. fold op.
    rewrite (cmd_complete_switch_default op i Hop). run.
    set (st0 := emit (Err "Unknown opcode %x\n" [op]) _).
    assert (Hs0 : sent_cmd (dev st0) = Some sent) by exact Hsent.
    assert (Hi0 : controller_info (dev st0) = controller_info (dev st)) by reflexivity.
    assert (Ht0 : trace st0 = trace st ++
                    [Dbg "opcode %x\n" [op]; Err "Unknown opcode %x\n" [op]])
      by (unfold st0; run; rewrite <- app_assoc; reflexivity).
    clearbody st0.
    destruct (done_refill_info op i (data b) 0 st0 sent Hs0) as (st' & l & E & Hi & Ht).
    exists st', l. split; [exact E|]. split; [congruence|].
    rewrite Ht, Ht0, <- app_assoc. reflexivity. }
  destruct H as (st' & l & Hrun & Hi & Ht).
  exists st', l. split; [exact Hrun|]. split; [exact Hi|]. split; [exact Ht|].
  intros Heq. assert (st1 = st') as -> by congruence.
  destruct Hcorr as [(Hne & _) | (_ & Hs & Hf & Hsync)]; [contradiction|].
  split; [exact Hs|]. split; [exact Hf|].
  intros s Hsy. destruct Hsync as [(Hn & _) | (s' & Hs' & Hsems & _)]; congruence.
Qed.

Lemma unparsed_completion_completes_event_mask :
  let st := event_pulled 1 (after event_mask_scenario) in
  sent_cmd (dev st) = Some O /\
  fld16 (buf_of st 1) (data (buf_of st 1)) 1 = BT_HCI_OP_SET_EVENT_MASK /\
  ~ In BT_HCI_OP_SET_EVENT_MASK parsed_opcodes /\
  exists st',
    hci_cmd_complete 1 st = Ret tt st' /\
    In (Err "Unknown opcode %x\n" [BT_HCI_OP_SET_EVENT_MASK]) (trace st') /\
    sent_cmd (dev st') = None /\
    free_bufs st' = free_bufs st ++ [O].
Proof.
  cbv zeta.
  assert (H1 : sent_cmd (dev (event_pulled 1 (after event_mask_scenario))) = Some O)
    by (vm_compute; reflexivity).
  assert (H2 : fld16 (buf_of (event_pulled 1 (after event_mask_scenario)) 1)
                 (data (buf_of (event_pulled 1 (after event_mask_scenario)) 1)) 1 =
               BT_HCI_OP_SET_EVENT_MASK) by (vm_compute; reflexivity).
  assert (H3 : ~ In BT_HCI_OP_SET_EVENT_MASK parsed_opcodes)
    by (vm_compute; intuition discriminate).
  split; [exact H1|]. split; [exact H2|]. split; [exact H3|].
  destruct (unparsed_completion_completes _ 1%nat O H1) as (st' & l & Hrun & _ & Ht & Hc).
  - rewrite H2. exact H3.
  - exists st'. split; [exact Hrun|]. split.
    + rewrite Ht, H2. apply in_or_app. right. right. left. reflexivity.
    + destruct Hc as (Hs & Hf & _); [vm_compute; reflexivity|].
      split; [exact Hs | exact Hf].
Defined.

(** ** The queues *)

Lemma queues_grow_refl (st : sys) : queues_grow st st.
Proof.
  split; [exists []; now rewrite app_nil_r|].
  split; [exists []; now rewrite app_nil_r | reflexivity].
Qed.

Lemma queues_grow_trans (st1 st2 st3 : sys) :
  queues_grow st1 st2 -> queues_grow st2 st3 -> queues_grow st1 st3.
Proof.
  intros ((e1 & H1) & (m1 & H2) & H3) ((e2 & H4) & (m2 & H5) & H6).
  split; [exists (e1 ++ e2); rewrite H4, H1, app_assoc; reflexivity|].
  split; [exists (m1 ++ m2); rewrite H5, H2, app_assoc; reflexivity|].
  congruence.
Qed.

Lemma grow_ret {A} (a : A) : keeps queues_grow (ret a).
Proof. intros st. apply queues_grow_refl. Qed.

Lemma grow_get : keeps queues_grow get.
Proof. intros st. apply queues_grow_refl. Qed.

Lemma grow_null {A} : keeps queues_grow (@null_deref A).
Proof. intros st. exact I. Qed.

Lemma grow_bind {A B} (m : M A) (f : A -> M B) :
  keeps queues_grow m -> (forall a, keeps queues_grow (f a)) -> keeps queues_grow (bind m f).
Proof.
  intros Hm Hf st. unfold bind. specialize (Hm st).
  destruct (m st) as [a st1 | st1 | s st1 k]; cbn [bind_res res_rel] in *.
  - specialize (Hf a st1). destruct (f a st1); cbn [res_rel] in *;
      try exact I; eapply queues_grow_trans; eassumption.
  - exact I.
  - exact Hm.
Qed.

Lemma grow_modify (f : sys -> sys) :
  (forall st, queues_grow st (f st)) -> keeps queues_grow (modify f).
Proof. intros H st. apply H. Qed.

Ltac grow_here :=
  unfold queues_grow; run; rewrite ?sent_bufs_app; cbn [sent_bufs flat_map app];
  rewrite ?app_nil_r;
  (split; [first [exists []; rewrite app_nil_r; reflexivity | eexists; reflexivity]|]);
  (split; [first [exists []; rewrite app_nil_r; reflexivity | eexists; reflexivity]|]);
  reflexivity.

Lemma grow_dbg (fmt : string) (args : list Z) : keeps queues_grow (BT_DBG fmt args).
Proof. intros st. cbn [BT_DBG modify res_rel]. grow_here. Qed.

Lemma grow_err (fmt : string) (args : list Z) : keeps queues_grow (BT_ERR fmt args).
Proof. intros st. cbn [BT_ERR modify res_rel]. grow_here. Qed.

Lemma grow_upd_buf (i : nat) (f : bt_buf -> bt_buf) : keeps queues_grow (modify (upd_buf i f)).
Proof. apply grow_modify. intros st. grow_here. Qed.

Lemma grow_buf_add (i : nat) (n : Z) : keeps queues_grow (buf_add i n).
Proof. intros st. cbn [buf_add res_rel]. grow_here. Qed.

Lemma grow_buf_pull (i : nat) (n : Z) : keeps queues_grow (buf_pull i n).
Proof. intros st. cbn [buf_pull res_rel]. grow_here. Qed.

Lemma grow_buf_store (i : nat) (off : Z) (bytes : list Z) :
  keeps queues_grow (buf_store i off bytes).
Proof. apply grow_upd_buf. Qed.

Lemma grow_bt_buf_put (i : nat) : keeps queues_grow (bt_buf_put i).
Proof. intros st. cbn [bt_buf_put bind bind_res BT_DBG modify res_rel]. grow_here. Qed.

Lemma grow_cmd_queue_put (i : nat) : keeps queues_grow (cmd_queue_put i).
Proof. intros st. cbn [cmd_queue_put modify res_rel]. grow_here. Qed.

Lemma grow_bt_recv (i : nat) : keeps queues_grow (bt_recv i).
Proof. intros st. cbn [bt_recv modify res_rel]. grow_here. Qed.

Lemma grow_sem_init : keeps queues_grow nano_sem_init.
Proof. intros st. cbn [nano_sem_init res_rel]. grow_here. Qed.

Lemma grow_sem_take_wait (s : sem_id) : keeps queues_grow (nano_sem_take_wait s).
Proof.
  intros st. unfold nano_sem_take_wait.
  destruct (0 <? sem_count s st)%nat; cbn [res_rel]; grow_here.
Qed.

Lemma grow_fiber_sem_give (s : sem_id) : keeps queues_grow (nano_fiber_sem_give s).
Proof. intros st. cbn [nano_fiber_sem_give modify res_rel]. grow_here. Qed.

Lemma grow_ncmd_sem_give : keeps queues_grow ncmd_sem_give.
Proof. intros st. cbn [ncmd_sem_give modify res_rel]. grow_here. Qed.

Create HintDb grow.
#[local] Hint Resolve grow_ret grow_get grow_null grow_dbg grow_err grow_upd_buf
  grow_buf_add grow_buf_pull grow_buf_store grow_bt_buf_put grow_cmd_queue_put
  grow_bt_recv grow_sem_init grow_sem_take_wait grow_fiber_sem_give
  grow_ncmd_sem_give : grow.

Ltac grow_step :=
  cbv beta zeta;
  match goal with
  | |- keeps queues_grow _ => solve [auto with grow nocore]
  | |- keeps queues_grow (bind _ _) => apply grow_bind; [|intro]
  | |- keeps queues_grow (modify _) => apply grow_modify; intro; grow_here
  | |- keeps queues_grow (if ?c then _ else _) => destruct c
  | |- keeps queues_grow (match ?x with _ => _ end) => destruct x
  end.

Ltac grow := repeat grow_step.

Lemma grow_get_reserve (rh : Z) : keeps queues_grow (bt_buf_get_reserve rh).
Proof. unfold bt_buf_get_reserve. grow. Qed.
#[local] Hint Resolve grow_get_reserve : grow.

Lemma grow_create (op plen : Z) : keeps queues_grow (bt_hci_cmd_create op plen).
Proof. unfold bt_hci_cmd_create. grow. Qed.
#[local] Hint Resolve grow_create : grow.

Lemma grow_send (op : Z) (buf : option nat) : keeps queues_grow (bt_hci_cmd_send op buf).
Proof. unfold bt_hci_cmd_send. grow. Qed.

Lemma grow_send_sync (op : Z) (buf : option nat) :
  keeps queues_grow (bt_hci_cmd_send_sync op buf).
Proof. unfold bt_hci_cmd_send_sync. grow. Qed.

Lemma grow_buf_fill (i : nat) (bytes : list Z) : keeps queues_grow (buf_fill i bytes).
Proof. unfold buf_fill. grow. Qed.

Lemma grow_drv_deliver (ty : bt_buf_type) (bytes : list Z) :
  keeps queues_grow (drv_deliver ty bytes).
Proof. unfold drv_deliver, bt_buf_get. grow. Qed.

Lemma grow_hci_acl (i : nat) : keeps queues_grow (hci_acl i).
Proof. unfold hci_acl. grow. Qed.

Lemma grow_switch (op : Z) (i : nat) : keeps queues_grow (cmd_complete_switch op i).
Proof.
  unfold cmd_complete_switch, hci_reset_complete, hci_read_local_ver_complete,
    hci_read_features_complete, hci_read_buffer_size_complete, hci_read_bdaddr_complete,
    hci_le_read_buffer_size_complete, hci_le_read_features_complete.
  grow.
Qed.

Lemma grow_cmd_done (op : Z) : keeps queues_grow (hci_cmd_done op).
Proof. unfold hci_cmd_done. grow. Qed.

Lemma grow_credit_refill (i : nat) (evt off : Z) : keeps queues_grow (credit_refill i evt off).
Proof. unfold credit_refill. grow. Qed.
#[local] Hint Resolve grow_hci_acl grow_switch grow_cmd_done grow_credit_refill : grow.

Lemma grow_cmd_complete (i : nat) : keeps queues_grow (hci_cmd_complete i).
Proof. unfold hci_cmd_complete. grow. Qed.

Lemma grow_cmd_status (i : nat) : keeps queues_grow (hci_cmd_status i).
Proof. unfold hci_cmd_status. grow. Qed.
#[local] Hint Resolve grow_cmd_complete grow_cmd_status : grow.

Lemma grow_hci_event (i : nat) : keeps queues_grow (hci_event i).
Proof. unfold hci_event. grow. Qed.
#[local] Hint Resolve grow_hci_event : grow.

Lemma grow_rx_dispatch (i : nat) : keeps queues_grow (hci_rx_dispatch i).
Proof. unfold hci_rx_dispatch. grow. Qed.

Lemma settle_keeps {A} (R : sys -> sys -> Prop) (m : M A) (st st' : sys) :
  keeps R m -> settle (m st) = Some st' -> R st st'.
Proof.
  intros H E. specialize (H st).
  destruct (m st); cbn [settle res_rel] in *; try discriminate E;
    injection E as <-; exact H.
Qed.

Lemma caller_step_grows (a : action) (st st' : sys) :
  is_caller_action a = true -> step a st = Some st' -> queues_grow st st'.
Proof.
  destruct a; try discriminate; intros _; cbn [step]; apply settle_keeps.
  - apply grow_drv_deliver.
  - apply grow_create.
  - apply grow_buf_fill.
  - apply grow_send.
  - apply grow_send_sync.
Qed.

Lemma rx_step_grows (st st' : sys) :
  hci_rx_fiber st = Some st' ->
  exists i rest,
    rx_queue (dev st) = i :: rest /\
    queues_grow (upd_dev (set_rx_queue rest) st) st'.
Proof.
  unfold hci_rx_fiber. intros H.
  destruct (rx_fiber st); try discriminate H.
  destruct (rx_queue (dev st)) as [|i rest]; cbn [nano_fifo_get] in H; try discriminate H.
  exists i, rest. split; [reflexivity|].
  pose proof (grow_rx_dispatch i (upd_dev (set_rx_queue rest) st)) as Hk.
  destruct (hci_rx_dispatch i (upd_dev (set_rx_queue rest) st));
    try discriminate H.
  injection H as <-. exact Hk.
Qed.

Lemma cmdq_kept_refl (st : sys) : cmdq_kept st st.
Proof. split; reflexivity. Qed.

Lemma cmdq_kept_trans (st1 st2 st3 : sys) :
  cmdq_kept st1 st2 -> cmdq_kept st2 st3 -> cmdq_kept st1 st3.
Proof. intros (H1 & H2) (H3 & H4). split; congruence. Qed.

Lemma kept_bind {A B} (m : M A) (f : A -> M B) :
  keeps cmdq_kept m -> (forall a, keeps cmdq_kept (f a)) -> keeps cmdq_kept (bind m f).
Proof.
  intros Hm Hf st. unfold bind. specialize (Hm st).
  destruct (m st) as [a st1 | st1 | s st1 k]; cbn [bind_res res_rel] in *.
  - specialize (Hf a st1). destruct (f a st1); cbn [res_rel] in *;
      try exact I; eapply cmdq_kept_trans; eassumption.
  - exact I.
  - exact Hm.
Qed.

Ltac kept_here :=
  unfold cmdq_kept; run; rewrite ?sent_bufs_app; cbn [sent_bufs flat_map app];
  rewrite ?app_nil_r; split; reflexivity.

Create HintDb kept.

Ltac kept_step :=
  cbv beta zeta;
  match goal with
  | |- keeps cmdq_kept (bind _ _) => apply kept_bind; [|intro]
  | |- keeps cmdq_kept (if ?c then _ else _) => destruct c
  | |- keeps cmdq_kept (match ?x with _ => _ end) => destruct x
  | |- keeps cmdq_kept _ => solve [auto with kept nocore]
  | |- keeps cmdq_kept _ =>
      let st := fresh "st" in
      intros st;
      cbn [ret get null_deref modify BT_DBG BT_ERR buf_add buf_pull buf_store bt_recv
           nano_fiber_sem_give ncmd_sem_give res_rel];
      first [exact I | kept_here]
  end.

Ltac kept := repeat kept_step.

Lemma kept_bt_buf_put (i : nat) : keeps cmdq_kept (bt_buf_put i).
Proof. unfold bt_buf_put. kept. Qed.
#[local] Hint Resolve kept_bt_buf_put : kept.

Lemma kept_get_reserve (rh : Z) : keeps cmdq_kept (bt_buf_get_reserve rh).
Proof. unfold bt_buf_get_reserve. kept. Qed.
#[local] Hint Resolve kept_get_reserve : kept.

Lemma kept_create (op plen : Z) : keeps cmdq_kept (bt_hci_cmd_create op plen).
Proof. unfold bt_hci_cmd_create. kept. Qed.

Lemma kept_buf_fill (i : nat) (bytes : list Z) : keeps cmdq_kept (buf_fill i bytes).
Proof. unfold buf_fill. kept. Qed.

Lemma kept_drv_deliver (ty : bt_buf_type) (bytes : list Z) :
  keeps cmdq_kept (drv_deliver ty bytes).
Proof. unfold drv_deliver, bt_buf_get. kept. Qed.

Lemma kept_hci_acl (i : nat) : keeps cmdq_kept (hci_acl i).
Proof. unfold hci_acl. kept. Qed.

Lemma kept_switch (op : Z) (i : nat) : keeps cmdq_kept (cmd_complete_switch op i).
Proof.
  unfold cmd_complete_switch, hci_reset_complete, hci_read_local_ver_complete,
    hci_read_features_complete, hci_read_buffer_size_complete, hci_read_bdaddr_complete,
    hci_le_read_buffer_size_complete, hci_le_read_features_complete.
  kept.
Qed.

Lemma kept_cmd_done (op : Z) : keeps cmdq_kept (hci_cmd_done op).
Proof. unfold hci_cmd_done. kept. Qed.

Lemma kept_credit_refill (i : nat) (evt off : Z) : keeps cmdq_kept (credit_refill i evt off).
Proof. unfold credit_refill. kept. Qed.
#[local] Hint Resolve kept_hci_acl kept_switch kept_cmd_done kept_credit_refill : kept.

Lemma kept_cmd_complete (i : nat) : keeps cmdq_kept (hci_cmd_complete i).
Proof. unfold hci_cmd_complete. kept. Qed.

Lemma kept_cmd_status (i : nat) : keeps cmdq_kept (hci_cmd_status i).
Proof. unfold hci_cmd_status. kept. Qed.
#[local] Hint Resolve kept_cmd_complete kept_cmd_status : kept.

Lemma kept_hci_event (i : nat) : keeps cmdq_kept (hci_event i).
Proof. unfold hci_event. kept. Qed.
#[local] Hint Resolve kept_hci_event : kept.

Lemma kept_rx_dispatch (i : nat) : keeps cmdq_kept (hci_rx_dispatch i).
Proof. unfold hci_rx_dispatch. kept. Qed.

(** The buffer a send puts on the command queue: the one given, or the one
    [bt_hci_cmd_create] takes from the head of the pool. *)
Lemma send_buffer_taken (op : Z) (buf : option nat) (st : sys) :
  let m := match buf with
           | Some i => ret (Some i)
           | None => bt_hci_cmd_create op 0
           end in
  let enq := match buf with
             | Some j => [j]
             | None => firstn 1 (free_bufs st)
             end in
  (exists s, m st = Fault s) \/
  (exists st1, m st = Ret None st1 /\ cmdq_kept st st1 /\ enq = []) \/
  (exists i st1, m st = Ret (Some i) st1 /\ cmdq_kept st st1 /\ enq = [i]).
Proof.
  cbv zeta. destruct buf as [j|].
  - right. right. exists j, st. split; [reflexivity|]. split; [apply cmdq_kept_refl | reflexivity].
  - pose proof (kept_create op 0 st) as Hk.
    destruct (bt_hci_cmd_create_cases op 0 st)
      as [(_ & s & E) | (d & _ & [(Hf & E) | (i & rest & st1 & Hf & E & _)])].
    + left. exists s. exact E.
    + right. left. rewrite E in Hk. eexists. split; [exact E|]. split; [exact Hk|].
      rewrite Hf. reflexivity.
    + right. right. rewrite E in Hk. exists i, st1. split; [exact E|]. split; [exact Hk|].
      rewrite Hf. reflexivity.
Qed.

(** What one action does to the commands: the buffers handed to the driver
    followed by the command queue grow by what the action queues. *)
Lemma step_queue_order (a : action) (st st' : sys) :
  step a st = Some st' ->
  sent_bufs (trace st') ++ cmd_queue (dev st') =
  sent_bufs (trace st) ++ cmd_queue (dev st) ++ enqueues a st.
Proof.
  assert (Hkept : forall s s', cmdq_kept s s' ->
                    sent_bufs (trace s') ++ cmd_queue (dev s') =
                    sent_bufs (trace s) ++ cmd_queue (dev s) ++ []).
  { intros s s' (H1 & H2). rewrite H1, H2, app_nil_r. reflexivity. }
  destruct a as [ | | ty bytes | op plen | b bytes | op buf | op buf | s ];
    cbn [step enqueues]; intros Hstep.
  - unfold hci_cmd_fiber in Hstep.
    destruct (cmd_fiber st); try discriminate Hstep.
    + destruct (ncmd_sem (dev st)); try discriminate Hstep.
      injection Hstep as <-. apply Hkept. split; reflexivity.
    + destruct (cmd_queue (dev st)) as [|b rest] eqn:Hq; cbn [nano_fifo_get] in Hstep;
        try discriminate Hstep.
      injection Hstep as <-. run. rewrite !sent_bufs_app. cbn [sent_bufs flat_map app].
      rewrite !app_nil_r, <- app_assoc. reflexivity.
  - unfold hci_rx_fiber in Hstep.
    destruct (rx_fiber st); try discriminate Hstep.
    destruct (rx_queue (dev st)) as [|i rest]; cbn [nano_fifo_get] in Hstep;
      try discriminate Hstep.
    pose proof (kept_rx_dispatch i (upd_dev (set_rx_queue rest) st)) as Hk.
    destruct (hci_rx_dispatch i (upd_dev (set_rx_queue rest) st)); try discriminate Hstep.
    injection Hstep as <-. apply Hkept. exact Hk.
  - apply Hkept. eapply settle_keeps; [apply kept_drv_deliver | exact Hstep].
  - apply Hkept. eapply settle_keeps; [apply kept_create | exact Hstep].
  - apply Hkept. eapply settle_keeps; [apply kept_buf_fill | exact Hstep].
  - unfold bt_hci_cmd_send in Hstep. unfold bind at 1 in Hstep.
    destruct (send_buffer_taken op buf st)
      as [(s & E) | [(st1 & E & (H1 & H2) & ->) | (i & st1 & E & (H1 & H2) & ->)]];
      cbv zeta in E; rewrite E in Hstep; cbn [bind_res settle] in Hstep.
    + discriminate Hstep.
    + injection Hstep as <-. rewrite H1, H2, app_nil_r. reflexivity.
    + run in Hstep. injection Hstep as <-. run.
      rewrite sent_bufs_app. cbn [sent_bufs flat_map app].
      rewrite app_nil_r, H1, H2. reflexivity.
  - unfold bt_hci_cmd_send_sync in Hstep. unfold bind at 1 in Hstep.
    destruct (send_buffer_taken op buf st)
      as [(s & E) | [(st1 & E & (H1 & H2) & ->) | (i & st1 & E & (H1 & H2) & ->)]];
      cbv zeta in E; rewrite E in Hstep; cbn [bind_res settle] in Hstep.
    + discriminate Hstep.
    + injection Hstep as <-. rewrite H1, H2, app_nil_r. reflexivity.
    + run in Hstep. unfold bind at 1 in Hstep.
      rewrite take_wait_blocks in Hstep by (unfold sem_count; run; apply nth_middle).
      cbn [bind_res settle] in Hstep. injection Hstep as <-. run.
      rewrite sent_bufs_app. cbn [sent_bufs flat_map app].
      rewrite app_nil_r, H1, H2. reflexivity.
  - destruct (0 <? sem_count s st)%nat; try discriminate Hstep.
    injection Hstep as <-. apply Hkept. split; reflexivity.
Qed.

(** X10: commands reach the driver in the order in which they were queued,
    none is dropped and none is sent twice.  Along every schedule on which
    no buffer is ever in a queue twice or in two queues, the buffers handed
    to [drv->send] since a state, followed by the command queue, are the
    command queue of that state followed by the buffers the callers have
    queued since, each once and in the order of the calls. *)
Theorem commands_sent_in_queue_order (acts : list action) :
  forall st st',
    exec acts st = Some st' ->
    along fifos_ok acts st ->
    sent_bufs (trace st') ++ cmd_queue (dev st') =
    sent_bufs (trace st) ++ cmd_queue (dev st) ++ enqueued acts st.
Proof.
  induction acts as [|a acts IH]; intros st st' He Hok; cbn [exec enqueued along] in *.
  - injection He as <-. rewrite app_nil_r. reflexivity.
  - destruct (step a st) as [s1|] eqn:Hs; [|discriminate He].
    destruct Hok as (_ & Hok).
    rewrite (IH s1 st' He Hok), app_assoc, (step_queue_order a st s1 Hs), <- !app_assoc.
    reflexivity.
Qed.

Lemma commands_sent_in_queue_order_two_commands :
  let st := started stub_drv in
  let st' := after two_commands_scenario in
  exec two_commands_scenario st = Some st' /\
  along fifos_ok two_commands_scenario st /\
  enqueued two_commands_scenario st = [0; 1]%nat /\
  sent_bufs (trace st') = [0; 1]%nat /\
  cmd_queue (dev st') = [] /\
  sent_bufs (trace st') ++ cmd_queue (dev st') =
  sent_bufs (trace st) ++ cmd_queue (dev st) ++ enqueued two_commands_scenario st.
Proof.
  cbv zeta.
  assert (H1 : exec two_commands_scenario (started stub_drv) =
               Some (after two_commands_scenario)) by (vm_compute; reflexivity).
  assert (H2 : along fifos_ok two_commands_scenario (started stub_drv)).
  { unfold fifos_ok. vm_compute. repeat split; nodup_nat. }
  split; [exact H1|]. split; [exact H2|].
  split; [vm_compute; reflexivity|].
  split; [vm_compute; reflexivity|].
  split; [vm_compute; reflexivity|].
  exact (commands_sent_in_queue_order _ _ _ H1 H2).
Defined.

(** ** The receive fiber gives up on a buffer of unknown type *)

Lemma rx_exited_stays (a : action) (st st' : sys) :
  step a st = Some st' ->
  rx_fiber st = RxExited ->
  rx_fiber st' = RxExited /\ a <> Rx_fiber /\
  exists more, rx_queue (dev st') = rx_queue (dev st) ++ more.
Proof.
  intros Hstep Hrx.
  destruct (is_caller_action a) eqn:Hca.
  - destruct (caller_step_effect a st st' Hca Hstep) as (_ & _ & _ & _ & E & _).
    destruct (caller_step_grows a st st' Hca Hstep) as (_ & Hq & _).
    split; [congruence|]. split; [|exact Hq].
    intros ->. discriminate Hca.
  - destruct a; try discriminate Hca; cbn [step] in Hstep.
    + split; [|split; [discriminate|]].
      * unfold hci_cmd_fiber in Hstep.
        destruct (cmd_fiber st); try discriminate Hstep.
        -- destruct (ncmd_sem (dev st)); try discriminate Hstep.
           injection Hstep as <-. exact Hrx.
        -- destruct (cmd_queue (dev st)); cbn [nano_fifo_get] in Hstep;
             try discriminate Hstep.
           injection Hstep as <-. exact Hrx.
      * exists []. rewrite app_nil_r.
        unfold hci_cmd_fiber in Hstep.
        destruct (cmd_fiber st); try discriminate Hstep.
        -- destruct (ncmd_sem (dev st)); try discriminate Hstep.
           injection Hstep as <-. reflexivity.
        -- destruct (cmd_queue (dev st)); cbn [nano_fifo_get] in Hstep;
             try discriminate Hstep.
           injection Hstep as <-. reflexivity.
    + exfalso. unfold hci_rx_fiber in Hstep. rewrite Hrx in Hstep. discriminate Hstep.
    + destruct (0 <? sem_count s st)%nat; try discriminate Hstep.
      injection Hstep as <-. split; [exact Hrx|]. split; [discriminate|].
      exists []. rewrite app_nil_r. reflexivity.
Qed.

Lemma rx_exited_forever (acts : list action) :
  forall st st',
    exec acts st = Some st' ->
    rx_fiber st = RxExited ->
    rx_fiber st' = RxExited /\ ~ In Rx_fiber acts /\
    exists more, rx_queue (dev st') = rx_queue (dev st) ++ more.
Proof.
  induction acts as [|a acts IH]; intros st st' He Hrx; cbn [exec] in He.
  - injection He as <-. split; [exact Hrx|]. split; [intros []|].
    exists []. rewrite app_nil_r. reflexivity.
  - destruct (step a st) as [st1|] eqn:Hstep; try discriminate He.
    destruct (rx_exited_stays a st st1 Hstep Hrx) as (H1 & H2 & m1 & H3).
    destruct (IH st1 st' He H1) as (H4 & H5 & m2 & H6).
    split; [exact H4|]. split.
    + intros [E|E]; [congruence | contradiction].
    + exists (m1 ++ m2). rewrite H6, H3, app_assoc. reflexivity.
Qed.

(** X6: when [hci_rx_fiber] takes a buffer whose type is neither [BT_EVT]
    nor [BT_ACL] from its queue, it logs the type and returns: the buffer
    is not given back to the pool, and along every later schedule the
    receive fiber never runs again, so what the driver delivers from then on
    stays in the receive queue. *)
Theorem rx_fiber_exits_on_unknown_type (st : sys) (i : nat) (rest : list nat) :
  rx_fiber st = RxWaitFifo ->
  rx_queue (dev st) = i :: rest ->
  type (buf_of st i) <> BT_EVT ->
  type (buf_of st i) <> BT_ACL ->
  exists st',
    step Rx_fiber st = Some st' /\
    rx_fiber st' = RxExited /\
    rx_queue (dev st') = rest /\
    free_bufs st' = free_bufs st /\
    buffers st' = buffers st /\
    trace st' = trace st ++
      [Dbg "buf %p type %u len %u\n" [ptr i; type_code (type (buf_of st i)); len (buf_of st i)];
       Err "Unknown buf type %u\n" [type_code (type (buf_of st i))]] /\
    forall acts st'',
      exec acts st' = Some st'' ->
      rx_fiber st'' = RxExited /\ ~ In Rx_fiber acts /\
      exists more, rx_queue (dev st'') = rest ++ more.
Proof.
  intros Hrx Hq Hne Hna.
  assert (Hstep : exists st',
             step Rx_fiber st = Some st' /\
             rx_fiber st' = RxExited /\
             rx_queue (dev st') = rest /\
             free_bufs st' = free_bufs st /\
             buffers st' = buffers st /\
             trace st' = trace st ++
               [Dbg "buf %p type %u len %u\n"
                  [ptr i; type_code (type (buf_of st i)); len (buf_of st i)];
                Err "Unknown buf type %u\n" [type_code (type (buf_of st i))]]).
  { cbn [step]. unfold hci_rx_fiber. rewrite Hrx, Hq. cbn [nano_fifo_get].
    unfold hci_rx_dispatch. run.
    change (buf_of (upd_dev (set_rx_queue rest) st) i) with (buf_of st i).
    destruct (type (buf_of st i)) eqn:Hty; try contradiction;
      run; eexists; (split; [reflexivity|]); run;
      rewrite <- app_assoc; repeat split. }
  destruct Hstep as (st' & Hs & H1 & H2 & H3 & H4 & H5).
  exists st'. split; [exact Hs|]. split; [exact H1|]. split; [exact H2|].
  split; [exact H3|]. split; [exact H4|]. split; [exact H5|].
  intros acts st'' He. rewrite <- H2. apply (rx_exited_forever acts st' st'' He H1).
Qed.

(** ** Commands on the wire *)

Lemma write_at_nth (l : list Z) :
  forall (off k : nat) (bytes : list Z) (d : Z),
    (off + List.length bytes <= List.length l)%nat ->
    (k < List.length bytes)%nat ->
    nth (off + k) (write_at l off bytes) d = nth k bytes d.
Proof.
  induction l as [|y l IH]; intros off k bytes d Hfit Hk.
  - destruct bytes; cbn [List.length] in *; lia.
  - destruct bytes as [|x rest]; [cbn [List.length] in Hk; lia|].
    destruct off as [|o].
    + cbn [write_at Nat.add]. destruct k as [|k]; [reflexivity|].
      cbn [nth]. cbn [List.length] in *.
      destruct rest as [|x' rest'] eqn:Hr; [cbn [List.length] in Hk; lia|].
      rewrite <- Hr in *. apply (IH O k rest d); [cbn [Nat.add]; lia | lia].
    + cbn [write_at Nat.add nth]. apply IH; cbn [List.length] in *; lia.
Qed.

Lemma le16_round_trip (op : Z) :
  0 <= op < 2 ^ 16 ->
  sys_le16_to_cpu (Z.land op 255) (Z.land (Z.shiftr op 8) 255) = op.
Proof.
  intros H. rewrite sys_le16_to_cpu_value.
  change 255 with (Z.ones 8). rewrite !Z.land_ones by lia.
  rewrite Z.shiftr_div_pow2 by lia. unfold u8.
  rewrite !Z.mod_mod by lia.
  change (2 ^ 8) with 256.
  assert (op / 256 < 256) by (apply Z.div_lt_upper_bound; lia).
  assert (0 <= op / 256) by (apply Z.div_pos; lia).
  rewrite (Z.mod_small (op / 256)) by lia.
  pose proof (Z.div_mod op 256 ltac:(lia)). lia.
Qed.

(** With a free buffer [bt_hci_cmd_create] takes the head of the pool and
    turns it into a command. *)
Lemma create_takes_head
    (st : sys) (op plen : Z) (d : bt_driver) (i : nat) (rest : list nat) :
  drv (dev st) = Some d ->
  free_bufs st = i :: rest ->
  (i < List.length (buffers st))%nat ->
  0 <= head_reserve d < 2 ^ size_bits ->
  exists st',
    bt_hci_cmd_create op plen st = Ret (Some i) st' /\
    free_bufs st' = rest /\
    dev st' = dev st /\
    sems st' = sems st /\
    List.length (buffers st') = List.length (buffers st) /\
    (forall j, j <> i -> buf_of st' j = buf_of st j) /\
    type (buf_of st' i) = BT_CMD /\
    opcode (buf_of st' i) = op /\
    sync (buf_of st' i) = None /\
    buf_is st' i (head_reserve d) sizeof_cmd_hdr
      (write_at (buf (buf_of st i)) (Z.to_nat (head_reserve d))
         (sys_cpu_to_le16 op ++ [u8 plen])).
Proof.
  intros Hd Hf Hi Hr.
  assert (Hhr : usize (0 + head_reserve d) = head_reserve d)
    by (apply usize_small; lia).
  unfold bt_hci_cmd_create. run. rewrite Hd. run.
  unfold bt_buf_get_reserve. run. rewrite Hf. run.
  eexists. split; [reflexivity|]. run. do 3 (split; [reflexivity|]).
  split; [rewrite !length_list_upd; reflexivity|].
  split.
  { intros j Hj. unfold buf_of. run. repeat rewrite list_upd_fuse.
    rewrite nth_list_upd. rewrite (proj2 (Nat.eqb_neq i j)) by congruence.
    reflexivity. }
  unfold buf_is, buf_of. run. repeat rewrite list_upd_fuse.
  repeat rewrite nth_list_upd. rewrite length_list_upd.
  rewrite Nat.eqb_refl, (proj2 (Nat.ltb_lt _ _) Hi). run.
  fold (buf_of st i).
  unfold bt_buf_add, sizeof_cmd_hdr. run. rewrite !Hhr.
  replace (head_reserve d + 0) with (head_reserve d) by lia.
  rewrite (usize_small (head_reserve d)) by lia.
  rewrite (usize_small (0 + 3)) by (unfold size_bits; lia).
  do 3 (split; [reflexivity|]). split; [exact Hi|].
  split; [reflexivity|]. split; reflexivity.
Qed.

(** X12: with a free buffer [bt_hci_cmd_create] returns the head of the
    pool as a command: [data] is at the driver's head reserve, [len] is the
    three header bytes, the opcode is recorded for the correlator, and the
    header it has written decodes, little-endian, to the same opcode and to
    the parameter length; the head reserve is left as headroom for the
    driver. *)
Theorem cmd_create_writes_header
    (st : sys) (op plen : Z) (d : bt_driver) (i : nat) (rest : list nat) :
  drv (dev st) = Some d ->
  free_bufs st = i :: rest ->
  (i < List.length (buffers st))%nat ->
  List.length (buf (buf_of st i)) = Z.to_nat BT_BUF_MAX_DATA ->
  0 <= head_reserve d ->
  head_reserve d + sizeof_cmd_hdr <= BT_BUF_MAX_DATA ->
  0 <= op < 2 ^ 16 ->
  0 <= plen < 2 ^ 8 ->
  exists st',
    bt_hci_cmd_create op plen st = Ret (Some i) st' /\
    free_bufs st' = rest /\
    let b := buf_of st' i in
    type b = BT_CMD /\
    opcode b = op /\
    sync b = None /\
    data b = head_reserve d /\
    len b = sizeof_cmd_hdr /\
    bt_buf_headroom b = head_reserve d /\
    bt_buf_tailroom b = BT_BUF_MAX_DATA - head_reserve d - sizeof_cmd_hdr /\
    fld16 b (data b) 0 = op /\
    fld8 b (data b) 2 = plen.
Proof.
  intros Hd Hf Hi Hlen Hr0 Hr1 Hop Hpl.
  pose proof cap_range as Hcap.
  unfold sizeof_cmd_hdr in *.
  destruct (create_takes_head st op plen d i rest Hd Hf Hi ltac:(lia))
    as (st' & Hrun & Hfree & _ & _ & _ & _ & Hty & Hopc & Hsy & _ & Hdata & Hl & Hbytes).
  exists st'. split; [exact Hrun|]. split; [exact Hfree|]. cbv zeta.
  unfold sizeof_cmd_hdr in Hl.
  split; [exact Hty|]. split; [exact Hopc|]. split; [exact Hsy|].
  split; [exact Hdata|]. split; [exact Hl|].
  unfold bt_buf_tailroom, bt_buf_headroom, fld16, fld8, byte_at.
  rewrite Hdata, Hl, Hbytes.
  rewrite (usize_small (head_reserve d - 0)) by lia.
  rewrite (usize_small (BT_BUF_MAX_DATA - (head_reserve d - 0) - 3)) by lia.
  split; [lia|]. split; [lia|].
  set (bytes := sys_cpu_to_le16 op ++ [u8 plen]).
  set (l := buf (buf_of st i)) in *.
  assert (Hfit : (Z.to_nat (head_reserve d) + List.length bytes <= List.length l)%nat).
  { rewrite Hlen. unfold bytes, sys_cpu_to_le16. cbn [List.length app]. lia. }
  assert (Hnth : forall k, (k < 3)%nat ->
             nth (Z.to_nat (head_reserve d + Z.of_nat k))
               (write_at l (Z.to_nat (head_reserve d)) bytes) 0 = nth k bytes 0).
  { intros k Hk. rewrite Z2Nat.inj_add, Nat2Z.id by lia.
    apply write_at_nth; [exact Hfit|]. unfold bytes, sys_cpu_to_le16.
    cbn [List.length app]. lia. }
  split.
  - replace (head_reserve d + 0 + 1) with (head_reserve d + Z.of_nat 1) by lia.
    rewrite (Hnth 1%nat) by lia.
    replace (head_reserve d + 0) with (head_reserve d + Z.of_nat 0) by lia.
    rewrite (Hnth 0%nat) by lia.
    unfold bytes, sys_cpu_to_le16. cbn [nth app]. apply le16_round_trip, Hop.
  - change (head_reserve d + 2) with (head_reserve d + Z.of_nat 2).
    rewrite (Hnth 2%nat) by lia.
    unfold bytes, sys_cpu_to_le16. cbn [nth app].
    unfold u8. rewrite Z.mod_mod by lia. apply Z.mod_small. exact Hpl.
Qed.

Lemma cmd_create_writes_header_read_bd_addr :
  let st := started stub_drv in
  drv (dev st) = Some stub_drv /\
  free_bufs st = [0; 1; 2; 3; 4]%nat /\
  exists st',
    bt_hci_cmd_create BT_HCI_OP_READ_BD_ADDR 0 st = Ret (Some O) st' /\
    data (buf_of st' O) = 1 /\
    len (buf_of st' O) = 3 /\
    fld16 (buf_of st' O) (data (buf_of st' O)) 0 = BT_HCI_OP_READ_BD_ADDR /\
    fld8 (buf_of st' O) (data (buf_of st' O)) 2 = 0.
Proof.
  cbv zeta.
  assert (H1 : drv (dev (started stub_drv)) = Some stub_drv) by reflexivity.
  assert (H2 : free_bufs (started stub_drv) = [0; 1; 2; 3; 4]%nat) by reflexivity.
  split; [exact H1|]. split; [exact H2|].
  destruct (cmd_create_writes_header (started stub_drv) BT_HCI_OP_READ_BD_ADDR 0
              stub_drv O [1; 2; 3; 4]%nat H1 H2)
    as (st' & Hrun & _ & _ & _ & _ & Hd & Hl & _ & _ & Hop & Hpl).
  - vm_compute. repeat constructor.
  - vm_compute. reflexivity.
  - vm_compute. discriminate.
  - vm_compute. discriminate.
  - vm_compute. split; [discriminate | reflexivity].
  - vm_compute. split; [discriminate | reflexivity].
  - exists st'. split; [exact Hrun|]. split; [exact Hd|]. split; [exact Hl|].
    split; [exact Hop | exact Hpl].
Defined.

(** X11: [bt_hci_cmd_send] never blocks and never hands anything to the
    driver.  With no buffer given it takes the head of the pool, makes it a
    command for the opcode and appends it to the command queue; with an
    empty pool it returns [-ENOBUFS] and leaves [dev] and its queues as they
    are.  A buffer that is given, and that is in none of the queues, is
    appended to the command queue as it is: neither its type nor its opcode
    is looked at.  In each case no buffer is in a queue twice afterwards. *)
Theorem cmd_send_queues_command (st : sys) (op : Z) (d : bt_driver) :
  drv (dev st) = Some d ->
  fifos_ok st ->
  (free_bufs st = [] ->
   exists st',
     bt_hci_cmd_send op None st = Ret (- ENOBUFS) st' /\
     dev st' = dev st /\
     free_bufs st' = [] /\
     sent_bufs (trace st') = sent_bufs (trace st)) /\
  (forall i rest,
      free_bufs st = i :: rest ->
      exists st',
        bt_hci_cmd_send op None st = Ret 0 st' /\
        free_bufs st' = rest /\
        dev st' = set_cmd_queue (cmd_queue (dev st) ++ [i]) (dev st) /\
        sems st' = sems st /\
        sent_bufs (trace st') = sent_bufs (trace st) /\
        fifos_ok st' /\
        ((i < List.length (buffers st))%nat ->
         opcode (buf_of st' i) = op /\ sync (buf_of st' i) = None)) /\
  (forall j,
      ~ In j (free_bufs st ++ cmd_queue (dev st) ++ rx_queue (dev st)) ->
      exists st',
        bt_hci_cmd_send op (Some j) st = Ret 0 st' /\
        dev st' = set_cmd_queue (cmd_queue (dev st) ++ [j]) (dev st) /\
        buffers st' = buffers st /\
        free_bufs st' = free_bufs st /\
        sent_bufs (trace st') = sent_bufs (trace st) /\
        fifos_ok st').
Proof.
  intros Hd Hok.
  assert (Hsent : forall buf r st',
             bt_hci_cmd_send op buf st = Ret r st' ->
             sent_bufs (trace st') = sent_bufs (trace st)).
  { intros buf r st' E. pose proof (grow_send op buf st) as H.
    rewrite E in H. apply H. }
  split; [|split].
  - intros Hf.
    destruct (send_without_buffer op st d Hd Hf) as (st1 & E & _ & Hdev & Hfree).
    exists st1. split; [exact E|]. split; [exact Hdev|]. split; [exact Hfree|].
    eapply Hsent, E.
  - intros i rest Hf.
    destruct (bt_hci_cmd_create_cases op 0 st)
      as [(Hn & _) | (d' & _ & [(He & _) | (i' & rest' & st1 & Hf' & E & Hfree & Hdev)])];
      [congruence | congruence |].
    rewrite Hf in Hf'. injection Hf' as <- <-.
    destruct (create_quiet op 0 st (Some i) st1 E) as (Hq & Hfields).
    destruct (Hfields i eq_refl) as (Hsy & Hopc).
    destruct Hq as (_ & _ & _ & _ & _ & _ & Hsems & _).
    assert (Hlen : List.length (buffers st1) = List.length (buffers st)).
    { revert E. unfold bt_hci_cmd_create. run. rewrite Hd. run.
      unfold bt_buf_get_reserve. run. rewrite Hf. run.
      intros E. injection E as <-. run. rewrite !length_list_upd. reflexivity. }
    assert (Hrun : bt_hci_cmd_send op None st =
                   Ret 0 (upd_dev (fun d0 => set_cmd_queue (nano_fifo_put (cmd_queue d0) i) d0)
                            (emit (Dbg "opcode %x len %u\n" [op; len (buf_of st1 i)]) st1))).
    { unfold bt_hci_cmd_send. unfold bind at 1. rewrite E. run. reflexivity. }
    eexists. split; [exact Hrun|]. run.
    split; [exact Hfree|]. split; [rewrite Hdev; reflexivity|].
    split; [exact Hsems|]. split; [exact (Hsent None 0 _ Hrun)|].
    split.
    { unfold fifos_ok in *. run. rewrite Hfree, Hdev. rewrite Hf in Hok.
      eapply Permutation_NoDup; [|exact Hok]. apply moved_to_queue. }
    intros Hi. change (buf_of (upd_dev _ (emit _ st1)) i) with (buf_of st1 i).
    split; [apply Hopc; rewrite Hlen; exact Hi | exact Hsy].
  - intros j Hj. eexists. unfold bt_hci_cmd_send. run.
    split; [reflexivity|]. run. do 3 (split; [reflexivity|]).
    split; [rewrite sent_bufs_app; cbn [sent_bufs flat_map app]; apply app_nil_r|].
    unfold fifos_ok in *. run.
    eapply Permutation_NoDup; [apply moved_to_queue|].
    constructor; assumption.
Qed.

Lemma cmd_send_queues_command_started :
  let st := started stub_drv in
  drv (dev st) = Some stub_drv /\
  fifos_ok st /\
  free_bufs st = [0; 1; 2; 3; 4]%nat /\
  exists st',
    bt_hci_cmd_send BT_HCI_OP_RESET None st = Ret 0 st' /\
    cmd_queue (dev st') = [O] /\
    free_bufs st' = [1; 2; 3; 4]%nat /\
    opcode (buf_of st' O) = BT_HCI_OP_RESET.
Proof.
  cbv zeta.
  assert (H1 : drv (dev (started stub_drv)) = Some stub_drv) by reflexivity.
  assert (H0 : fifos_ok (started stub_drv)) by (unfold fifos_ok; vm_compute; nodup_nat).
  assert (H2 : free_bufs (started stub_drv) = [0; 1; 2; 3; 4]%nat) by reflexivity.
  split; [exact H1|]. split; [exact H0|]. split; [exact H2|].
  destruct (proj1 (proj2 (cmd_send_queues_command (started stub_drv) BT_HCI_OP_RESET
                            stub_drv H1 H0)) O [1; 2; 3; 4]%nat H2)
    as (st' & Hrun & Hf & Hdev & _ & _ & _ & Hb).
  exists st'. split; [exact Hrun|]. split; [rewrite Hdev; reflexivity|].
  split; [exact Hf|]. apply Hb. vm_compute. repeat constructor.
Defined.

Lemma rx_fiber_exits_on_unknown_type_cmd_packet :
  let st := after [Drv_recv BT_CMD [1; 2; 3]] in
  rx_fiber st = RxWaitFifo /\
  rx_queue (dev st) = [O] /\
  type (buf_of st O) = BT_CMD /\
  exists st',
    step Rx_fiber st = Some st' /\
    rx_fiber st' = RxExited /\
    free_bufs st' = [1; 2; 3; 4]%nat /\
    step Rx_fiber st' = None.
Proof.
  cbv zeta.
  assert (H1 : rx_fiber (after [Drv_recv BT_CMD [1; 2; 3]]) = RxWaitFifo)
    by (vm_compute; reflexivity).
  assert (H2 : rx_queue (dev (after [Drv_recv BT_CMD [1; 2; 3]])) = [O])
    by (vm_compute; reflexivity).
  assert (H3 : type (buf_of (after [Drv_recv BT_CMD [1; 2; 3]]) O) = BT_CMD)
    by (vm_compute; reflexivity).
  split; [exact H1|]. split; [exact H2|]. split; [exact H3|].
  destruct (rx_fiber_exits_on_unknown_type _ O [] H1 H2)
    as (st' & Hs & Hx & _ & Hf & _ & _ & Hlater).
  - rewrite H3. discriminate.
  - rewrite H3. discriminate.
  - exists st'. split; [exact Hs|]. split; [exact Hx|].
    split; [rewrite Hf; vm_compute; reflexivity|].
    destruct (step Rx_fiber st') as [st''|] eqn:E; [|reflexivity].
    exfalso.
    destruct (Hlater [Rx_fiber] st'') as (_ & Hn & _).
    + cbn [exec]. rewrite E. reflexivity.
    + apply Hn. left. reflexivity.
Defined.

(** ** The outstanding command *)

Lemma step_sent_cmd_is_last (a : action) (st st' : sys) :
  step a st = Some st' -> sent_cmd_is_last st -> sent_cmd_is_last st'.
Proof.
  intros Hstep Hinv.
  destruct (is_caller_action a) eqn:Hca.
  - destruct (caller_step_effect a st st' Hca Hstep) as (_ & _ & Hs & _).
    destruct (caller_step_grows a st st' Hca Hstep) as (_ & _ & Ht).
    intros sent E. rewrite Ht. apply Hinv. congruence.
  - destruct a; try discriminate Hca; cbn [step] in Hstep.
    + unfold hci_cmd_fiber in Hstep.
      destruct (cmd_fiber st); try discriminate Hstep.
      * destruct (ncmd_sem (dev st)); try discriminate Hstep.
        injection Hstep as <-. exact Hinv.
      * destruct (cmd_queue (dev st)) as [|b rest]; cbn [nano_fifo_get] in Hstep;
          try discriminate Hstep.
        injection Hstep as <-. intros sent. run. intros E. injection E as <-.
        rewrite !sent_bufs_app. cbn [sent_bufs flat_map app]. rewrite app_nil_r.
        eexists. reflexivity.
    + destruct (rx_step_grows st st' Hstep) as (i & rest & _ & _ & _ & Ht).
      change (sent_bufs (trace st') = sent_bufs (trace st)) in Ht.
      apply rx_step_effect in Hstep.
      destruct Hstep as (_ & _ & l1 & l2 & l3 & l4 & _ & _ & _ & Hcase).
      intros sent E. rewrite Ht. apply Hinv.
      destruct Hcase as [(_ & _ & _ & _ & _ & Hs) | (op & sent0 & e & _ & Hs & Hco & _)].
      * congruence.
      * destruct Hco as [(_ & Hs' & _) | (_ & Hs' & _)]; congruence.
    + destruct (0 <? sem_count s st)%nat; try discriminate Hstep.
      injection Hstep as <-. exact Hinv.
Qed.

(** An action other than a run of the command fiber hands nothing to the
    driver. *)
Lemma step_sends_nothing (a : action) (st st' : sys) :
  a <> Cmd_fiber ->
  step a st = Some st' ->
  sent_bufs (trace st') = sent_bufs (trace st).
Proof.
  intros Ha Hstep.
  destruct (is_caller_action a) eqn:Hca.
  - apply (caller_step_grows a st st' Hca Hstep).
  - destruct a; try discriminate Hca; cbn [step] in Hstep.
    + contradiction.
    + destruct (rx_step_grows st st' Hstep) as (i & rest & _ & _ & _ & Ht). exact Ht.
    + destruct (0 <? sem_count s st)%nat; try discriminate Hstep.
      injection Hstep as <-. reflexivity.
Qed.

Lemma step_send_follows (a : action) (x x' : sys_send) :
  step_send a x = Some x' -> sent_cmd_follows x -> sent_cmd_follows x'.
Proof.
  unfold sent_cmd_follows. destruct x as [st w].
  assert (Hother : a <> Cmd_fiber ->
            forall st',
              step a st = Some st' ->
              match w with
              | None => sent_cmd_is_last st
              | Some buf => exists pre, sent_bufs (trace st) = pre ++ [buf]
              end ->
              match w with
              | None => sent_cmd_is_last st'
              | Some buf => exists pre, sent_bufs (trace st') = pre ++ [buf]
              end).
  { intros Ha st' Hstep Hinv. destruct w as [buf|].
    - rewrite (step_sends_nothing a st st' Ha Hstep). exact Hinv.
    - exact (step_sent_cmd_is_last a st st' Hstep Hinv). }
  destruct a; cbn [step_send core in_send];
    try match goal with
        | |- match step ?a st with _ => _ end = _ -> _ =>
            destruct (step a st) as [st'|]; [|discriminate];
            intros H; injection H as <-; cbn [core in_send];
            apply Hother; [discriminate | reflexivity]
        end.
  unfold hci_cmd_fiber_send. cbn [core in_send].
  destruct w as [buf|].
  - intros H (pre & Hpre). injection H as <-. cbn [core in_send].
    intros sent. run. intros E. injection E as <-. exists pre. exact Hpre.
  - destruct (cmd_fiber st); try discriminate.
    + destruct (ncmd_sem (dev st)); try discriminate.
      intros H Hinv. injection H as <-. exact Hinv.
    + destruct (cmd_queue (dev st)) as [|b rest]; cbn [nano_fifo_get]; try discriminate.
      intros H _. injection H as <-. cbn [core in_send]. run.
      rewrite !sent_bufs_app. cbn [sent_bufs flat_map app]. rewrite app_nil_r.
      eexists. reflexivity.
Qed.



(** ** The event mask of the bring-up *)

Lemma length_write_at (l : list Z) :
  forall (off : nat) (bytes : list Z), List.length (write_at l off bytes) = List.length l.
Proof.
  induction l as [|y l IH]; intros off bytes.
  - destruct bytes; [reflexivity|]. destruct off; reflexivity.
  - destruct bytes as [|x rest]; [reflexivity|].
    destruct off as [|o]; cbn [write_at List.length]; rewrite IH; reflexivity.
Qed.

Lemma write_at_other (l : list Z) :
  forall (off k : nat) (bytes : list Z) (d : Z),
    (k < off \/ off + List.length bytes <= k)%nat ->
    (off + List.length bytes <= List.length l)%nat ->
    nth k (write_at l off bytes) d = nth k l d.
Proof.
  induction l as [|y l IH]; intros off k bytes d Hk Hfit.
  - destruct bytes; [reflexivity|]. cbn [List.length] in Hfit. lia.
  - destruct bytes as [|x rest]; [reflexivity|].
    cbn [List.length] in *.
    destruct off as [|o].
    + cbn [write_at]. destruct k as [|k]; [lia|]. cbn [nth].
      destruct rest as [|x' rest']; [destruct l; reflexivity|].
      apply IH; cbn [List.length] in *; lia.
    + cbn [write_at]. destruct k as [|k]; [reflexivity|]. cbn [nth].
      apply IH; cbn [List.length] in *; lia.
Qed.

Lemma length_or_at (off : nat) (v : Z) (l : list Z) :
  List.length (or_at off v l) = List.length l.
Proof. unfold or_at. apply length_write_at. Qed.

Lemma nth_or_at (off k : nat) (v : Z) (l : list Z) :
  (off < List.length l)%nat ->
  nth k (or_at off v l) 0 = if (k =? off)%nat then Z.lor (nth off l 0) v else nth k l 0.
Proof.
  intros H. unfold or_at.
  destruct (Nat.eqb_spec k off) as [->|Hne].
  - pose proof (write_at_nth l off 0 [Z.lor (nth off l 0) v] 0) as E.
    rewrite Nat.add_0_r in E. rewrite E; [reflexivity| |]; cbn [List.length]; lia.
  - apply write_at_other; cbn [List.length]; lia.
Qed.

Lemma or_byte_buf_is (b : nat) (off v : Z) (st : sys) (d l : Z) (bytes : list Z) :
  buf_is st b d l bytes ->
  exists st',
    or_byte b off v st = Ret tt st' /\
    buf_is st' b d l (or_at (Z.to_nat off) v bytes) /\
    dev st' = dev st /\ sems st' = sems st /\ free_bufs st' = free_bufs st.
Proof.
  intros (Hb & Hd & Hl & Hbytes).
  eexists. split; [reflexivity|]. split; [|repeat split].
  unfold buf_is, buf_of in *. run. rewrite length_list_upd, nth_list_upd, Nat.eqb_refl.
  rewrite (proj2 (Nat.ltb_lt _ _) Hb). run.
  split; [exact Hb|]. split; [exact Hd|]. split; [exact Hl|].
  unfold or_at, byte_at. rewrite Hbytes. reflexivity.
Qed.

Lemma send_takes_head (st : sys) (op : Z) (d : bt_driver) (i : nat) (rest : list nat) :
  drv (dev st) = Some d ->
  free_bufs st = i :: rest ->
  exists st',
    bt_hci_cmd_send op None st = Ret 0 st' /\
    free_bufs st' = rest /\
    dev st' = set_cmd_queue (cmd_queue (dev st) ++ [i]) (dev st) /\
    sems st' = sems st /\
    List.length (buffers st') = List.length (buffers st) /\
    (forall j, j <> i -> buf_of st' j = buf_of st j) /\
    ((i < List.length (buffers st))%nat ->
     opcode (buf_of st' i) = op /\ type (buf_of st' i) = BT_CMD).
Proof.
  intros Hd Hf.
  unfold bt_hci_cmd_send, bt_hci_cmd_create. run. rewrite Hd. run.
  unfold bt_buf_get_reserve. run. rewrite Hf. run.
  eexists. split; [reflexivity|]. run. do 3 (split; [reflexivity|]).
  split; [rewrite !length_list_upd; reflexivity|].
  split.
  - intros j Hj. unfold buf_of. run. repeat rewrite list_upd_fuse.
    rewrite nth_list_upd. rewrite (proj2 (Nat.eqb_neq i j)) by congruence.
    reflexivity.
  - intros Hi. unfold buf_of. run. repeat rewrite list_upd_fuse.
    rewrite nth_list_upd, Nat.eqb_refl, (proj2 (Nat.ltb_lt _ _) Hi).
    split; reflexivity.
Qed.

Lemma buf_is_frame (st st' : sys) (b : nat) (d l : Z) (bytes : list Z) :
  List.length (buffers st') = List.length (buffers st) ->
  buf_of st' b = buf_of st b ->
  buf_is st b d l bytes -> buf_is st' b d l bytes.
Proof. unfold buf_is. intros -> ->. exact (fun H => H). Qed.

Lemma fill_frame_upd_buf (b : nat) (f : bt_buf -> bt_buf) (s0 st : sys) :
  (forall x, opcode (f x) = opcode x) ->
  fill_frame b s0 st -> fill_frame b s0 (upd_buf b f st).
Proof.
  intros Hf (H1 & H2 & H3 & H4 & H5). unfold fill_frame. run.
  split; [exact H1|]. split; [exact H2|]. split; [exact H3|]. split.
  - rewrite <- H4. unfold buf_of. run. apply nth_list_upd_proj. exact Hf.
  - intros j Hj. rewrite <- (H5 j Hj). unfold buf_of. run.
    rewrite nth_list_upd, (proj2 (Nat.eqb_neq b j)) by congruence. reflexivity.
Qed.

Lemma or_byte_bind {B} (b : nat) (off v : Z) (f : unit -> M B) (s0 st : sys)
      (d l : Z) (bytes : list Z) :
  fill_frame b s0 st ->
  buf_is st b d l bytes ->
  exists st',
    bind (or_byte b off v) f st = f tt st' /\
    fill_frame b s0 st' /\
    buf_is st' b d l (or_at (Z.to_nat off) v bytes).
Proof.
  intros Hc His.
  destruct (or_byte_buf_is b off v st d l bytes His) as (st' & E & His' & _).
  exists st'. split; [unfold bind; rewrite E; reflexivity|]. split; [|exact His'].
  unfold or_byte in E. cbn [modify] in E. injection E as <-.
  apply fill_frame_upd_buf; [reflexivity | exact Hc].
Qed.

Lemma buf_add_bind {B} (b : nat) (n : Z) (f : Z -> M B) (s0 st : sys)
      (d l : Z) (bytes : list Z) :
  fill_frame b s0 st ->
  buf_is st b d l bytes ->
  0 <= d + l < 2 ^ size_bits ->
  0 <= l + n < 2 ^ size_bits ->
  exists st',
    bind (buf_add b n) f st = f (d + l) st' /\
    fill_frame b s0 st' /\
    buf_is st' b d (l + n) bytes.
Proof.
  intros Hc (Hb & Hd & Hl & Hbytes) H1 H2.
  eexists. split; [|split].
  - unfold bind, buf_add. cbn [bind_res]. unfold bt_buf_add. cbn [fst].
    rewrite Hd, Hl, (usize_small (d + l)) by exact H1. reflexivity.
  - apply fill_frame_upd_buf; [reflexivity | exact Hc].
  - unfold buf_is, buf_of in *. run.
    rewrite length_list_upd, nth_list_upd, Nat.eqb_refl, (proj2 (Nat.ltb_lt _ _) Hb).
    unfold bt_buf_add. run. rewrite Hl, (usize_small (l + n)) by exact H2.
    repeat split; assumption.
Qed.

Lemma buf_store_bind {B} (b : nat) (off : Z) (data_ : list Z) (f : unit -> M B)
      (s0 st : sys) (d l : Z) (bytes : list Z) :
  fill_frame b s0 st ->
  buf_is st b d l bytes ->
  exists st',
    bind (buf_store b off data_) f st = f tt st' /\
    fill_frame b s0 st' /\
    buf_is st' b d l (write_at bytes (Z.to_nat off) data_).
Proof.
  intros Hc (Hb & Hd & Hl & Hbytes).
  eexists. split; [|split].
  - unfold bind, buf_store. cbn [modify bind_res]. reflexivity.
  - apply fill_frame_upd_buf; [reflexivity | exact Hc].
  - unfold buf_is, buf_of in *. run.
    rewrite length_list_upd, nth_list_upd, Nat.eqb_refl, (proj2 (Nat.ltb_lt _ _) Hb).
    run. rewrite Hbytes. repeat split; assumption.
Qed.

Ltac or_step Hc His :=
  match goal with
  | |- context [bind (or_byte ?b ?off ?v) ?f ?S] =>
      let s' := fresh "s" in
      let E := fresh "E" in
      let Hc' := fresh "Hc" in
      let His' := fresh "His" in
      destruct (or_byte_bind b off v f _ S _ _ _ Hc His) as (s' & E & Hc' & His');
      rewrite E; clear E; clear Hc His; rename Hc' into Hc; rename His' into His;
      cbv beta
  end.

Lemma write_at_inside (l : list Z) (off i : nat) (bytes : list Z) (d : Z) :
  (off <= i < off + List.length bytes)%nat ->
  (off + List.length bytes <= List.length l)%nat ->
  nth i (write_at l off bytes) d = nth (i - off) bytes d.
Proof.
  intros Hi Hfit. replace i with (off + (i - off))%nat at 1 by lia.
  apply write_at_nth; [exact Hfit | lia].
Qed.

Ltac len_side :=
  rewrite ?length_or_at, ?length_write_at, ?repeat_length; cbn [List.length app];
  try split; lia.

Ltac peel :=
  repeat (rewrite nth_or_at by len_side;
          match goal with
          | |- context [Nat.eqb ?a ?b] =>
              destruct (Nat.eqb_spec a b); [try (exfalso; lia) | try (exfalso; lia)]
          end).

(** The indices as natural numbers over [e = Z.to_nat hr]; only the bound
    on the byte array is kept. *)
Ltac to_nat_indices Hlen Hr0 Hr1 :=
  rewrite ?Z.add_0_r;
  rewrite !Z2Nat.inj_add by lia;
  repeat match goal with
         | |- context [Z.to_nat (Zpos ?p)] =>
             let n := eval compute in (Z.to_nat (Zpos p)) in
             change (Z.to_nat (Zpos p)) with n
         end;
  match type of Hlen with
  | List.length ?l = _ =>
      match type of Hr0 with
      | 0 <= ?h =>
          let Hfit := fresh "Hfit" in
          let e := fresh "e" in
          assert (Hfit : (Z.to_nat h + 11 <= List.length l)%nat)
            by (rewrite Hlen; lia);
          set (e := Z.to_nat h) in *; clearbody e; clear - Hfit
      end
  end.

Ltac read_mask :=
  peel;
  rewrite write_at_inside by len_side;
  rewrite nth_repeat;
  reflexivity.

Ltac read_hdr k :=
  peel;
  rewrite write_at_other by len_side;
  rewrite write_at_inside by len_side;
  match goal with
  | |- context [nth (?i - ?off) _ _] => replace (i - off)%nat with k by lia
  end;
  reflexivity.

(** X14: for an LE capable controller with three free buffers, [hci_init]
    sends the two LE reads and then blocks in the synchronous
    SET_EVENT_MASK with the three commands queued in that order: the first
    is a command for LE_READ_LOCAL_FEATURES, the second one for
    LE_READ_BUFFER_SIZE, and the third carries the opcode SET_EVENT_MASK and
    the 8-byte mask 10 e8 04 02 00 00 00 20, with the bits 0x80 of byte 0 and
    of byte 5 added when the controller supports LE encryption. *)
Theorem hci_init_event_mask
    (st : sys) (d : bt_driver) (i1 i2 b : nat) (rest : list nat) :
  drv (dev st) = Some d ->
  lmp_le_capable (dev st) = true ->
  free_bufs st = i1 :: i2 :: b :: rest ->
  i1 <> i2 -> b <> i1 -> b <> i2 ->
  (i1 < List.length (buffers st))%nat ->
  (i2 < List.length (buffers st))%nat ->
  (b < List.length (buffers st))%nat ->
  List.length (buf (buf_of st b)) = Z.to_nat BT_BUF_MAX_DATA ->
  0 <= head_reserve d ->
  head_reserve d + sizeof_cmd_hdr + sizeof_cp_set_event_mask <= BT_BUF_MAX_DATA ->
  exists s st1 k,
    hci_init_configure st = Wait s st1 k /\
    cmd_queue (dev st1) = cmd_queue (dev st) ++ [i1; i2; b] /\
    free_bufs st1 = rest /\
    (type (buf_of st1 i1) = BT_CMD /\
     opcode (buf_of st1 i1) = BT_HCI_OP_LE_READ_LOCAL_FEATURES) /\
    (type (buf_of st1 i2) = BT_CMD /\
     opcode (buf_of st1 i2) = BT_HCI_OP_LE_READ_BUFFER_SIZE) /\
    let c := buf_of st1 b in
    opcode c = BT_HCI_OP_SET_EVENT_MASK /\
    sync c = Some s /\
    data c = head_reserve d /\
    len c = sizeof_cmd_hdr + sizeof_cp_set_event_mask /\
    fld16 c (data c) 0 = BT_HCI_OP_SET_EVENT_MASK /\
    fld8 c (data c) 2 = sizeof_cp_set_event_mask /\
    fld_bytes c (data c) sizeof_cmd_hdr 8 =
      event_mask (negb (Z.land (nth 0 (le_features (dev st)) 0) BT_HCI_LE_ENCRYPTION =? 0)).
Proof.
  intros Hd Hle Hf Hn12 Hn1 Hn2 Hi1 Hi2 Hb Hlen Hr0 Hr1.
  pose proof cap_range as Hcap.
  unfold sizeof_cmd_hdr, sizeof_cp_set_event_mask in *.
  unfold hci_init_configure. cbv zeta. unfold sizeof_cp_set_event_mask.
  unfold bind at 1. cbn [get bind_res]. rewrite Hle. cbn [negb].
  (* the two LE reads *)
  destruct (send_takes_head st BT_HCI_OP_LE_READ_LOCAL_FEATURES d i1 (i2 :: b :: rest) Hd Hf)
    as (s1 & E1 & Hf1 & Hd1 & Hs1 & Hl1 & Hb1 & Ho1).
  unfold bind at 1. rewrite E1. cbn [bind_res].
  assert (Hdrv1 : drv (dev s1) = Some d) by (rewrite Hd1; exact Hd).
  destruct (send_takes_head s1 BT_HCI_OP_LE_READ_BUFFER_SIZE d i2 (b :: rest) Hdrv1 Hf1)
    as (s2 & E2 & Hf2 & Hd2 & Hs2 & Hl2 & Hb2 & Ho2).
  unfold bind at 1. rewrite E2. cbn [bind_res].
  assert (Hdrv2 : drv (dev s2) = Some d) by (rewrite Hd2; exact Hdrv1).
  assert (Hbuf2 : buf_of s2 b = buf_of st b) by (rewrite Hb2, Hb1 by assumption; reflexivity).
  (* the command *)
  destruct (create_takes_head s2 BT_HCI_OP_SET_EVENT_MASK 8 d b rest Hdrv2 Hf2)
    as (s3 & E3 & Hf3 & Hd3 & Hs3 & Hl3 & Hb3 & _ & Hop3 & _ & His);
    [rewrite Hl2, Hl1; exact Hb | lia |].
  assert (Hcmd1 : type (buf_of s3 i1) = BT_CMD /\
                  opcode (buf_of s3 i1) = BT_HCI_OP_LE_READ_LOCAL_FEATURES).
  { rewrite Hb3, Hb2 by congruence. destruct (Ho1 Hi1) as (H1 & H2). split; assumption. }
  assert (Hcmd2 : type (buf_of s3 i2) = BT_CMD /\
                  opcode (buf_of s3 i2) = BT_HCI_OP_LE_READ_BUFFER_SIZE).
  { rewrite Hb3 by congruence. rewrite <- Hl1 in Hi2.
    destruct (Ho2 Hi2) as (H1 & H2). split; assumption. }
  unfold bind at 1. rewrite E3. cbn [bind_res].
  rewrite Hbuf2 in His. unfold sizeof_cmd_hdr in His.
  assert (Hc : fill_frame b s3 s3)
    by (split; [|split; [|split; [|split]]]; intros; reflexivity).
  clear E1 E2 E3.
  (* its parameters *)
  match goal with
  | |- context [bind (buf_add ?b ?n) ?f ?S] =>
      destruct (buf_add_bind b n f s3 S _ _ _ Hc His) as (s4 & E & Hc' & His');
        [lia | lia |]; rewrite E; clear E Hc His; rename Hc' into Hc; rename His' into His;
        cbv beta
  end.
  match goal with
  | |- context [bind (buf_store ?b ?off ?dt) ?f ?S] =>
      destruct (buf_store_bind b off dt f s3 S _ _ _ Hc His) as (s5 & E & Hc' & His');
        rewrite E; clear E Hc His; rename Hc' into Hc; rename His' into His;
        cbv beta
  end.
  do 8 or_step Hc His.
  unfold bind at 1. cbn [get bind_res].
  assert (Hdev3 : le_features (dev s3) = le_features (dev st) /\
                  cmd_queue (dev s3) = cmd_queue (dev st) ++ [i1; i2]).
  { rewrite Hd3, Hd2, Hd1. run. rewrite <- app_assoc. split; reflexivity. }
  destruct Hdev3 as (Hfeat & Hq3).
  match goal with
  | |- context [le_features (dev ?S)] =>
      replace (le_features (dev S)) with (le_features (dev st))
        by (destruct Hc as (-> & _); symmetry; exact Hfeat)
  end.
  set (hr := head_reserve d) in *.
  assert (Htail : forall (S : sys) (L : list Z) (enc : bool),
             fill_frame b s3 S ->
             buf_is S b hr (3 + 8) L ->
             map (fun k => nth (Z.to_nat (hr + Z.of_nat k)) L 0) (seq 0 11) =
               sys_cpu_to_le16 BT_HCI_OP_SET_EVENT_MASK ++ [8] ++ event_mask enc ->
             exists s st1 k,
               bind (bt_hci_cmd_send_sync BT_HCI_OP_SET_EVENT_MASK (Some b))
                 (fun _ =>
                    st0 <- get;;
                    (if lmp_bredr_capable (dev st0)
                     then
                       (if le_mtu (dev st0) =? 0
                        then bt_hci_cmd_send BT_HCI_OP_READ_BUFFER_SIZE None;; ret tt
                        else ret tt);;
                       buf <- bt_hci_cmd_create BT_HCI_OP_LE_WRITE_LE_HOST_SUPP
                                sizeof_cp_write_le_host_supp;;
                       match buf with
                       | Some b0 =>
                           cp <- buf_add b0 sizeof_cp_write_le_host_supp;;
                           buf_store b0 (cp + 0) [1];;
                           buf_store b0 (cp + 1) [0];;
                           bt_hci_cmd_send_sync BT_HCI_OP_LE_WRITE_LE_HOST_SUPP (Some b0);;
                           st2 <- get;;
                           BT_DBG "HCI ver %u rev %u, manufacturer %u\n"
                             [hci_version (dev st2); hci_revision (dev st2);
                              manufacturer (dev st2)];;
                           BT_DBG "ACL buffers: pkts %u mtu %u\n"
                             [le_pkts (dev st2); le_mtu (dev st2)];;
                           ret 0
                       | None => ret (- ENOBUFS)
                       end
                     else
                       st2 <- get;;
                       BT_DBG "HCI ver %u rev %u, manufacturer %u\n"
                         [hci_version (dev st2); hci_revision (dev st2);
                          manufacturer (dev st2)];;
                       BT_DBG "ACL buffers: pkts %u mtu %u\n"
                         [le_pkts (dev st2); le_mtu (dev st2)];;
                       ret 0)) S = Wait s st1 k /\
               cmd_queue (dev st1) = cmd_queue (dev st) ++ [i1; i2; b] /\
               free_bufs st1 = rest /\
               (type (buf_of st1 i1) = BT_CMD /\
                opcode (buf_of st1 i1) = BT_HCI_OP_LE_READ_LOCAL_FEATURES) /\
               (type (buf_of st1 i2) = BT_CMD /\
                opcode (buf_of st1 i2) = BT_HCI_OP_LE_READ_BUFFER_SIZE) /\
               opcode (buf_of st1 b) = BT_HCI_OP_SET_EVENT_MASK /\
               sync (buf_of st1 b) = Some s /\
               data (buf_of st1 b) = hr /\
               len (buf_of st1 b) = 3 + 8 /\
               fld16 (buf_of st1 b) (data (buf_of st1 b)) 0 = BT_HCI_OP_SET_EVENT_MASK /\
               fld8 (buf_of st1 b) (data (buf_of st1 b)) 2 = 8 /\
               fld_bytes (buf_of st1 b) (data (buf_of st1 b)) 3 8 = event_mask enc).
  { intros S L enc (Hdv & Hsm & Hfr & Hopc & Hoth) (HbS & HdS & HlS & HbyS) HL.
    rewrite (bind_wait _ _ _ _ _ _ (send_sync_given BT_HCI_OP_SET_EVENT_MASK b S)).
    eexists. eexists. eexists. split; [reflexivity|].
    run. unfold nano_fifo_put. rewrite Hdv, Hq3, <- app_assoc.
    split; [reflexivity|]. split; [rewrite Hfr; exact Hf3|].
    assert (Hother : forall X j,
               j <> b ->
               buffers X =
                 list_upd b (set_sync (Some (List.length (sems S)))) (buffers S) ->
               buf_of X j = buf_of s3 j).
    { intros X j Hj HX. unfold buf_of at 1. rewrite HX.
      rewrite nth_list_upd, (proj2 (Nat.eqb_neq b j)) by congruence.
      apply Hoth. exact Hj. }
    rewrite !(Hother _ i1), !(Hother _ i2) by first [reflexivity | congruence].
    split; [exact Hcmd1|]. split; [exact Hcmd2|].
    unfold buf_of. run. rewrite nth_list_upd, Nat.eqb_refl, (proj2 (Nat.ltb_lt _ _) HbS).
    run. fold (buf_of S b).
    split; [rewrite Hopc; exact Hop3|]. split; [reflexivity|].
    split; [exact HdS|]. split; [exact HlS|].
    unfold fld16, fld8, fld_bytes, byte_at. run. rewrite HdS, HbyS.
    cbn [map seq] in HL |- *.
    destruct enc; cbn [event_mask sys_cpu_to_le16 app] in HL |- *;
      injection HL as H0 H1 H2 H3 H4 H5 H6 H7 H8 H9 H10.
    all: cbn [Z.of_nat Pos.of_succ_nat Pos.succ] in *.
    all: rewrite Z.add_0_r in H0.
    all: replace (hr + 0 + 1) with (hr + 1) by lia.
    all: replace (hr + 0) with hr by lia.
    all: replace (hr + 3 + 0) with (hr + 3) by lia.
    all: replace (hr + 3 + 1) with (hr + 4) by lia.
    all: replace (hr + 3 + 2) with (hr + 5) by lia.
    all: replace (hr + 3 + 3) with (hr + 6) by lia.
    all: replace (hr + 3 + 4) with (hr + 7) by lia.
    all: replace (hr + 3 + 5) with (hr + 8) by lia.
    all: replace (hr + 3 + 6) with (hr + 9) by lia.
    all: replace (hr + 3 + 7) with (hr + 10) by lia.
    all: rewrite H0, H1, H2, H3, H4, H5, H6, H7, H8, H9, H10.
    all: split; [reflexivity|]; split; reflexivity. }
  change (Z.to_nat 8) with 8%nat in His.
  assert (Hlen' : List.length (buf (buf_of st b)) = Z.to_nat BT_BUF_MAX_DATA) by exact Hlen.
  destruct (negb (Z.land (nth 0 (le_features (dev st)) 0) BT_HCI_LE_ENCRYPTION =? 0)).
  - unfold bind at 1. or_step Hc His.
    match goal with
    | |- context [bind_res (or_byte ?b ?off ?v ?S) ?f] =>
        change (bind_res (or_byte b off v S) f) with (bind (or_byte b off v) f S)
    end.
    or_step Hc His.
    match goal with
    | H : buf_is ?S _ _ _ ?L |- _ => apply (Htail S L true Hc H)
    end.
    cbn [map seq]. cbn [Z.of_nat Pos.of_succ_nat Pos.succ].
    cbn [event_mask sys_cpu_to_le16 app].
    to_nat_indices Hlen' Hr0 Hr1.
    apply f_equal2; [read_hdr 0%nat|].
    apply f_equal2; [read_hdr 1%nat|].
    apply f_equal2; [read_hdr 2%nat|].
    do 8 (apply f_equal2; [read_mask|]).
    reflexivity.
  - unfold bind at 1. cbn [ret bind_res].
    match goal with
    | H : buf_is ?S _ _ _ ?L |- _ => apply (Htail S L false Hc H)
    end.
    cbn [map seq]. cbn [Z.of_nat Pos.of_succ_nat Pos.succ].
    cbn [event_mask sys_cpu_to_le16 app].
    to_nat_indices Hlen' Hr0 Hr1.
    apply f_equal2; [read_hdr 0%nat|].
    apply f_equal2; [read_hdr 1%nat|].
    apply f_equal2; [read_hdr 2%nat|].
    do 8 (apply f_equal2; [read_mask|]).
    reflexivity.
Qed.

Lemma hci_init_event_mask_le_started :
  drv (dev le_started) = Some stub_drv /\
  lmp_le_capable (dev le_started) = true /\
  free_bufs le_started = [0; 1; 2; 3; 4]%nat /\
  exists s st1 k,
    hci_init_configure le_started = Wait s st1 k /\
    cmd_queue (dev st1) = [0; 1; 2]%nat /\
    opcode (buf_of st1 0) = BT_HCI_OP_LE_READ_LOCAL_FEATURES /\
    opcode (buf_of st1 1) = BT_HCI_OP_LE_READ_BUFFER_SIZE /\
    opcode (buf_of st1 2) = BT_HCI_OP_SET_EVENT_MASK /\
    fld_bytes (buf_of st1 2) (data (buf_of st1 2)) sizeof_cmd_hdr 8 =
      [0x10; 0xe8; 0x04; 0x02; 0x00; 0x00; 0x00; 0x20].
Proof.
  assert (H1 : drv (dev le_started) = Some stub_drv) by reflexivity.
  assert (H2 : lmp_le_capable (dev le_started) = true) by reflexivity.
  assert (H3 : free_bufs le_started = [0; 1; 2; 3; 4]%nat) by reflexivity.
  split; [exact H1|]. split; [exact H2|]. split; [exact H3|].
  destruct (hci_init_event_mask le_started stub_drv 0 1 2 [3; 4]%nat H1 H2 H3)
    as (s & st1 & k & Hrun & Hq & _ & (_ & Ho1) & (_ & Ho2) & Ho3 & _ & _ & _ & _ & _ & Hmask).
  - discriminate.
  - discriminate.
  - discriminate.
  - vm_compute. repeat constructor.
  - vm_compute. repeat constructor.
  - vm_compute. repeat constructor.
  - vm_compute. reflexivity.
  - vm_compute. discriminate.
  - vm_compute. discriminate.
  - exists s, st1, k. split; [exact Hrun|]. split; [exact Hq|].
    split; [exact Ho1|]. split; [exact Ho2|]. split; [exact Ho3|]. exact Hmask.
Defined.
